(** * Sentiment engine: aggregator, fear-and-greed index, signals, backtest

    A shallow embedding of [src/core/signal_generator.py],
    [src/core/backtesting.py], [src/core/data_models.py] and the
    [TradingConfig] constants of [src/config.py].

    Conventions of the embedding.
    - A Python [float] is an exact rational ([Q]).  Rounding, infinities and
      NaN are outside the model; a division of Python floats whose divisor
      is zero raises [ZeroDivisionError] and is modelled as such.  Numbers
      that are numpy scalars, whose division by zero gives [nan] or [inf]
      with a warning, are outside the model too.
    - A naive [datetime] is an integer count of microseconds ([Z]) since
      1970-01-01 00:00:00; a [timedelta] is a difference of two such
      counts.  The dates of a backtest are naive, and the steps of its
      loops are taken to stay within the range of [datetime].  The
      timestamp of a document may carry a time zone: it is a [datetime]
      record, and the aggregator's query has the [TypeError] and the
      [OverflowError] of Python's date arithmetic.
    - A [str] is a [string] of ASCII characters: [lower] and [upper] change
      the case of the letters A-Z and a-z only.
    - A [dict] keyed by strings that is only looked up is a [gmap string _];
      one that is iterated is an association list in insertion order.
    - An [Optional[float]] is an [option Q]; Python truthiness of such a
      value is [truthy].
    - A method that mutates its object and may raise is a computation in
      the monad [Py]; a reference to a [Position] held by a portfolio is its
      index in [positions].
    - The readings of [datetime.now()] and the variates drawn from
      [np.random] are inputs of the functions that use them. *)

From Stdlib Require Import QArith Qabs Qminmax Lqa Lia ZArith List Bool.
From stdpp Require Import gmap strings list fin_maps pretty.

Open Scope Q_scope.

(** ** Python values *)

(** [x == 0.0] on floats. *)
Definition Qis_zero (x : Q) : bool := Qeq_bool x 0.

(** [x > y] and [x >= y] on floats, as booleans. *)
Definition Qgtb (x y : Q) : bool := negb (Qle_bool x y).
Definition Qltb (x y : Q) : bool := negb (Qle_bool y x).
Definition Qgeb (x y : Q) : bool := Qle_bool y x.

(** Truthiness of an [Optional[float]]: [None] and [0.0] are falsy. *)
Definition truthy (o : option Q) : bool :=
  match o with
  | None => false
  | Some x => negb (Qis_zero x)
  end.

(** Python's two-argument [max(a, b)] and [min(a, b)]: the first argument
    is returned unless the second is strictly greater (resp. smaller). *)
Definition py_max (a b : Q) : Q := if Qgtb b a then b else a.
Definition py_min (a b : Q) : Q := if Qltb b a then b else a.

(** [sum(xs)] and [np.mean(xs)] (the latter only used on non-empty lists). *)
Definition py_sum (xs : list Q) : Q := fold_left Qplus xs 0.
Definition np_mean (xs : list Q) : Q := py_sum xs / inject_Z (Z.of_nat (length xs)).

(** Exceptions that the modelled code can raise. *)
Inductive exn : Type :=
| ZeroDivisionError
| ValueError
| KeyError
| TypeError
| OverflowError.

Inductive outcome (A : Type) : Type :=
| Returned (a : A)
| Raised (e : exn).
Arguments Returned {A} a.
Arguments Raised {A} e.

(** Float division [a / b] of Python floats (not of numpy scalars, see the
    conventions). *)
Definition py_div (a b : Q) : outcome Q :=
  if Qis_zero b then Raised ZeroDivisionError else Returned (a / b).

(** ** Data model ([core/data_models.py]) *)

Inductive SignalType : Type := BUY | SELL | HOLD.

Inductive DataSource : Type := TWITTER | REDDIT | NEWS | FINANCIAL.

Definition SignalType_eqb (a b : SignalType) : bool :=
  match a, b with
  | BUY, BUY | SELL, SELL | HOLD, HOLD => true
  | _, _ => false
  end.

Definition DataSource_eqb (a b : DataSource) : bool :=
  match a, b with
  | TWITTER, TWITTER | REDDIT, REDDIT | NEWS, NEWS | FINANCIAL, FINANCIAL => true
  | _, _ => false
  end.

(** One source's entry of [sources_breakdown]: [{'count', 'avg_sentiment'}]. *)
Record SourceStats : Type := mkSourceStats {
  count : Z;
  avg_sentiment : Q
}.

Record AggregatedSentiment : Type := mkAggregatedSentiment {
  agg_asset : string;
  agg_timestamp : Z;
  window_size : Z;
  total_mentions : Z;
  sentiment_score : Q;
  agg_confidence : Q;
  volume_weighted_score : Q;
  momentum : Q;
  sources_breakdown : list (DataSource * SourceStats)
}.

(** [market_cap] and [additional_metrics], which keep their defaults in
    all the modelled code, are left out. *)
Record MarketData : Type := mkMarketData {
  md_symbol : string;
  md_timestamp : Z;
  price : Q;
  volume : Q;
  change_24h : Q
}.

Record FearGreedIndex : Type := mkFearGreedIndex {
  fg_timestamp : Z;
  overall_score : Q;
  sentiment_component : Q;
  momentum_component : Q;
  volume_component : Q;
  correlation_component : Q;
  classification : string
}.

(** [supporting_data] (a free-form dictionary that no modelled function
    reads) is left out. *)
Record TradingSignal : Type := mkTradingSignal {
  asset : string;
  timestamp : Z;
  signal_type : SignalType;
  confidence : Q;
  strength : Q;
  target_price : option Q;
  stop_loss : option Q;
  take_profit : option Q;
  risk_reward_ratio : option Q;
  position_size : Q;
  reasoning : string
}.

(** ** Configuration ([config.py], [TradingConfig] and its module-level
    instance [trading_config]) *)

Record TradingConfig : Type := mkTradingConfig {
  EXTREME_FEAR_THRESHOLD : Q;
  FEAR_THRESHOLD : Q;
  NEUTRAL_THRESHOLD : Q;
  GREED_THRESHOLD : Q;
  EXTREME_GREED_THRESHOLD : Q;
  MIN_SIGNAL_CONFIDENCE : Q;
  MAX_POSITION_SIZE : Q;
  STOP_LOSS_PERCENTAGE : Q;
  TAKE_PROFIT_PERCENTAGE : Q;
  MAX_DAILY_LOSS : Q;
  MAX_CORRELATION_EXPOSURE : Q
}.

Definition trading_config : TradingConfig := {|
  EXTREME_FEAR_THRESHOLD := 25;
  FEAR_THRESHOLD := 45;
  NEUTRAL_THRESHOLD := 55;
  GREED_THRESHOLD := 75;
  EXTREME_GREED_THRESHOLD := 90;
  MIN_SIGNAL_CONFIDENCE := 7 # 10;
  MAX_POSITION_SIZE := 1 # 10;
  STOP_LOSS_PERCENTAGE := 5 # 100;
  TAKE_PROFIT_PERCENTAGE := 15 # 100;
  MAX_DAILY_LOSS := 2 # 100;
  MAX_CORRELATION_EXPOSURE := 3 # 10
|}.

(** ** Dates ([datetime])

    The instant a [datetime] shows, in microseconds since 1970-01-01
    00:00:00 on its own clock, and whether it carries a time zone (its
    [tzinfo] is not [None]).  [datetime.now()] returns a naive one. *)
Record datetime : Type := mkDatetime {
  instant : Z;
  aware : bool
}.

Definition naive (t : Z) : datetime := mkDatetime t false.

(** [datetime.min] is 0001-01-01 00:00:00 and [datetime.max] is 9999-12-31
    23:59:59.999999: 719162 days before and 2932897 days after the origin,
    less a microsecond. *)
Definition datetime_min : Z := (- 719162 * 86400 * 1000000)%Z.
Definition datetime_max : Z := (2932897 * 86400 * 1000000 - 1)%Z.

(** [timedelta(seconds=n)] for an integer [n]: the days of a [timedelta]
    are at most 999999999 in magnitude. *)
Definition timedelta_seconds (n : Z) : outcome Z :=
  let days := (n / 86400)%Z in
  if ((-999999999 <=? days) && (days <=? 999999999))%Z
  then Returned (n * 1000000)%Z
  else Raised OverflowError.

(** [t - delta] for a naive datetime [t]: the result is a datetime. *)
Definition datetime_sub (t delta : Z) : outcome Z :=
  let r := (t - delta)%Z in
  if ((datetime_min <=? r) && (r <=? datetime_max))%Z
  then Returned r
  else Raised OverflowError.

(** [a >= b] for a naive [b]: an aware and a naive datetime cannot be
    ordered. *)
Definition datetime_ge (a : datetime) (b : Z) : outcome bool :=
  if aware a then Raised TypeError else Returned (b <=? instant a)%Z.

(** ** Sentiment aggregation ([SentimentAggregator]) *)

(** One stored observation: the dictionary appended by
    [add_sentiment_data]. *)
Record Observation : Type := mkObservation {
  obs_timestamp : datetime;
  obs_sentiment_score : Q;
  obs_confidence : Q;
  relevance : Q;
  source : DataSource;
  volume_proxy : Q
}.

Module SentimentAggregator.

(** [self.sentiment_data]: a [defaultdict] of [deque(maxlen=1000)], each
    deque listed oldest entry first. *)
Abbreviation sentiment_data := (gmap string (list Observation)).

Definition maxlen : nat := 1000.

(** [deque.append] on a bounded deque: when full, the oldest entry goes. *)
Definition deque_append (d : list Observation) (item : Observation) : list Observation :=
  if (maxlen <=? length d)%nat then drop 1 d ++ [item] else d ++ [item].

(** [self.sentiment_data[asset].append(item)], the body of the loop of
    [add_sentiment_data]; a missing key starts from the empty deque. *)
Definition record_observation (asset : string) (item : Observation)
    (self : sentiment_data) : sentiment_data :=
  <[asset := deque_append (default [] (self !! asset)) item]> self.

(** One step of the loop that fills [sources_breakdown]. *)
Fixpoint breakdown_add (source_ : DataSource) (score : Q)
    (d : list (DataSource * SourceStats)) : list (DataSource * SourceStats) :=
  match d with
  | [] => [(source_, mkSourceStats (0 + 1) (0 + score))]
  | (k, v) :: rest =>
      if DataSource_eqb k source_
      then (k, mkSourceStats (count v + 1) (avg_sentiment v + score)) :: rest
      else (k, v) :: breakdown_add source_ score rest
  end.

Definition breakdown_average (kv : DataSource * SourceStats) : DataSource * SourceStats :=
  let '(k, v) := kv in
  if (0 <? count v)%Z
  then (k, mkSourceStats (count v) (avg_sentiment v / inject_Z (count v)))
  else (k, v).

(** The part of [get_aggregated_sentiment] that follows the filter:
    [recent_data] is not empty there. *)
Definition aggregate (asset : string) (now window_size : Z)
    (recent_data : list Observation) : AggregatedSentiment :=
  let sentiment_scores := map obs_sentiment_score recent_data in
  let confidences := map obs_confidence recent_data in
  let volumes := map volume_proxy recent_data in
  let total_volume := py_sum volumes in
  let volume_weighted_score :=
    if Qgtb total_volume 0
    then py_sum (map (fun sv => fst sv * snd sv) (combine sentiment_scores volumes))
         / total_volume
    else np_mean sentiment_scores in
  let mid_point := (length recent_data / 2)%nat in
  let momentum :=
    if (0 <? mid_point)%nat
    then
      let recent_half := drop mid_point sentiment_scores in
      let older_half := take mid_point sentiment_scores in
      np_mean recent_half - np_mean older_half
    else 0 in
  let sources_breakdown :=
    map breakdown_average
      (fold_left (fun d item => breakdown_add (source item) (obs_sentiment_score item) d)
         recent_data []) in
  mkAggregatedSentiment asset now window_size (Z.of_nat (length recent_data))
    (np_mean sentiment_scores) (np_mean confidences) volume_weighted_score momentum
    sources_breakdown.

(** The comprehension [[item for item in history if item['timestamp'] >=
    cutoff_time]]: the comparison raises at the first aware timestamp. *)
Fixpoint recent_items (cutoff_time : Z) (history : list Observation)
  : outcome (list Observation) :=
  match history with
  | [] => Returned []
  | item :: rest =>
      match datetime_ge (obs_timestamp item) cutoff_time with
      | Raised e => Raised e
      | Returned keep =>
          match recent_items cutoff_time rest with
          | Raised e => Raised e
          | Returned recent_data =>
              Returned (if keep then item :: recent_data else recent_data)
          end
      end
  end.

(** [window_size] is in seconds; [now] is the reading of [datetime.now()],
    made once the asset is known to have a history. *)
Definition get_aggregated_sentiment (self : sentiment_data) (asset : string)
    (window_size : Z) (now : Z) : outcome (option AggregatedSentiment) :=
  match self !! asset with
  | None => Returned None
  | Some history =>
      match timedelta_seconds window_size with
      | Raised e => Raised e
      | Returned delta =>
          match datetime_sub now delta with
          | Raised e => Raised e
          | Returned cutoff_time =>
              match recent_items cutoff_time history with
              | Raised e => Raised e
              | Returned recent_data =>
                  match recent_data with
                  | [] => Returned None
                  | _ => Returned (Some (aggregate asset now window_size recent_data))
                  end
              end
          end
      end
  end.

End SentimentAggregator.

(** ** Fear and greed index ([FearGreedCalculator]) *)

Module FearGreedCalculator.

(** The argument [Dict[str, AggregatedSentiment]] is iterated through
    [.values()], so it is an association list in insertion order. *)
Definition sentiments_dict : Type := list (string * AggregatedSentiment).

Definition values (d : sentiments_dict) : list AggregatedSentiment := map snd d.

(** The loop body of [_calculate_sentiment_component] on the pair
    [(weighted_sentiment, total_weight)]. *)
Definition sentiment_step (acc : Q * Q) (s : AggregatedSentiment) : Q * Q :=
  let weight := inject_Z (total_mentions s) * agg_confidence s in
  (fst acc + volume_weighted_score s * weight, snd acc + weight).

Definition _calculate_sentiment_component (sentiments : sentiments_dict) : Q :=
  match sentiments with
  | [] => 0
  | _ =>
      let '(weighted_sentiment, total_weight) :=
        fold_left sentiment_step (values sentiments) (0, 0) in
      if Qgtb total_weight 0 then weighted_sentiment / total_weight else 0
  end.

Definition _calculate_momentum_component (sentiments : sentiments_dict) : Q :=
  match sentiments with
  | [] => 0
  | _ => np_mean (map momentum (values sentiments))
  end.

(** [max(abs(p) for p in products)] of a non-empty list. *)
Definition max_abs (products : list Q) : Q :=
  match products with
  | [] => 1
  | p :: ps => fold_left (fun m q => if Qgtb (Qabs q) m then Qabs q else m) ps (Qabs p)
  end.

Definition _calculate_volume_component (sentiments : sentiments_dict) : Q :=
  match sentiments with
  | [] => 0
  | _ =>
      let volume_sentiment_product :=
        map (fun s => inject_Z (total_mentions s) * sentiment_score s) (values sentiments) in
      let max_product := max_abs volume_sentiment_product in
      if Qgtb max_product 0 then np_mean volume_sentiment_product / max_product else 0
  end.

Definition _calculate_correlation_component : Q := 0.

Definition _classify_fear_greed (score : Q) : string :=
  if Qle_bool score (EXTREME_FEAR_THRESHOLD trading_config) then "Extreme Fear"
  else if Qle_bool score (FEAR_THRESHOLD trading_config) then "Fear"
  else if Qle_bool score (NEUTRAL_THRESHOLD trading_config) then "Neutral"
  else if Qle_bool score (GREED_THRESHOLD trading_config) then "Greed"
  else "Extreme Greed".

(** [now] is the reading of [datetime.now()]. *)
Definition calculate_fear_greed_index (now : Z) (aggregated_sentiments : sentiments_dict)
  : FearGreedIndex :=
  let sentiment_component := _calculate_sentiment_component aggregated_sentiments in
  let momentum_component := _calculate_momentum_component aggregated_sentiments in
  let volume_component := _calculate_volume_component aggregated_sentiments in
  let correlation_component := _calculate_correlation_component in
  let overall_score :=
    sentiment_component * (4 # 10) + momentum_component * (25 # 100)
    + volume_component * (2 # 10) + correlation_component * (15 # 100) in
  let overall_score := (overall_score + 1) * 50 in
  let overall_score := py_max 0 (py_min 100 overall_score) in
  let classification := _classify_fear_greed overall_score in
  mkFearGreedIndex now overall_score sentiment_component momentum_component
    volume_component correlation_component classification.

End FearGreedCalculator.

(** ** Signal generation ([SignalGenerator]) *)

Module SignalGenerator.

Definition _calculate_fear_greed_influence (fg_score : Q) : Q :=
  if Qle_bool fg_score (EXTREME_FEAR_THRESHOLD trading_config) then 13 # 10
  else if Qle_bool fg_score (FEAR_THRESHOLD trading_config) then 11 # 10
  else if Qgeb fg_score (EXTREME_GREED_THRESHOLD trading_config) then 7 # 10
  else if Qgeb fg_score (GREED_THRESHOLD trading_config) then 9 # 10
  else 1.

(** [all([stop_loss, take_profit, entry_price])] is the conjunction of
    the three truth values. *)
Definition _calculate_risk_reward (stop_loss take_profit entry_price : option Q)
  : option Q :=
  match stop_loss, take_profit, entry_price with
  | Some sl, Some tp, Some ep =>
      if truthy stop_loss && truthy take_profit && truthy entry_price then
        let risk := Qabs (ep - sl) in
        let reward := Qabs (tp - ep) in
        if Qgtb risk 0 then Some (reward / risk) else None
      else None
  | _, _, _ => None
  end.

End SignalGenerator.

(** ** Stateful code: a state-and-exception monad

    A method that mutates [self] and may raise is a function from the state
    of [self] to the new state and the outcome.  The state reached when an
    exception is raised is kept, as in Python. *)

Definition Py (S A : Type) : Type := S -> S * outcome A.

Definition ret {S A : Type} (a : A) : Py S A := fun s => (s, Returned a).

Definition raise {S A : Type} (e : exn) : Py S A := fun s => (s, Raised e).

Definition bind {S A B : Type} (m : Py S A) (k : A -> Py S B) : Py S B :=
  fun s =>
    match m s with
    | (s', Returned a) => k a s'
    | (s', Raised e) => (s', Raised e)
    end.

Definition get {S : Type} : Py S S := fun s => (s, Returned s).

Definition modify {S : Type} (f : S -> S) : Py S unit := fun s => (f s, Returned tt).

(** An expression that reads the state and may raise. *)
Definition eval {S A : Type} (f : S -> outcome A) : Py S A := fun s => (s, f s).

Declare Scope py_scope.
Delimit Scope py_scope with py.
Notation "x <- m ;; k" := (bind m (fun x => k))
  (at level 100, m at next level, right associativity) : py_scope.
Notation "m ;; k" := (bind m (fun _ => k))
  (at level 100, right associativity) : py_scope.

(** ** Backtesting ([core/backtesting.py]) *)

(** One hour and the minutes of the engine's step, in microseconds. *)
Definition hours (n : Z) : Z := (n * 3600 * 1000000)%Z.
Definition minutes (n : Z) : Z := (n * 60 * 1000000)%Z.

Record Position : Type := mkPosition {
  symbol : string;
  signal : TradingSignal;
  entry_price : Q;
  entry_time : Z;
  exit_price : option Q;
  exit_time : option Z;
  pnl : Q;
  is_closed : bool;
  max_favorable_excursion : Q;
  max_adverse_excursion : Q
}.

Module Position_.

(** [Position.__init__] *)
Definition __init__ (symbol : string) (signal : TradingSignal) (entry_price : Q)
  : Position :=
  mkPosition symbol signal entry_price (timestamp signal) None None 0 false 0 0.

Definition set_exit (exit_price : Q) (exit_time : Z) (self : Position) : Position :=
  mkPosition (symbol self) (signal self) (entry_price self) (entry_time self)
    (Some exit_price) (Some exit_time) (pnl self) true
    (max_favorable_excursion self) (max_adverse_excursion self).

Definition set_pnl (v : Q) (self : Position) : Position :=
  mkPosition (symbol self) (signal self) (entry_price self) (entry_time self)
    (exit_price self) (exit_time self) v (is_closed self)
    (max_favorable_excursion self) (max_adverse_excursion self).

Definition set_max_favorable_excursion (v : Q) (self : Position) : Position :=
  mkPosition (symbol self) (signal self) (entry_price self) (entry_time self)
    (exit_price self) (exit_time self) (pnl self) (is_closed self)
    v (max_adverse_excursion self).

Definition set_max_adverse_excursion (v : Q) (self : Position) : Position :=
  mkPosition (symbol self) (signal self) (entry_price self) (entry_time self)
    (exit_price self) (exit_time self) (pnl self) (is_closed self)
    (max_favorable_excursion self) v.

Definition _check_exit_conditions (self : Position) (current_price : Q) (current_time : Z)
  : bool * string :=
  let max_hold_time := hours 24 in
  if (max_hold_time <? current_time - entry_time self)%Z then (true, "time_exit"%string)
  else
    let sl := stop_loss (signal self) in
    let tp := take_profit (signal self) in
    let ty := signal_type (signal self) in
    let stop_hit :=
      match sl with
      | Some level =>
          truthy sl
          && ((SignalType_eqb ty BUY && Qle_bool current_price level)
              || (SignalType_eqb ty SELL && Qgeb current_price level))
      | None => false
      end in
    let profit_hit :=
      match tp with
      | Some level =>
          truthy tp
          && ((SignalType_eqb ty BUY && Qgeb current_price level)
              || (SignalType_eqb ty SELL && Qle_bool current_price level))
      | None => false
      end in
    if stop_hit then (true, "stop_loss"%string)
    else if profit_hit then (true, "take_profit"%string)
    else (false, EmptyString).

Definition close_position (exit_price : Q) (exit_time : Z) (reason : string)
  : Py Position unit :=
  (modify (set_exit exit_price exit_time) ;;
   self <- get ;;
   final <- eval (fun _ =>
     match signal_type (signal self) with
     | BUY => py_div (exit_price - entry_price self) (entry_price self)
     | _ => py_div (entry_price self - exit_price) (entry_price self)
     end) ;;
   modify (set_pnl final) ;;
   modify (fun self => set_pnl (pnl self * position_size (signal self)) self))%py.

Definition update_price (current_price : Q) (current_time : Z) : Py Position unit :=
  (self <- get ;;
   if is_closed self then ret tt
   else
     (match signal_type (signal self) with
      | BUY =>
          unrealized_pnl <- eval (fun _ =>
            py_div (current_price - entry_price self) (entry_price self)) ;;
          e <- eval (fun _ =>
            py_div (current_price - entry_price self) (entry_price self)) ;;
          if Qgtb current_price (entry_price self)
          then modify (fun self =>
                 set_max_favorable_excursion (py_max (max_favorable_excursion self) e) self)
          else modify (fun self =>
                 set_max_adverse_excursion (py_min (max_adverse_excursion self) e) self)
      | _ =>
          unrealized_pnl <- eval (fun _ =>
            py_div (entry_price self - current_price) (entry_price self)) ;;
          e <- eval (fun _ =>
            py_div (entry_price self - current_price) (entry_price self)) ;;
          if Qltb current_price (entry_price self)
          then modify (fun self =>
                 set_max_favorable_excursion (py_max (max_favorable_excursion self) e) self)
          else modify (fun self =>
                 set_max_adverse_excursion (py_min (max_adverse_excursion self) e) self)
      end) ;;
     self <- get ;;
     let '(should_exit, exit_reason) :=
       _check_exit_conditions self current_price current_time in
     if should_exit then close_position current_price current_time exit_reason
     else ret tt)%py.

End Position_.

(** One point of the equity curve: [{'timestamp', 'equity', 'drawdown'}]. *)
Record EquityPoint : Type := mkEquityPoint {
  ep_timestamp : Z;
  equity : Q;
  drawdown : Q
}.

Record Portfolio : Type := mkPortfolio {
  initial_capital : Q;
  current_capital : Q;
  positions : list Position;
  closed_positions : list Position;
  equity_curve : list EquityPoint;
  daily_returns : list Q;
  max_drawdown : Q;
  peak_equity : Q
}.

(** A market snapshot [Dict[str, MarketData]]. *)
Abbreviation snapshot := (gmap string MarketData).

Module Portfolio_.

(** [Portfolio.__init__] *)
Definition __init__ (initial_capital : Q) : Portfolio :=
  mkPortfolio initial_capital initial_capital [] [] [] [] 0 initial_capital.

Definition set_current_capital (v : Q) (self : Portfolio) : Portfolio :=
  mkPortfolio (initial_capital self) v (positions self) (closed_positions self)
    (equity_curve self) (daily_returns self) (max_drawdown self) (peak_equity self).

Definition set_positions (v : list Position) (self : Portfolio) : Portfolio :=
  mkPortfolio (initial_capital self) (current_capital self) v (closed_positions self)
    (equity_curve self) (daily_returns self) (max_drawdown self) (peak_equity self).

Definition set_closed_positions (v : list Position) (self : Portfolio) : Portfolio :=
  mkPortfolio (initial_capital self) (current_capital self) (positions self) v
    (equity_curve self) (daily_returns self) (max_drawdown self) (peak_equity self).

Definition set_equity_curve (v : list EquityPoint) (self : Portfolio) : Portfolio :=
  mkPortfolio (initial_capital self) (current_capital self) (positions self)
    (closed_positions self) v (daily_returns self) (max_drawdown self) (peak_equity self).

Definition set_daily_returns (v : list Q) (self : Portfolio) : Portfolio :=
  mkPortfolio (initial_capital self) (current_capital self) (positions self)
    (closed_positions self) (equity_curve self) v (max_drawdown self) (peak_equity self).

Definition set_max_drawdown (v : Q) (self : Portfolio) : Portfolio :=
  mkPortfolio (initial_capital self) (current_capital self) (positions self)
    (closed_positions self) (equity_curve self) (daily_returns self) v (peak_equity self).

Definition set_peak_equity (v : Q) (self : Portfolio) : Portfolio :=
  mkPortfolio (initial_capital self) (current_capital self) (positions self)
    (closed_positions self) (equity_curve self) (daily_returns self) (max_drawdown self) v.

(** A reference to a [Position] object held in [self.positions] is its
    index in that list.  [on_position i m] calls the method [m] on that
    object: the object is mutated in place.  Every call below passes the
    index of an element; no Python counterpart exists for another index,
    for which [ValueError] stands. *)
Definition on_position {A : Type} (i : nat) (m : Py Position A) : Py Portfolio A :=
  fun self =>
    match positions self !! i with
    | Some position =>
        let '(position', r) := m position in
        (set_positions (<[i := position']> (positions self)) self, r)
    | None => (self, Raised ValueError)
    end.

(** The index of the first open position for [symbol], if any. *)
Fixpoint find_open (symbol_ : string) (l : list Position) : option nat :=
  match l with
  | [] => None
  | position :: rest =>
      if String.eqb (symbol position) symbol_ && negb (is_closed position)
      then Some 0%nat
      else S <$> find_open symbol_ rest
  end.

Definition _get_open_position (self : Portfolio) (symbol_ : string) : option nat :=
  find_open symbol_ (positions self).

(** [self.positions.remove(position)] deletes the object at its index. *)
Definition _settle_closed_position (i : nat) : Py Portfolio unit :=
  (self <- get ;;
   match positions self !! i with
   | None => raise ValueError
   | Some position =>
       let pnl_amount := pnl position * current_capital self in
       modify (fun self => set_current_capital (current_capital self + pnl_amount) self) ;;
       modify (fun self => set_positions (delete i (positions self)) self) ;;
       modify (fun self => set_closed_positions (closed_positions self ++ [position]) self) ;;
       self <- get ;;
       daily_return <- eval (fun _ => py_div pnl_amount (current_capital self)) ;;
       modify (fun self => set_daily_returns (daily_returns self ++ [daily_return]) self)
   end)%py.

Definition add_signal (signal : TradingSignal) (current_price : Q) : Py Portfolio bool :=
  match signal_type signal with
  | HOLD => ret false
  | _ =>
      (self <- get ;;
       match _get_open_position self (asset signal) with
       | Some existing_position =>
           on_position existing_position
             (Position_.close_position current_price (timestamp signal) "new_signal") ;;
           _settle_closed_position existing_position
       | None => ret tt
       end ;;
       self <- get ;;
       let position_value := current_capital self * position_size signal in
       if Qgtb position_value (current_capital self * (95 # 100)) then ret false
       else
         let position := Position_.__init__ (asset signal) signal current_price in
         modify (fun self => set_positions (positions self ++ [position]) self) ;;
         ret true)%py
  end.

(** The loop of [_calculate_current_equity] over [self.positions]. *)
Fixpoint equity_loop (self : Portfolio) (market_data : snapshot)
    (l : list Position) (equity : Q) : outcome Q :=
  match l with
  | [] => Returned equity
  | position :: rest =>
      if negb (is_closed position) then
        match market_data !! symbol position with
        | Some data =>
            let current_price := price data in
            match
              (match signal_type (signal position) with
               | BUY => py_div (current_price - entry_price position) (entry_price position)
               | _ => py_div (entry_price position - current_price) (entry_price position)
               end)
            with
            | Returned unrealized_pnl =>
                equity_loop self market_data rest
                  (equity
                   + unrealized_pnl * position_size (signal position) * current_capital self)
            | Raised e => Raised e
            end
        | None => equity_loop self market_data rest equity
        end
      else equity_loop self market_data rest equity
  end.

Definition _calculate_current_equity (self : Portfolio) (market_data : snapshot)
  : outcome Q :=
  equity_loop self market_data (positions self) (current_capital self).

(** The loop [for position in self.positions[:]] of [update_positions]:
    [n] objects of the copy remain, the next one is at index [i] of the
    live list (the objects before it were kept, the settled ones are
    gone). *)
Fixpoint update_loop (market_data : snapshot) (n i : nat) : Py Portfolio unit :=
  match n with
  | O => ret tt
  | S n' =>
      (self <- get ;;
       match positions self !! i with
       | None => raise ValueError
       | Some position =>
           match market_data !! symbol position with
           | Some data =>
               on_position i (Position_.update_price (price data) (md_timestamp data)) ;;
               self <- get ;;
               match positions self !! i with
               | Some position =>
                   if is_closed position
                   then (_settle_closed_position i ;; update_loop market_data n' i)
                   else update_loop market_data n' (S i)
               | None => raise ValueError
               end
           | None => update_loop market_data n' (S i)
           end
       end)%py
  end.

(** [now] is the reading of [datetime.now()] stamped on the curve. *)
Definition update_positions (market_data : snapshot) (now : Z) : Py Portfolio unit :=
  (self <- get ;;
   update_loop market_data (length (positions self)) 0 ;;
   current_equity <- eval (fun self => _calculate_current_equity self market_data) ;;
   self <- get ;;
   point_drawdown <- eval (fun _ =>
     py_div (peak_equity self - current_equity) (peak_equity self)) ;;
   modify (fun self =>
     set_equity_curve
       (equity_curve self ++ [mkEquityPoint now current_equity point_drawdown]) self) ;;
   if Qgtb current_equity (peak_equity self)
   then modify (set_peak_equity current_equity)
   else
     current_drawdown <- eval (fun _ =>
       py_div (peak_equity self - current_equity) (peak_equity self)) ;;
     modify (fun self =>
       set_max_drawdown (py_max (max_drawdown self) current_drawdown) self))%py.

End Portfolio_.

(** ** The mock market ([MockMarketData])

    [np.random] is a global generator: its state is the sequence of variates
    still to come.  The [n]-th draw of a run returns [draws n], a variate in
    [[0, 1)] for [uniform] and a standard normal variate for [normal]. *)

Record Rng : Type := mkRng {
  draws : nat -> Q;
  next : nat
}.

Record MockMarketData : Type := mkMockMarketData {
  symbols : list string;
  current_prices : gmap string Q;
  volatilities : gmap string Q;
  np_random : Rng
}.

(** The generated series [Dict[str, List[MarketData]]]. *)
Abbreviation price_data := (gmap string (list MarketData)).

(** The number of times a loop [while current <= end: ...; current += step]
    runs its body. *)
Definition iterations (start_date end_date step : Z) : nat :=
  Z.to_nat ((end_date - start_date) / step + 1).

(** [while current_date <= end_date: acc = body(current_date, acc);
    current_date += step], with the number of iterations as fuel. *)
Fixpoint while_dates {S A : Type} (fuel : nat) (current_date end_date step : Z)
    (body : Z -> A -> Py S A) (acc : A) : Py S A :=
  match fuel with
  | O => ret acc
  | S fuel' =>
      if (current_date <=? end_date)%Z
      then (acc <- body current_date acc ;;
            while_dates fuel' (current_date + step) end_date step body acc)%py
      else ret acc
  end.

Module MockMarketData_.

Definition draw : Py MockMarketData Q :=
  fun self =>
    let rng := np_random self in
    (mkMockMarketData (symbols self) (current_prices self) (volatilities self)
       (mkRng (draws rng) (S (next rng))),
     Returned (draws rng (next rng))).

(** [np.random.uniform(low, high)] and [np.random.normal(loc, scale)]. *)
Definition np_random_uniform (low high : Q) : Py MockMarketData Q :=
  (u <- draw ;; ret (low + (high - low) * u))%py.

Definition np_random_normal (loc scale : Q) : Py MockMarketData Q :=
  (z <- draw ;; ret (loc + scale * z))%py.

(** [{symbol: np.random.uniform(low, high) for symbol in symbols}] *)
Fixpoint uniform_for_each (low high : Q) (l : list string) (acc : gmap string Q)
  : Py MockMarketData (gmap string Q) :=
  match l with
  | [] => ret acc
  | symbol :: rest =>
      (v <- np_random_uniform low high ;;
       uniform_for_each low high rest (<[symbol := v]> acc))%py
  end.

Definition set_current_prices (v : gmap string Q) (self : MockMarketData) : MockMarketData :=
  mkMockMarketData (symbols self) v (volatilities self) (np_random self).

Definition set_volatilities (v : gmap string Q) (self : MockMarketData) : MockMarketData :=
  mkMockMarketData (symbols self) (current_prices self) v (np_random self).

(** [MockMarketData.__init__], from the state [rng] of [np.random]. *)
Definition __init__ (symbols : list string) (rng : Rng) : MockMarketData :=
  fst ((prices <- uniform_for_each 100 50000 symbols ∅ ;;
        modify (set_current_prices prices) ;;
        vols <- uniform_for_each (2 # 100) (5 # 100) symbols ∅ ;;
        modify (set_volatilities vols))%py
       (mkMockMarketData symbols ∅ ∅ rng)).

(** The loop [for symbol in self.symbols] of [generate_price_data]. *)
Fixpoint for_symbols (current_date : Z) (l : list string) (data : price_data)
  : Py MockMarketData price_data :=
  match l with
  | [] => ret data
  | symbol :: rest =>
      (self <- get ;;
       match volatilities self !! symbol, current_prices self !! symbol with
       | Some volatility, Some current_price =>
           change <- np_random_normal 0 volatility ;;
           let current_price := current_price * (1 + change) in
           modify (fun self =>
             set_current_prices (<[symbol := current_price]> (current_prices self)) self) ;;
           let current_price := py_max current_price (1 # 100) in
           modify (fun self =>
             set_current_prices (<[symbol := current_price]> (current_prices self)) self) ;;
           volume <- np_random_uniform 1000000 100000000 ;;
           change_24h <- np_random_uniform (- (15 # 100)) (15 # 100) ;;
           let market_data := mkMarketData symbol current_date current_price volume change_24h in
           match data !! symbol with
           | Some series => for_symbols current_date rest (<[symbol := series ++ [market_data]]> data)
           | None => raise KeyError
           end
       | _, _ => raise KeyError
       end)%py
  end.

Definition generate_price_data (start_date end_date : Z) (frequency_minutes : Z)
  : Py MockMarketData price_data :=
  (self <- get ;;
   let data : price_data := list_to_map (map (fun symbol => (symbol, [])) (symbols self)) in
   let step := minutes frequency_minutes in
   while_dates (iterations start_date end_date step) start_date end_date step
     (fun current_date data => for_symbols current_date (symbols self) data) data)%py.

End MockMarketData_.

(** [float('inf')] besides the finite values. *)
Inductive ExtFloat : Type :=
| Finite (q : Q)
| Infinity.

(** The Sharpe ratio [mean / std * sqrt(252)] is irrational in general: it
    is kept as the mean and the variance ([std] squared) it is computed
    from; [SharpeZero] is the literal [0] of the source. *)
Inductive SharpeRatio : Type :=
| SharpeZero
| SharpeOf (mean variance : Q).

(** The [details] dictionary of a [BacktestResult]. *)
Record Details : Type := mkDetails {
  final_equity : Q;
  total_profitable_trades : Z;
  total_losing_trades : Z;
  largest_win : Q;
  largest_loss : Q;
  avg_win : Q;
  avg_loss : Q;
  max_consecutive_wins : Z;
  max_consecutive_losses : Z;
  details_equity_curve : list EquityPoint;
  all_trades : list Position
}.

Record BacktestResult : Type := mkBacktestResult {
  strategy_name : string;
  start_date : Z;
  end_date : Z;
  total_return : Q;
  sharpe_ratio : SharpeRatio;
  result_max_drawdown : Q;
  win_rate : Q;
  profit_factor : ExtFloat;
  total_trades : Z;
  avg_trade_duration : Q;
  details : Details
}.

Module BacktestEngine.

(** [sorted(l, key=...)]: a stable sort by an integer key. *)
Fixpoint insert_by_key {A : Type} (key : A -> Z) (x : A) (l : list A) : list A :=
  match l with
  | [] => [x]
  | y :: l' => if (key x <=? key y)%Z then x :: y :: l' else y :: insert_by_key key x l'
  end.

Fixpoint sorted {A : Type} (key : A -> Z) (l : list A) : list A :=
  match l with
  | [] => []
  | x :: l' => insert_by_key key x (sorted key l')
  end.

(** The loop body of [_calculate_max_consecutive] on the pair
    [(max_consecutive, current_consecutive)]. *)
Definition consecutive_step (acc : Z * Z) (trade : Position) : Z * Z :=
  let current_consecutive := (snd acc + 1)%Z in
  (Z.max (fst acc) current_consecutive, current_consecutive).

Definition _calculate_max_consecutive (trades : list Position) : Z :=
  match trades with
  | [] => 0%Z
  | _ =>
      let sorted_trades := sorted entry_time trades in
      fst (fold_left consecutive_step sorted_trades (0%Z, 0%Z))
  end.

(** [min(l, key=...)]: the first element with the least key; [ValueError]
    on an empty sequence. *)
Definition min_by_key {A : Type} (key : A -> Z) (l : list A) : outcome A :=
  match l with
  | [] => Raised ValueError
  | x :: rest =>
      Returned (fold_left (fun best y => if (key y <? key best)%Z then y else best) rest x)
  end.

(** The loop that fills [current_market_data]. *)
Fixpoint closest_for (market_data : price_data) (current_date : Z) (l : list string)
    (current_market_data : snapshot) : outcome snapshot :=
  match l with
  | [] => Returned current_market_data
  | symbol :: rest =>
      match market_data !! symbol with
      | None => Raised KeyError
      | Some symbol_data =>
          match min_by_key (fun x => Z.abs (md_timestamp x - current_date)) symbol_data with
          | Raised e => Raised e
          | Returned closest_data =>
              closest_for market_data current_date rest
                (<[symbol := closest_data]> current_market_data)
          end
      end
  end.

(** The dictionary [signals_by_time]. *)
Definition group_by_time (signals : list TradingSignal) : gmap Z (list TradingSignal) :=
  fold_left
    (fun signals_by_time signal =>
       <[timestamp signal := default [] (signals_by_time !! timestamp signal) ++ [signal]]>
         signals_by_time)
    signals ∅.

(** The loop over the signals scheduled at the current date. *)
Fixpoint for_signals (current_market_data : snapshot) (l : list TradingSignal)
  : Py Portfolio unit :=
  match l with
  | [] => ret tt
  | signal :: rest =>
      match current_market_data !! asset signal with
      | Some data =>
          (Portfolio_.add_signal signal (price data) ;;
           for_signals current_market_data rest)%py
      | None => for_signals current_market_data rest
      end
  end.

(** One pass of the simulation loop; [now] is the reading of
    [datetime.now()] in [update_positions]. *)
Definition simulation_step (symbols_ : list string) (market_data : price_data)
    (signals_by_time : gmap Z (list TradingSignal)) (clock : Z -> Z)
    (current_date : Z) (_ : unit) : Py Portfolio unit :=
  (current_market_data <- eval (fun _ => closest_for market_data current_date symbols_ ∅) ;;
   match signals_by_time !! current_date with
   | Some scheduled => for_signals current_market_data scheduled
   | None => ret tt
   end ;;
   Portfolio_.update_positions current_market_data (clock current_date))%py.

Definition pnls (l : list Position) : list Q := map pnl l.

(** [max(xs, default=0)] and [min(xs, default=0)]. *)
Definition max_default (xs : list Q) : Q :=
  match xs with
  | [] => 0
  | x :: rest => fold_left (fun m y => if Qgtb y m then y else m) rest x
  end.

Definition min_default (xs : list Q) : Q :=
  match xs with
  | [] => 0
  | x :: rest => fold_left (fun m y => if Qltb y m then y else m) rest x
  end.

(** The population variance, the square of [np.std]. *)
Definition np_var (xs : list Q) : Q :=
  np_mean (map (fun x => Qabs (x - np_mean xs) * Qabs (x - np_mean xs)) xs).

(** [(p.exit_time - p.entry_time).total_seconds() / 3600] *)
Definition duration_hours (p : Position) : option Q :=
  match exit_time p with
  | Some t => Some (inject_Z (t - entry_time p) / 1000000 / 3600)
  | None => None
  end.

(** [asdict] of [dataclasses] accepts dataclass instances only, and
    [Position] is a plain class: building [all_trades] raises [TypeError] as
    soon as there is a closed position. *)
Definition _calculate_results (portfolio : Portfolio) (start_date end_date : Z)
  : outcome BacktestResult :=
  let final_equity :=
    match last (equity_curve portfolio) with
    | Some point => equity point
    | None => initial_capital portfolio
    end in
  match py_div (final_equity - initial_capital portfolio) (initial_capital portfolio) with
  | Raised e => Raised e
  | Returned total_return =>
      let sharpe_ratio :=
        match daily_returns portfolio with
        | [] => SharpeZero
        | returns_array =>
            if Qgtb (np_var returns_array) 0
            then SharpeOf (np_mean returns_array) (np_var returns_array)
            else SharpeZero
        end in
      let profitable_trades :=
        List.filter (fun p => Qgtb (pnl p) 0) (closed_positions portfolio) in
      let losing_trades :=
        List.filter (fun p => Qltb (pnl p) 0) (closed_positions portfolio) in
      let total_trades := Z.of_nat (length (closed_positions portfolio)) in
      let win_rate :=
        if (0 <? total_trades)%Z
        then inject_Z (Z.of_nat (length profitable_trades)) / inject_Z total_trades
        else 0 in
      let total_profit := py_sum (pnls profitable_trades) in
      let total_loss := Qabs (py_sum (pnls losing_trades)) in
      let profit_factor :=
        if Qgtb total_loss 0 then Finite (total_profit / total_loss) else Infinity in
      let avg_trade_duration :=
        match closed_positions portfolio with
        | [] => 0
        | closed =>
            match omap duration_hours closed with
            | [] => 0
            | durations => np_mean durations
            end
        end in
      match closed_positions portfolio with
      | _ :: _ => Raised TypeError
      | [] =>
          let details := {|
            final_equity := final_equity;
            total_profitable_trades := Z.of_nat (length profitable_trades);
            total_losing_trades := Z.of_nat (length losing_trades);
            largest_win := max_default (pnls profitable_trades);
            largest_loss := min_default (pnls losing_trades);
            avg_win :=
              match profitable_trades with [] => 0 | _ => np_mean (pnls profitable_trades) end;
            avg_loss :=
              match losing_trades with [] => 0 | _ => np_mean (pnls losing_trades) end;
            max_consecutive_wins := _calculate_max_consecutive profitable_trades;
            max_consecutive_losses := _calculate_max_consecutive losing_trades;
            details_equity_curve := equity_curve portfolio;
            all_trades := []
          |} in
          Returned {|
            strategy_name := "Sentiment-Based Trading";
            start_date := start_date;
            end_date := end_date;
            total_return := total_return;
            sharpe_ratio := sharpe_ratio;
            result_max_drawdown := max_drawdown portfolio;
            win_rate := win_rate;
            profit_factor := profit_factor;
            total_trades := total_trades;
            avg_trade_duration := avg_trade_duration;
            details := details
          |}
      end
  end.

(** The simulation of [run_backtest], from the generated series on. *)
Definition run_simulation (signals : list TradingSignal) (start_date end_date : Z)
    (initial_capital : Q) (symbols_ : list string) (market_data : price_data)
    (clock : Z -> Z) : outcome BacktestResult :=
  let signals_by_time := group_by_time signals in
  let step := minutes 5 in
  let '(portfolio, r) :=
    while_dates (iterations start_date end_date step) start_date end_date step
      (simulation_step symbols_ market_data signals_by_time clock) tt
      (Portfolio_.__init__ initial_capital) in
  match r with
  | Raised e => Raised e
  | Returned _ => _calculate_results portfolio start_date end_date
  end.

Section Run.

(** The order in which Python iterates over the set built from a sequence
    of strings (it depends on the interpreter's string hashing). *)
Variable list_of_set : list string -> list string.

(** [rng] is the state of [np.random] when the call starts and
    [clock current_date] the reading of [datetime.now()] in the pass for
    [current_date]. *)
Definition run_backtest (signals : list TradingSignal) (start_date end_date : Z)
    (initial_capital : Q) (symbols_ : option (list string)) (rng : Rng) (clock : Z -> Z)
  : outcome BacktestResult :=
  let symbols_ :=
    match symbols_ with
    | Some (symbol :: rest) => symbol :: rest
    | _ => list_of_set (map asset signals)
    end in
  let mock_data_generator := MockMarketData_.__init__ symbols_ rng in
  match snd (MockMarketData_.generate_price_data start_date end_date 5 mock_data_generator) with
  | Raised e => Raised e
  | Returned market_data =>
      run_simulation signals start_date end_date initial_capital symbols_ market_data clock
  end.

End Run.

End BacktestEngine.

(** [timedelta(days=n)] in microseconds. *)
Definition days (n : Z) : Z := (n * 86400 * 1000000)%Z.

(** [run_strategy_backtest]: [now] is the reading of [datetime.now()] that
    gives [end_date]; the message logged before returning has no effect on
    the result. *)
Definition run_strategy_backtest (list_of_set : list string -> list string)
    (signals : list TradingSignal) (now : Z) (rng : Rng) (clock : Z -> Z)
  : outcome BacktestResult :=
  let end_date := now in
  let start_date := (end_date - days 30)%Z in
  BacktestEngine.run_backtest list_of_set signals start_date end_date 100000 None rng clock.

(** ** Feeding the aggregator ([SentimentAggregator.add_sentiment_data])

    A [str] is a string of ASCII characters; [str.lower] and [str.upper]
    change the ASCII letters only.  The engagement counts read from
    [metadata] are numbers. *)

Inductive SentimentPolarity : Type :=
| VERY_NEGATIVE
| NEGATIVE
| NEUTRAL
| POSITIVE
| VERY_POSITIVE.

Record RawData : Type := mkRawData {
  raw_id : string;
  raw_source : DataSource;
  raw_timestamp : datetime;
  content : string;
  author : option string;
  metadata : gmap string Q
}.

(** [emotions], which no modelled function reads, is left out. *)
Record SentimentScore : Type := mkSentimentScore {
  polarity : SentimentPolarity;
  score_confidence : Q;
  score : Q;
  entities : list string
}.

Record ProcessedData : Type := mkProcessedData {
  raw_data : RawData;
  sentiment : SentimentScore;
  financial_entities : list string;
  relevance_score : Q;
  language : string
}.

Module AggregatorWrites.
Import SentimentAggregator.

Definition ascii_lower (c : Ascii.ascii) : Ascii.ascii :=
  let n := Ascii.nat_of_ascii c in
  if ((65 <=? n) && (n <=? 90))%nat then Ascii.ascii_of_nat (n + 32) else c.

Definition ascii_upper (c : Ascii.ascii) : Ascii.ascii :=
  let n := Ascii.nat_of_ascii c in
  if ((97 <=? n) && (n <=? 122))%nat then Ascii.ascii_of_nat (n - 32) else c.

Fixpoint str_map (f : Ascii.ascii -> Ascii.ascii) (s : string) : string :=
  match s with
  | EmptyString => EmptyString
  | String c rest => String (f c) (str_map f rest)
  end.

(** A string all of whose characters are ASCII (code below 128). *)
Fixpoint ascii_only (s : string) : bool :=
  match s with
  | EmptyString => true
  | String c rest => (Ascii.nat_of_ascii c <? 128)%nat && ascii_only rest
  end.

(** [s.lower()] and [s.upper()] of a string of ASCII characters: the
    letters A-Z and a-z change case, every other character stays.  Python's
    methods work on Unicode, where a character above 127 can change too
    (and change to an ASCII letter); on such strings these functions do not
    model them. *)
Definition lower (s : string) : string := str_map ascii_lower s.
Definition upper (s : string) : string := str_map ascii_upper s.

Definition crypto_mapping : gmap string string :=
  list_to_map
    [ ("bitcoin", "BTC"); ("btc", "BTC");
      ("ethereum", "ETH"); ("eth", "ETH");
      ("cardano", "ADA"); ("ada", "ADA");
      ("solana", "SOL"); ("sol", "SOL");
      ("polygon", "MATIC"); ("matic", "MATIC");
      ("dogecoin", "DOGE"); ("doge", "DOGE");
      ("ripple", "XRP"); ("xrp", "XRP") ]%string.

Definition stock_symbols : list string :=
  [ "AAPL"; "GOOGL"; "MSFT"; "TSLA"; "AMZN"; "NVDA"; "META" ]%string.

(** [x in l] for a list of strings. *)
Definition str_in (x : string) (l : list string) : bool :=
  existsb (String.eqb x) l.

Definition _normalize_asset_name (entity : string) : option string :=
  let entity_lower := lower entity in
  match crypto_mapping !! entity_lower with
  | Some symbol_ => Some symbol_
  | None => if str_in (upper entity) stock_symbols then Some (upper entity) else None
  end.

(** Truthiness of an [Optional[str]]: [None] and the empty string are
    falsy. *)
Definition str_truthy (o : option string) : bool :=
  match o with
  | Some (String _ _) => true
  | _ => false
  end.

(** The loop [for entity in data.financial_entities] of [_extract_assets]. *)
Fixpoint normalized_entities (l : list string) (assets : list string) : list string :=
  match l with
  | [] => assets
  | entity :: rest =>
      let normalized := _normalize_asset_name entity in
      match normalized with
      | Some name =>
          if str_truthy normalized then normalized_entities rest (assets ++ [name])
          else normalized_entities rest assets
      | None => normalized_entities rest assets
      end
  end.

Definition _extract_assets (data : ProcessedData) : list string :=
  let assets := normalized_entities (financial_entities data) [] in
  match assets with
  | [] => assets ++ ["MARKET"%string]
  | _ => assets
  end.

Definition _calculate_volume_proxy (data : ProcessedData) : Q :=
  let volume : Q := 1 in
  let metadata_ := metadata (raw_data data) in
  let volume :=
    match metadata_ !! "likes"%string with
    | Some likes => volume + likes * (1 # 100)
    | None => volume
    end in
  let volume :=
    match metadata_ !! "retweets"%string with
    | Some retweets => volume + retweets * (5 # 100)
    | None => volume
    end in
  let volume :=
    match metadata_ !! "comments"%string with
    | Some comments => volume + comments * (2 # 100)
    | None => volume
    end in
  volume * relevance_score data.

(** The dictionary that [add_sentiment_data] appends for [data]. *)
Definition observation_of (data : ProcessedData) : Observation :=
  mkObservation (raw_timestamp (raw_data data)) (score (sentiment data))
    (score_confidence (sentiment data)) (relevance_score data)
    (raw_source (raw_data data)) (_calculate_volume_proxy data).

Definition add_sentiment_data (data : ProcessedData) (self : sentiment_data)
  : sentiment_data :=
  let assets := _extract_assets data in
  fold_left (fun self asset => record_observation asset (observation_of data) self)
    assets self.

End AggregatorWrites.

(** ** Generating signals ([SignalGenerator], the rest of the class) *)

(** The time windows of [ProcessingConfig], in seconds; its other fields
    are not read by the modelled code. *)
Record ProcessingConfig : Type := mkProcessingConfig {
  REAL_TIME_WINDOW : Z;
  SHORT_TERM_WINDOW : Z;
  MEDIUM_TERM_WINDOW : Z;
  LONG_TERM_WINDOW : Z
}.

Definition processing_config : ProcessingConfig := {|
  REAL_TIME_WINDOW := 60;
  SHORT_TERM_WINDOW := 300;
  MEDIUM_TERM_WINDOW := 3600;
  LONG_TERM_WINDOW := 86400
|}.

(** The wall clock: the [n]-th call of [datetime.now()] returns
    [readings n]. *)
Record Clock : Type := mkClock {
  readings : nat -> Z;
  reads : nat
}.

(** A [SignalGenerator] with its aggregator ([sentiment_data]), the market
    observations kept by its [FearGreedCalculator], and the clock it reads. *)
Record SignalGeneratorState : Type := mkSignalGeneratorState {
  aggregator : gmap string (list Observation);
  market_history : list MarketData;
  signal_history : list TradingSignal;
  last_signals : gmap string TradingSignal;
  wall_clock : Clock
}.

Module SignalPipeline.
Import SentimentAggregator FearGreedCalculator SignalGenerator.

(** [SignalGenerator.__init__] *)
Definition __init__ (clock : Clock) : SignalGeneratorState :=
  mkSignalGeneratorState ∅ [] [] ∅ clock.

Definition set_aggregator (v : gmap string (list Observation)) (self : SignalGeneratorState)
  : SignalGeneratorState :=
  mkSignalGeneratorState v (market_history self) (signal_history self) (last_signals self)
    (wall_clock self).

Definition set_market_history (v : list MarketData) (self : SignalGeneratorState)
  : SignalGeneratorState :=
  mkSignalGeneratorState (aggregator self) v (signal_history self) (last_signals self)
    (wall_clock self).

Definition set_signal_history (v : list TradingSignal) (self : SignalGeneratorState)
  : SignalGeneratorState :=
  mkSignalGeneratorState (aggregator self) (market_history self) v (last_signals self)
    (wall_clock self).

Definition set_last_signals (v : gmap string TradingSignal) (self : SignalGeneratorState)
  : SignalGeneratorState :=
  mkSignalGeneratorState (aggregator self) (market_history self) (signal_history self) v
    (wall_clock self).

(** [datetime.now()] *)
Definition datetime_now : Py SignalGeneratorState Z :=
  fun self =>
    let clock := wall_clock self in
    (mkSignalGeneratorState (aggregator self) (market_history self) (signal_history self)
       (last_signals self) (mkClock (readings clock) (S (reads clock))),
     Returned (readings clock (reads clock))).

(** [deque.append] on a [deque(maxlen=n)]. *)
Definition bounded_append {A : Type} (n : nat) (d : list A) (item : A) : list A :=
  if (n <=? length d)%nat then drop 1 d ++ [item] else d ++ [item].

Definition add_processed_data (data : ProcessedData) : Py SignalGeneratorState unit :=
  modify (fun self =>
    set_aggregator (AggregatorWrites.add_sentiment_data data (aggregator self)) self).

Definition add_market_data (data : MarketData) : Py SignalGeneratorState unit :=
  modify (fun self =>
    set_market_history (bounded_append 100 (market_history self) data) self).

Definition _analyze_signal_conditions (sentiments : gmap Z AggregatedSentiment)
    (fear_greed : FearGreedIndex) : SignalType * Q * Q :=
  let short_term := sentiments !! SHORT_TERM_WINDOW processing_config in
  let medium_term := sentiments !! MEDIUM_TERM_WINDOW processing_config in
  match short_term with
  | None => (HOLD, 0, 0)
  | Some short_term =>
      let sentiment_score_ := volume_weighted_score short_term in
      let momentum_ := momentum short_term in
      let fg_influence := _calculate_fear_greed_influence (overall_score fear_greed) in
      let confirmation :=
        match medium_term with
        | Some medium_term =>
            if Bool.eqb (Qgtb sentiment_score_ 0) (Qgtb (sentiment_score medium_term) 0)
            then 12 # 10
            else 8 # 10
        | None => 1
        end in
      let strength_ := Qabs sentiment_score_ * confirmation * fg_influence in
      let strength_ := py_min 1 strength_ in
      let combined_score := sentiment_score_ + momentum_ * (5 # 10) in
      let signal_type_ :=
        if Qgtb combined_score (3 # 10) then BUY
        else if Qltb combined_score (- (3 # 10)) then SELL
        else HOLD in
      let confidence_ := py_min (agg_confidence short_term * confirmation * strength_) 1 in
      (signal_type_, confidence_, strength_)
  end.

Definition _calculate_position_size (confidence_ strength_ : Q) : Q :=
  let base_size := MAX_POSITION_SIZE trading_config in
  let size_multiplier := confidence_ * strength_ in
  base_size * size_multiplier.

Definition _calculate_price_targets (asset_ : string) (signal_type_ : SignalType)
    (strength_ : Q) : option Q * option Q * option Q :=
  let current_price : Q := 50000 in
  match signal_type_ with
  | HOLD => (None, None, None)
  | BUY =>
      let volatility_adjustment := strength_ * (1 # 10) in
      let target_price_ :=
        current_price
        * (1 + TAKE_PROFIT_PERCENTAGE trading_config * volatility_adjustment) in
      let stop_loss_ := current_price * (1 - STOP_LOSS_PERCENTAGE trading_config) in
      let take_profit_ := target_price_ in
      (Some target_price_, Some stop_loss_, Some take_profit_)
  | SELL =>
      let volatility_adjustment := strength_ * (1 # 10) in
      let target_price_ :=
        current_price
        * (1 - TAKE_PROFIT_PERCENTAGE trading_config * volatility_adjustment) in
      let stop_loss_ := current_price * (1 + STOP_LOSS_PERCENTAGE trading_config) in
      let take_profit_ := target_price_ in
      (Some target_price_, Some stop_loss_, Some take_profit_)
  end.

Section Generation.

(** [format_fixed n x] is the text of [f"{x:.nf}"], and [keys_in_order d]
    the keys of the dictionary [d] in their order of insertion, which the
    finite map does not record. *)
Variable format_fixed : nat -> Q -> string.
Variable keys_in_order : gmap string (list Observation) -> list string.

Definition _generate_reasoning (sentiments : gmap Z AggregatedSentiment)
    (fear_greed : FearGreedIndex) (signal_type_ : SignalType) : string :=
  match sentiments !! SHORT_TERM_WINDOW processing_config with
  | None => "Insufficient data for signal generation"
  | Some short_term =>
      let sentiment_desc :=
        if Qgtb (sentiment_score short_term) 0 then "positive" else "negative" in
      let reasoning_parts :=
        [ "Short-term sentiment is " +:+ sentiment_desc +:+ " ("
          +:+ format_fixed 2 (sentiment_score short_term) +:+ ") with "
          +:+ pretty (total_mentions short_term) +:+ " mentions" ] in
      let reasoning_parts :=
        if Qgtb (Qabs (momentum short_term)) (1 # 10)
        then
          let momentum_desc :=
            if Qgtb (momentum short_term) 0 then "increasing" else "decreasing" in
          app reasoning_parts ["Sentiment momentum is " +:+ momentum_desc]
        else reasoning_parts in
      let reasoning_parts :=
        app reasoning_parts
           [ "Fear & Greed Index: " +:+ format_fixed 1 (overall_score fear_greed)
             +:+ " (" +:+ classification fear_greed +:+ ")" ] in
      let reasoning_parts :=
        app reasoning_parts
           [ match signal_type_ with
             | BUY => "Bullish sentiment conditions suggest buying opportunity"
             | SELL => "Bearish sentiment conditions suggest selling opportunity"
             | HOLD => "Mixed sentiment suggests holding current position"
             end ] in
      String.concat ". " reasoning_parts +:+ "."
  end%string.

(** The loop [for timeframe in timeframes] of [_generate_asset_signal]; the
    query reads the clock only when the asset has a history. *)
Fixpoint query_timeframes (asset_ : string) (timeframes : list Z)
    (sentiments : gmap Z AggregatedSentiment)
  : Py SignalGeneratorState (gmap Z AggregatedSentiment) :=
  match timeframes with
  | [] => ret sentiments
  | timeframe :: rest =>
      (self <- get ;;
       match aggregator self !! asset_ with
       | None => query_timeframes asset_ rest sentiments
       | Some _ =>
           now <- datetime_now ;;
           match get_aggregated_sentiment (aggregator self) asset_ timeframe now with
           | Raised e => raise e
           | Returned (Some sentiment_) =>
               query_timeframes asset_ rest (<[timeframe := sentiment_]> sentiments)
           | Returned None => query_timeframes asset_ rest sentiments
           end
       end)%py
  end.

(** With no timeframe the dictionary [sentiments] stays empty and the
    function returns before it reads [timeframes[0]]. *)
Definition _generate_asset_signal (asset_ : string) (timeframes : list Z)
  : Py SignalGeneratorState (option TradingSignal) :=
  (sentiments <- query_timeframes asset_ timeframes ∅ ;;
   match timeframes with
   | [] => ret None
   | first_timeframe :: _ =>
       if decide (sentiments = ∅) then ret None
       else
         now <- datetime_now ;;
         let fear_greed :=
           calculate_fear_greed_index now
             match sentiments !! first_timeframe with
             | Some sentiment_ => [(asset_, sentiment_)]
             | None => []
             end in
         let '(signal_type_, confidence_, strength_) :=
           _analyze_signal_conditions sentiments fear_greed in
         if Qltb confidence_ (MIN_SIGNAL_CONFIDENCE trading_config) then ret None
         else
           let position_size_ := _calculate_position_size confidence_ strength_ in
           let '(target_price_, stop_loss_, take_profit_) :=
             _calculate_price_targets asset_ signal_type_ strength_ in
           let reasoning_ := _generate_reasoning sentiments fear_greed signal_type_ in
           now <- datetime_now ;;
           let signal_ :=
             mkTradingSignal asset_ now signal_type_ confidence_ strength_ target_price_
               stop_loss_ take_profit_
               (_calculate_risk_reward stop_loss_ take_profit_ target_price_)
               position_size_ reasoning_ in
           modify (fun self =>
             set_signal_history (bounded_append 1000 (signal_history self) signal_) self) ;;
           modify (fun self =>
             set_last_signals (<[asset_ := signal_]> (last_signals self)) self) ;;
           ret (Some signal_)
   end)%py.

Definition _get_tracked_assets (self : SignalGeneratorState) : list string :=
  let tracked := keys_in_order (aggregator self) in
  match tracked with
  | [] => ["BTC"; "ETH"; "AAPL"; "TSLA"; "MARKET"]%string
  | _ => tracked
  end.

(** The loop [for asset in self._get_tracked_assets()] of
    [generate_signals]. *)
Fixpoint for_assets (timeframes : list Z) (l : list string) (signals : list TradingSignal)
  : Py SignalGeneratorState (list TradingSignal) :=
  match l with
  | [] => ret signals
  | asset_ :: rest =>
      (signal_ <- _generate_asset_signal asset_ timeframes ;;
       match signal_ with
       | Some signal_ => for_assets timeframes rest (signals ++ [signal_])
       | None => for_assets timeframes rest signals
       end)%py
  end.

Definition generate_signals : Py SignalGeneratorState (list TradingSignal) :=
  (let timeframes :=
     [ SHORT_TERM_WINDOW processing_config;
       MEDIUM_TERM_WINDOW processing_config;
       LONG_TERM_WINDOW processing_config ] in
   self <- get ;;
   for_assets timeframes (_get_tracked_assets self) [])%py.

End Generation.

End SignalPipeline.

(** * Properties *)

Lemma Qgtb_lt x y : Qgtb x y = true <-> y < x.
Proof.
  unfold Qgtb. rewrite negb_true_iff, <- not_true_iff_false, Qle_bool_iff.
  split; [apply Qnot_le_lt | apply Qlt_not_le].
Qed.

Lemma Qltb_lt x y : Qltb x y = true <-> x < y.
Proof. unfold Qltb. apply (Qgtb_lt y x). Qed.


Lemma Qis_zero_true x : Qis_zero x = true <-> x == 0.
Proof. unfold Qis_zero. apply Qeq_bool_iff. Qed.

Lemma Qis_zero_false x : Qis_zero x = false <-> ~ x == 0.
Proof. rewrite <- Qis_zero_true. symmetry. apply not_true_iff_false. Qed.

Lemma py_max_Qmax a b : py_max a b == Qmax a b.
Proof.
  unfold py_max. destruct (Qgtb b a) eqn:E.
  - apply Qgtb_lt in E. symmetry. apply Q.max_r. lra.
  - apply not_true_iff_false in E. rewrite Qgtb_lt in E.
    symmetry. apply Q.max_l. lra.
Qed.

Lemma py_min_Qmin a b : py_min a b == Qmin a b.
Proof.
  unfold py_min. destruct (Qltb b a) eqn:E.
  - apply Qltb_lt in E. symmetry. apply Q.min_r. lra.
  - apply not_true_iff_false in E. rewrite Qltb_lt in E.
    symmetry. apply Q.min_l. lra.
Qed.

(** ** The composite index *)

Module FearGreedFacts.
Import FearGreedCalculator.

(** Two assets whose aggregated windows give the components
    [(0.5, 0.2, 0.1, 0.0)] of the spec's scenario B. *)
Definition scenario_B : sentiments_dict :=
  [ ("BTC"%string, mkAggregatedSentiment "BTC" 0 300 10 1 1 (1 # 2) (1 # 5) []);
    ("ETH"%string, mkAggregatedSentiment "ETH" 0 300 10 (-8 # 10) 1 (1 # 2) (1 # 5) []) ].

(** The weighted sum of the four components, with the weights of the
    source. *)
Definition weighted_sum (s m v c : Q) : Q :=
  s * (4 # 10) + m * (25 # 100) + v * (2 # 10) + c * (15 # 100).

(** C8: the index carries the four components that the component
    functions compute from the aggregates, and its overall score is their
    weighted sum (weights 0.4, 0.25, 0.2, 0.15), rescaled by [(w + 1) * 50]
    and clamped to [[0, 100]]; the classification follows the default
    thresholds 25, 45, 55 and 75.  Aggregates whose components are
    (0.5, 0.2, 0.1, 0.0) give the weighted sum 0.27, the score 63.5 and the
    classification Greed. *)
Theorem C8_overall_score_rescale_clamp :
  (forall now d,
      let s := _calculate_sentiment_component d in
      let m := _calculate_momentum_component d in
      let v := _calculate_volume_component d in
      let c := _calculate_correlation_component in
      let r := calculate_fear_greed_index now d in
      sentiment_component r = s
      /\ momentum_component r = m
      /\ volume_component r = v
      /\ correlation_component r = c
      /\ overall_score r == Qmax 0 (Qmin 100 ((weighted_sum s m v c + 1) * 50))
      /\ 0 <= overall_score r <= 100
      /\ (overall_score r <= 25 -> classification r = "Extreme Fear"%string)
      /\ (25 < overall_score r <= 45 -> classification r = "Fear"%string)
      /\ (45 < overall_score r <= 55 -> classification r = "Neutral"%string)
      /\ (55 < overall_score r <= 75 -> classification r = "Greed"%string)
      /\ (75 < overall_score r -> classification r = "Extreme Greed"%string))
  /\ (_calculate_sentiment_component scenario_B == 5 # 10
      /\ _calculate_momentum_component scenario_B == 2 # 10
      /\ _calculate_volume_component scenario_B == 1 # 10
      /\ _calculate_correlation_component == 0
      /\ weighted_sum (5 # 10) (2 # 10) (1 # 10) 0 == 27 # 100
      /\ overall_score (calculate_fear_greed_index 0 scenario_B) == 635 # 10
      /\ classification (calculate_fear_greed_index 0 scenario_B) = "Greed"%string).
Proof.
  split.
  - intros now d s m v c r. subst r. unfold weighted_sum.
    cbn [calculate_fear_greed_index overall_score sentiment_component
           momentum_component volume_component correlation_component classification].
    fold s. fold m. fold v. fold c.
    set (w := (_ + 1) * 50).
    assert (E : py_max 0 (py_min 100 w) == Qmax 0 (Qmin 100 w)).
    { rewrite py_max_Qmax. apply Q.max_compat; [reflexivity | apply py_min_Qmin]. }
    set (score := py_max 0 (py_min 100 w)) in *.
    do 4 (split; [reflexivity |]). split; [exact E |].
    split.
    { rewrite E. split; [apply Q.le_max_l |].
      apply Q.max_lub; [lra | apply Q.le_min_l]. }
    unfold _classify_fear_greed.
    cbn [EXTREME_FEAR_THRESHOLD FEAR_THRESHOLD NEUTRAL_THRESHOLD GREED_THRESHOLD
           trading_config].
    destruct (Qle_bool score 25) eqn:E1;
      [apply Qle_bool_iff in E1
      | apply not_true_iff_false in E1; rewrite Qle_bool_iff in E1];
    (destruct (Qle_bool score 45) eqn:E2;
      [apply Qle_bool_iff in E2
      | apply not_true_iff_false in E2; rewrite Qle_bool_iff in E2]);
    (destruct (Qle_bool score 55) eqn:E3;
      [apply Qle_bool_iff in E3
      | apply not_true_iff_false in E3; rewrite Qle_bool_iff in E3]);
    (destruct (Qle_bool score 75) eqn:E4;
      [apply Qle_bool_iff in E4
      | apply not_true_iff_false in E4; rewrite Qle_bool_iff in E4]);
    repeat split; intros; try reflexivity; lra.
  - vm_compute. repeat split; congruence.
Qed.

End FearGreedFacts.

(** ** The fear-and-greed influence on signal strength *)

Module InfluenceFacts.
Import FearGreedCalculator SignalGenerator.

(** The multiplier that the specification attaches to each
    classification bucket. *)
Definition bucket_influence (classification : string) : Q :=
  if String.eqb classification "Extreme Fear" then 13 # 10
  else if String.eqb classification "Fear" then 11 # 10
  else if String.eqb classification "Neutral" then 1
  else if String.eqb classification "Greed" then 9 # 10
  else 7 # 10.

(** C5 as stated fails: a score of 60 is classified Greed, yet its
    influence is the neutral 1.0 and not 0.9. *)
Lemma C5_influence_disagrees_with_bucket :
  0 <= 60 <= 100
  /\ _classify_fear_greed 60 = "Greed"%string
  /\ _calculate_fear_greed_influence 60 = 1
  /\ ~ _calculate_fear_greed_influence 60 == bucket_influence (_classify_fear_greed 60).
Proof.
  split; [lra |]. split; [reflexivity |]. split; [reflexivity |].
  vm_compute. discriminate.
Qed.

(** C5, amended: the influence is 1.3 up to 25, 1.1 in (25, 45], 1.0 in
    (45, 75), 0.9 in [75, 90) and 0.7 from 90 on; it agrees with the
    classification bucket for scores up to 55, at 75 and from 90 on. *)
Theorem C5_influence_by_thresholds (s : Q) (Hs : 0 <= s <= 100) :
  (s <= 25 -> _calculate_fear_greed_influence s = 13 # 10)
  /\ (25 < s <= 45 -> _calculate_fear_greed_influence s = 11 # 10)
  /\ (45 < s < 75 -> _calculate_fear_greed_influence s = 1)
  /\ (75 <= s < 90 -> _calculate_fear_greed_influence s = 9 # 10)
  /\ (90 <= s -> _calculate_fear_greed_influence s = 7 # 10)
  /\ (s <= 55 \/ s == 75 \/ 90 <= s ->
      _calculate_fear_greed_influence s = bucket_influence (_classify_fear_greed s)).
Proof.
  unfold _calculate_fear_greed_influence, _classify_fear_greed, Qgeb.
  cbn [EXTREME_FEAR_THRESHOLD FEAR_THRESHOLD NEUTRAL_THRESHOLD GREED_THRESHOLD
       EXTREME_GREED_THRESHOLD trading_config].
  destruct (Qle_bool s 25) eqn:E1; [apply Qle_bool_iff in E1 | apply not_true_iff_false in E1; rewrite Qle_bool_iff in E1];
  (destruct (Qle_bool s 45) eqn:E2; [apply Qle_bool_iff in E2 | apply not_true_iff_false in E2; rewrite Qle_bool_iff in E2]);
  (destruct (Qle_bool s 55) eqn:E3; [apply Qle_bool_iff in E3 | apply not_true_iff_false in E3; rewrite Qle_bool_iff in E3]);
  (destruct (Qle_bool s 75) eqn:E4; [apply Qle_bool_iff in E4 | apply not_true_iff_false in E4; rewrite Qle_bool_iff in E4]);
  (destruct (Qle_bool 90 s) eqn:E5; [apply Qle_bool_iff in E5 | apply not_true_iff_false in E5; rewrite Qle_bool_iff in E5]);
  (destruct (Qle_bool 75 s) eqn:E6; [apply Qle_bool_iff in E6 | apply not_true_iff_false in E6; rewrite Qle_bool_iff in E6]);
  try lra;
  repeat split; intros; try reflexivity; try lra.
Qed.

Lemma C5_influence_by_thresholds_witness :
  0 <= 80 <= 100 /\ _calculate_fear_greed_influence 80 = 9 # 10.
Proof.
  assert (H : 0 <= 80 <= 100) by lra.
  split; [exact H |].
  apply (C5_influence_by_thresholds 80 H). lra.
Defined.

End InfluenceFacts.

(** ** Reported streak lengths *)

Module StreakFacts.
Import BacktestEngine.

Lemma length_insert_by_key {A : Type} (key : A -> Z) (x : A) (l : list A) :
  length (insert_by_key key x l) = S (length l).
Proof.
  induction l as [| y l IH]; simpl; [reflexivity |].
  destruct (key x <=? key y)%Z; simpl; [reflexivity | now rewrite IH].
Qed.

Lemma length_sorted {A : Type} (key : A -> Z) (l : list A) :
  length (sorted key l) = length l.
Proof.
  induction l as [| x l IH]; simpl; [reflexivity |].
  now rewrite length_insert_by_key, IH.
Qed.

Lemma consecutive_loop (l : list Position) (c : Z) :
  fold_left consecutive_step l (c, c) = ((c + Z.of_nat (length l))%Z, (c + Z.of_nat (length l))%Z).
Proof.
  revert c. induction l as [| t l IH]; intros c.
  - simpl. now rewrite Z.add_0_r.
  - cbn [fold_left]. unfold consecutive_step at 2. cbn [fst snd].
    replace (Z.max c (c + 1)) with (c + 1)%Z by lia.
    rewrite IH. cbn [length]. f_equal; lia.
Qed.

(** C9: [_calculate_max_consecutive] returns the number of trades it is
    given (0 for the empty list): the counter grows by one at every trade
    and is never reset. *)
Theorem C9_max_consecutive_is_length (trades : list Position) :
  _calculate_max_consecutive trades = Z.of_nat (length trades).
Proof.
  unfold _calculate_max_consecutive. destruct trades as [| t trades]; [reflexivity |].
  rewrite consecutive_loop, length_sorted. reflexivity.
Qed.

End StreakFacts.

(** ** Zero price levels *)

Module ZeroLevelFacts.
Import Position_ SignalGenerator.

Definition with_stop_loss (level : option Q) (s : TradingSignal) : TradingSignal :=
  mkTradingSignal (asset s) (timestamp s) (signal_type s) (confidence s) (strength s)
    (target_price s) level (take_profit s) (risk_reward_ratio s) (position_size s)
    (reasoning s).

Definition with_take_profit (level : option Q) (s : TradingSignal) : TradingSignal :=
  mkTradingSignal (asset s) (timestamp s) (signal_type s) (confidence s) (strength s)
    (target_price s) (stop_loss s) level (risk_reward_ratio s) (position_size s)
    (reasoning s).

Definition with_signal (s : TradingSignal) (self : Position) : Position :=
  mkPosition (symbol self) s (entry_price self) (entry_time self) (exit_price self)
    (exit_time self) (pnl self) (is_closed self) (max_favorable_excursion self)
    (max_adverse_excursion self).

(** [None] or [0.0]. *)
Definition none_or_zero (o : option Q) : Prop :=
  o = None \/ exists z, o = Some z /\ z == 0.

Lemma none_or_zero_falsy o : none_or_zero o -> truthy o = false.
Proof.
  intros [-> | (z & -> & Hz)]; [reflexivity |].
  simpl. apply negb_false_iff. now apply Qis_zero_true.
Qed.

(** C10: a stop-loss or take-profit level of exactly 0.0 is treated as
    absent by the exit check (the check gives the same answer as without
    the level, and never the corresponding exit), and the risk-reward
    ratio is absent as soon as one of stop-loss, take-profit and entry
    price is 0.0 or None. *)
Theorem C10_zero_level_is_absent :
  (forall self z current_price current_time,
      z == 0 ->
      let zero := with_signal (with_stop_loss (Some z) (signal self)) self in
      let absent := with_signal (with_stop_loss None (signal self)) self in
      _check_exit_conditions zero current_price current_time
      = _check_exit_conditions absent current_price current_time
      /\ _check_exit_conditions zero current_price current_time <> (true, "stop_loss"%string))
  /\ (forall self z current_price current_time,
      z == 0 ->
      let zero := with_signal (with_take_profit (Some z) (signal self)) self in
      let absent := with_signal (with_take_profit None (signal self)) self in
      _check_exit_conditions zero current_price current_time
      = _check_exit_conditions absent current_price current_time
      /\ _check_exit_conditions zero current_price current_time <> (true, "take_profit"%string))
  /\ (forall sl tp ep,
      none_or_zero sl \/ none_or_zero tp \/ none_or_zero ep ->
      _calculate_risk_reward sl tp ep = None).
Proof.
  split; [| split].
  - intros self z current_price current_time Hz zero absent.
    assert (F : truthy (Some z) = false) by (apply none_or_zero_falsy; right; eauto).
    unfold _check_exit_conditions. subst zero absent.
    cbn [with_signal with_stop_loss signal stop_loss take_profit signal_type entry_time].
    rewrite F. cbn [andb].
    destruct (_ <? _)%Z; [split; [reflexivity | discriminate] |].
    split; [reflexivity |].
    destruct (match take_profit (signal self) with Some _ => _ | None => _ end);
      discriminate.
  - intros self z current_price current_time Hz zero absent.
    assert (F : truthy (Some z) = false) by (apply none_or_zero_falsy; right; eauto).
    unfold _check_exit_conditions. subst zero absent.
    cbn [with_signal with_take_profit signal stop_loss take_profit signal_type entry_time].
    rewrite F. cbn [andb].
    destruct (_ <? _)%Z; [split; [reflexivity | discriminate] |].
    split; [reflexivity |].
    destruct (match stop_loss (signal self) with Some _ => _ | None => _ end);
      discriminate.
  - intros sl tp ep H. unfold _calculate_risk_reward.
    destruct sl as [sl |]; [| reflexivity].
    destruct tp as [tp |]; [| reflexivity].
    destruct ep as [ep |]; [| reflexivity].
    destruct H as [H | [H | H]]; apply none_or_zero_falsy in H; rewrite H;
      cbn [andb]; rewrite ?andb_false_r; reflexivity.
Qed.

(** A BUY position entered at 100 whose stop-loss is 0.0: the price
    falling to 0 does not close it. *)
Definition zero_stop : Position :=
  Position_.__init__ "X"
    (mkTradingSignal "X" 0 BUY (8 # 10) (8 # 10) None (Some 0) None None (1 # 10) EmptyString) 100.

Lemma C10_zero_level_is_absent_witness :
  _check_exit_conditions zero_stop 0 0 <> (true, "stop_loss"%string)
  /\ _calculate_risk_reward (Some 0) (Some 120) (Some 100) = None.
Proof.
  destruct C10_zero_level_is_absent as (Hsl & _ & Hrr). split.
  - apply (Hsl zero_stop 0 0 0%Z). reflexivity.
  - apply Hrr. left. right. exists 0. split; reflexivity.
Defined.

End ZeroLevelFacts.

(** ** Positions and the portfolio *)

Module PortfolioFacts.
Import Position_ Portfolio_.

Ltac py_unfold :=
  unfold bind, ret, raise, get, modify, eval, py_div in *.

(** *** Methods of [Position] keep the symbol and never reopen *)

Lemma close_position_symbol exit_price exit_time reason self :
  symbol (fst (close_position exit_price exit_time reason self)) = symbol self.
Proof.
  unfold close_position. py_unfold. cbn.
  destruct (Qis_zero (entry_price self)), (signal_type (signal self)); reflexivity.
Qed.

Lemma close_position_closed exit_price exit_time reason self :
  is_closed (fst (close_position exit_price exit_time reason self)) = true.
Proof.
  unfold close_position. py_unfold. cbn.
  destruct (Qis_zero (entry_price self)), (signal_type (signal self)); reflexivity.
Qed.

Lemma update_price_symbol current_price current_time self :
  symbol (fst (update_price current_price current_time self)) = symbol self.
Proof.
  unfold update_price. unfold bind at 1, get at 1.
  destruct (is_closed self); [reflexivity |].
  unfold bind at 1.
  match goal with
  | |- context [match ?m self with _ => _ end] => destruct (m self) as [s1 [[] | e]] eqn:E1
  end.
  - assert (S1 : symbol s1 = symbol self).
    { py_unfold. destruct (signal_type (signal self));
        destruct (Qis_zero (entry_price self)); try discriminate;
        match type of E1 with context [if ?c then _ else _] => destruct c end;
        inversion E1; reflexivity. }
    unfold bind at 1, get at 1.
    destruct (_check_exit_conditions s1 current_price current_time) as [[] reason].
    + rewrite close_position_symbol. exact S1.
    + exact S1.
  - cbn. py_unfold. destruct (signal_type (signal self));
      destruct (Qis_zero (entry_price self)); try (inversion E1; reflexivity);
      match type of E1 with context [if ?c then _ else _] => destruct c end;
      inversion E1.
Qed.

Lemma update_price_stays_closed current_price current_time self :
  is_closed self = true ->
  update_price current_price current_time self = (self, Returned tt).
Proof. intros H. unfold update_price. py_unfold. now rewrite H. Qed.

(** *** Open symbols of a list of positions *)

Fixpoint open_symbols (l : list Position) : list string :=
  match l with
  | [] => []
  | position :: rest =>
      if is_closed position then open_symbols rest
      else symbol position :: open_symbols rest
  end.

Lemma open_symbols_app l1 l2 :
  open_symbols (l1 ++ l2) = open_symbols l1 ++ open_symbols l2.
Proof.
  induction l1 as [| p l1 IH]; simpl; [reflexivity |].
  destruct (is_closed p); simpl; now rewrite IH.
Qed.

Lemma open_symbols_delete i l : open_symbols (delete i l) `sublist_of` open_symbols l.
Proof.
  revert i. induction l as [| p l IH]; intros [| i]; simpl; try reflexivity.
  - destruct (is_closed p); [reflexivity | now apply sublist_cons].
  - destruct (is_closed p); [apply IH | apply sublist_skip, IH].
Qed.

(** Replacing an object by one with the same symbol that is closed when
    the old one was. *)
Lemma open_symbols_insert i l (p p' : Position) :
  l !! i = Some p ->
  symbol p' = symbol p ->
  (is_closed p = true -> is_closed p' = true) ->
  open_symbols (<[i := p']> l) `sublist_of` open_symbols l.
Proof.
  revert i. induction l as [| q l IH]; intros [| i] Hi Hs Hc; simpl in *; try discriminate.
  - injection Hi as ->. destruct (is_closed p) eqn:Ep.
    + rewrite (Hc eq_refl). reflexivity.
    + destruct (is_closed p'); [now apply sublist_cons | rewrite Hs; reflexivity].
  - destruct (is_closed q); [eapply IH; eauto | apply sublist_skip; eapply IH; eauto].
Qed.

Lemma open_symbols_lookup l i (p : Position) :
  l !! i = Some p -> is_closed p = false -> symbol p ∈ open_symbols l.
Proof.
  revert i. induction l as [| q l IH]; intros [| i] Hi Hc; simpl in *; try discriminate.
  - injection Hi as ->. rewrite Hc. left.
  - destruct (is_closed q); [| right]; eapply IH; eauto.
Qed.

(** *** The first open position of an asset *)

Lemma find_open_Some a l i :
  find_open a l = Some i ->
  exists p, l !! i = Some p /\ symbol p = a /\ is_closed p = false.
Proof.
  revert i. induction l as [| q l IH]; intros i H; simpl in H; [discriminate |].
  destruct (String.eqb (symbol q) a && negb (is_closed q)) eqn:E.
  - injection H as <-. apply andb_true_iff in E as [E1 E2].
    apply String.eqb_eq in E1. apply negb_true_iff in E2. exists q. auto.
  - destruct (find_open a l) as [j |] eqn:F; simpl in H; [| discriminate].
    injection H as <-. destruct (IH j eq_refl) as (p & ? & ? & ?). exists p. auto.
Qed.

Lemma find_open_None a l : find_open a l = None -> a ∉ open_symbols l.
Proof.
  induction l as [| q l IH]; intros H; simpl in *; [apply not_elem_of_nil |].
  destruct (String.eqb (symbol q) a && negb (is_closed q)) eqn:E; [discriminate |].
  destruct (find_open a l); [discriminate |]. specialize (IH eq_refl).
  destruct (is_closed q) eqn:C; [exact IH |].
  rewrite andb_true_r in E. apply String.eqb_neq in E.
  rewrite not_elem_of_cons. split; [congruence | exact IH].
Qed.

Lemma find_open_delete a l i :
  find_open a l = Some i -> NoDup (open_symbols l) -> a ∉ open_symbols (delete i l).
Proof.
  revert i. induction l as [| q l IH]; intros i H N; simpl in H; [discriminate |].
  destruct (String.eqb (symbol q) a && negb (is_closed q)) eqn:E.
  - injection H as <-. apply andb_true_iff in E as [E1 E2].
    apply String.eqb_eq in E1. apply negb_true_iff in E2.
    simpl in *. rewrite E2 in N. apply NoDup_cons in N as [N _]. now rewrite <- E1.
  - destruct (find_open a l) as [j |] eqn:F; simpl in H; [| discriminate].
    injection H as <-. simpl in *. destruct (is_closed q) eqn:C.
    + now apply IH.
    + rewrite andb_true_r in E. apply String.eqb_neq in E.
      apply NoDup_cons in N as [_ N].
      rewrite not_elem_of_cons. split; [congruence | now apply IH].
Qed.

(** *** How [Portfolio] methods change the state *)

Lemma on_position_eq {A : Type} i (m : Py Position A) self p :
  positions self !! i = Some p ->
  on_position i m self
  = (set_positions (<[i := fst (m p)]> (positions self)) self, snd (m p)).
Proof. intros H. unfold on_position. rewrite H. now destruct (m p). Qed.

(** The state after the mutations of [_settle_closed_position]. *)
Definition settled (i : nat) (p : Position) (self : Portfolio) : Portfolio :=
  set_closed_positions (closed_positions self ++ [p])
    (set_positions (delete i (positions self))
       (set_current_capital (current_capital self + pnl p * current_capital self) self)).

Lemma _settle_closed_position_eq i self p :
  positions self !! i = Some p ->
  _settle_closed_position i self
  = if Qis_zero (current_capital self + pnl p * current_capital self)
    then (settled i p self, Raised ZeroDivisionError)
    else (set_daily_returns
            (daily_returns self
             ++ [pnl p * current_capital self
                 / (current_capital self + pnl p * current_capital self)])
            (settled i p self),
          Returned tt).
Proof.
  intros H. unfold _settle_closed_position. unfold bind at 1, get at 1. rewrite H.
  py_unfold. cbn.
  destruct (Qis_zero (current_capital self + pnl p * current_capital self)); reflexivity.
Qed.

Lemma _settle_closed_position_invalid i self :
  positions self !! i = None ->
  _settle_closed_position i self = (self, Raised ValueError).
Proof. intros H. unfold _settle_closed_position. py_unfold. now rewrite H. Qed.

(** *** Calls that keep a relation between the states before and after *)

Section Stable.

Variable R : Portfolio -> Portfolio -> Prop.
Hypothesis R_refl : forall self, R self self.
Hypothesis R_trans : forall a b c, R a b -> R b c -> R a c.

Definition stable {A : Type} (m : Py Portfolio A) : Prop :=
  forall self, R self (fst (m self)).

Lemma stable_bind {A B : Type} (m : Py Portfolio A) (k : A -> Py Portfolio B) :
  stable m -> (forall a, stable (k a)) -> stable (bind m k).
Proof.
  intros Hm Hk self. unfold bind. specialize (Hm self).
  destruct (m self) as [s1 [a | e]]; simpl in *; [| exact Hm].
  eapply R_trans; [exact Hm | apply Hk].
Qed.

Lemma stable_eval {A : Type} (f : Portfolio -> outcome A) : stable (eval f).
Proof. intros self. apply R_refl. Qed.

Lemma stable_get : stable get.
Proof. intros self. apply R_refl. Qed.

Lemma stable_ret {A : Type} (a : A) : stable (ret a).
Proof. intros self. apply R_refl. Qed.

Lemma stable_raise {A : Type} (e : exn) : stable (@raise Portfolio A e).
Proof. intros self. apply R_refl. Qed.

Lemma stable_modify (f : Portfolio -> Portfolio) :
  (forall self, R self (f self)) -> stable (modify f).
Proof. intros H self. apply H. Qed.

Hypothesis stable_update_price :
  forall i current_price current_time,
    stable (on_position i (update_price current_price current_time)).
Hypothesis stable_settle : forall i, stable (_settle_closed_position i).

Lemma stable_update_loop market_data n i : stable (update_loop market_data n i).
Proof.
  revert i. induction n as [| n IH]; intros i; cbn [update_loop].
  - apply stable_ret.
  - apply stable_bind; [apply stable_get |].
    intros self. destruct (positions self !! i) as [p |]; [| apply stable_raise].
    destruct (market_data !! symbol p) as [data |]; [| apply IH].
    apply stable_bind; [apply stable_update_price |].
    intros _. apply stable_bind; [apply stable_get |].
    intros self'. destruct (positions self' !! i) as [p' |]; [| apply stable_raise].
    destruct (is_closed p'); [| apply IH].
    apply stable_bind; [apply stable_settle | intros _; apply IH].
Qed.

End Stable.

(** *** Calls that only shrink the set of open symbols *)

Definition shrinks (self self' : Portfolio) : Prop :=
  open_symbols (positions self') `sublist_of` open_symbols (positions self).

Abbreviation shrinking := (stable shrinks).

Lemma shrinks_refl self : shrinks self self.
Proof. unfold shrinks. reflexivity. Qed.

Lemma shrinks_trans a b c : shrinks a b -> shrinks b c -> shrinks a c.
Proof. unfold shrinks. intros H1 H2. etransitivity; eauto. Qed.

Lemma shrinking_bind {A B : Type} (m : Py Portfolio A) (k : A -> Py Portfolio B) :
  shrinking m -> (forall a, shrinking (k a)) -> shrinking (bind m k).
Proof. apply stable_bind, shrinks_trans. Qed.

Lemma shrinking_pure {A : Type} (f : Portfolio -> outcome A) : shrinking (eval f).
Proof. apply stable_eval, shrinks_refl. Qed.

Lemma shrinking_modify (f : Portfolio -> Portfolio) :
  (forall self, positions (f self) = positions self) -> shrinking (modify f).
Proof. intros H self. unfold shrinks, modify. simpl. now rewrite H. Qed.

Lemma shrinking_on_position {A : Type} i (m : Py Position A) :
  (forall p, symbol (fst (m p)) = symbol p) ->
  (forall p, is_closed p = true -> is_closed (fst (m p)) = true) ->
  shrinking (on_position i m).
Proof.
  intros Hs Hc self. unfold shrinks.
  destruct (positions self !! i) as [p |] eqn:E.
  - rewrite (on_position_eq _ _ _ _ E). simpl.
    eapply open_symbols_insert; eauto.
  - unfold on_position. rewrite E. reflexivity.
Qed.

Lemma shrinking_settle i : shrinking (_settle_closed_position i).
Proof.
  intros self. unfold shrinks.
  destruct (positions self !! i) as [p |] eqn:E.
  - rewrite (_settle_closed_position_eq _ _ _ E).
    destruct (Qis_zero _); simpl; apply open_symbols_delete.
  - rewrite (_settle_closed_position_invalid _ _ E). reflexivity.
Qed.

Lemma shrinking_update_loop market_data n i : shrinking (update_loop market_data n i).
Proof.
  apply stable_update_loop.
  - apply shrinks_refl.
  - apply shrinks_trans.
  - intros j current_price current_time. apply shrinking_on_position.
    + intros q. apply update_price_symbol.
    + intros q Hq. now rewrite update_price_stays_closed.
  - apply shrinking_settle.
Qed.

Lemma shrinking_update_positions market_data now :
  shrinking (update_positions market_data now).
Proof.
  unfold update_positions.
  apply shrinking_bind; [intros s; unfold shrinks, get; reflexivity |]. intros self.
  apply shrinking_bind; [apply shrinking_update_loop |]. intros _.
  apply shrinking_bind; [apply shrinking_pure |]. intros current_equity.
  apply shrinking_bind; [intros s; unfold shrinks, get; reflexivity |]. intros self'.
  apply shrinking_bind; [apply shrinking_pure |]. intros point_drawdown.
  apply shrinking_bind; [apply shrinking_modify; reflexivity |]. intros _.
  destruct (Qgtb current_equity (peak_equity self')).
  - apply shrinking_modify. reflexivity.
  - apply shrinking_bind; [apply shrinking_pure |]. intros current_drawdown.
    apply shrinking_modify. reflexivity.
Qed.

(** *** At most one open position per asset *)

Definition one_open_per_asset (self : Portfolio) : Prop :=
  forall i j pi pj,
    positions self !! i = Some pi -> positions self !! j = Some pj ->
    is_closed pi = false -> is_closed pj = false ->
    symbol pi = symbol pj -> i = j.

Lemma NoDup_open_symbols_unique l :
  NoDup (open_symbols l) ->
  forall i j (pi pj : Position),
    l !! i = Some pi -> l !! j = Some pj ->
    is_closed pi = false -> is_closed pj = false ->
    symbol pi = symbol pj -> i = j.
Proof.
  induction l as [| q l IH]; intros N i j pi pj Hi Hj Ci Cj E; [discriminate |].
  simpl in N. destruct i as [| i], j as [| j]; simpl in *.
  - reflexivity.
  - injection Hi as ->. rewrite Ci in N. apply NoDup_cons in N as [N _].
    exfalso. apply N. rewrite E. eapply open_symbols_lookup; eauto.
  - injection Hj as ->. rewrite Cj in N. apply NoDup_cons in N as [N _].
    exfalso. apply N. rewrite <- E. eapply open_symbols_lookup; eauto.
  - f_equal. destruct (is_closed q); [| apply NoDup_cons in N as [_ N]];
      eapply IH; eauto.
Qed.

Lemma shrinks_NoDup self self' :
  shrinks self self' ->
  NoDup (open_symbols (positions self)) -> NoDup (open_symbols (positions self')).
Proof. intros H N. eapply sublist_NoDup; eauto. Qed.

Lemma NoDup_open_symbols_snoc l (position : Position) :
  NoDup (open_symbols l) -> symbol position ∉ open_symbols l ->
  NoDup (open_symbols (l ++ [position])).
Proof.
  intros N H. rewrite open_symbols_app. simpl.
  destruct (is_closed position); [now rewrite app_nil_r |].
  apply NoDup_app. split; [exact N |]. split; [| apply NoDup_singleton].
  intros x Hx Hx'. apply list_elem_of_singleton in Hx'. congruence.
Qed.

(** *** [add_signal] in closed form *)

(** The realised profit fraction of [close_position], before sizing. *)
Definition realized (exit_price : Q) (p : Position) : Q :=
  match signal_type (signal p) with
  | BUY => (exit_price - entry_price p) / entry_price p
  | _ => (entry_price p - exit_price) / entry_price p
  end.

(** The object after a [close_position] that returned. *)
Definition closed_at (exit_price : Q) (exit_time : Z) (p : Position) : Position :=
  mkPosition (symbol p) (signal p) (entry_price p) (entry_time p)
    (Some exit_price) (Some exit_time)
    (realized exit_price p * position_size (signal p)) true
    (max_favorable_excursion p) (max_adverse_excursion p).

Lemma close_position_eq exit_price exit_time reason p :
  close_position exit_price exit_time reason p
  = if Qis_zero (entry_price p)
    then (set_exit exit_price exit_time p, Raised ZeroDivisionError)
    else (closed_at exit_price exit_time p, Returned tt).
Proof.
  unfold close_position, closed_at, realized. py_unfold. cbn.
  destruct (Qis_zero (entry_price p)), (signal_type (signal p)); reflexivity.
Qed.

Lemma delete_insert_same {A : Type} (l : list A) i x : delete i (<[i := x]> l) = delete i l.
Proof.
  revert i. induction l as [| y l IH]; intros [| i]; simpl; try reflexivity.
  now rewrite IH.
Qed.

(** Closing and settling the open position at index [i]. *)
Definition supersede (i : nat) (signal : TradingSignal) (current_price : Q)
  : Py Portfolio unit :=
  (on_position i (close_position current_price (timestamp signal) "new_signal") ;;
   _settle_closed_position i)%py.

(** The guard and the opening of the new position. *)
Definition open_new (signal : TradingSignal) (current_price : Q) : Py Portfolio bool :=
  fun self =>
    if Qgtb (current_capital self * position_size signal) (current_capital self * (95 # 100))
    then (self, Returned false)
    else (set_positions
            (positions self ++ [Position_.__init__ (asset signal) signal current_price]) self,
          Returned true).

Lemma bind_ext {S A B : Type} (m : Py S A) (k k' : A -> Py S B) s :
  (forall a s', k a s' = k' a s') -> bind m k s = bind m k' s.
Proof. intros H. unfold bind. destruct (m s) as [s' [a | e]]; [apply H | reflexivity]. Qed.

Lemma add_signal_unfold signal current_price self :
  signal_type signal <> HOLD ->
  add_signal signal current_price self
  = bind (match _get_open_position self (asset signal) with
          | Some i => supersede i signal current_price
          | None => ret tt
          end) (fun _ => open_new signal current_price) self.
Proof.
  intros H. unfold add_signal.
  assert (K : forall (u : unit) s',
             (self <- get ;;
              if Qgtb (current_capital self * position_size signal)
                   (current_capital self * (95 # 100))
              then ret false
              else (modify (fun self =>
                      set_positions
                        (positions self
                         ++ [Position_.__init__ (asset signal) signal current_price]) self) ;;
                    ret true))%py s'
             = open_new signal current_price s').
  { intros _ s'. unfold open_new. py_unfold. destruct (Qgtb _ _); reflexivity. }
  destruct (signal_type signal); try congruence;
    unfold bind at 1, get at 1; apply bind_ext; exact K.
Qed.

(** The state after [supersede] returned: the old position, closed at the
    current price, has moved to [closed_positions] and its sized profit is
    applied to the capital. *)
Definition superseded (i : nat) (old : Position) (signal : TradingSignal)
    (current_price : Q) (self : Portfolio) : Portfolio :=
  let old' := closed_at current_price (timestamp signal) old in
  let pnl_amount := pnl old' * current_capital self in
  mkPortfolio (initial_capital self) (current_capital self + pnl_amount)
    (delete i (positions self)) (closed_positions self ++ [old'])
    (equity_curve self)
    (daily_returns self ++ [pnl_amount / (current_capital self + pnl_amount)])
    (max_drawdown self) (peak_equity self).

Lemma supersede_eq i old signal current_price self :
  positions self !! i = Some old ->
  ~ entry_price old == 0 ->
  ~ current_capital self
    + pnl (closed_at current_price (timestamp signal) old) * current_capital self == 0 ->
  supersede i signal current_price self
  = (superseded i old signal current_price self, Returned tt).
Proof.
  intros Hi He Hc. apply Qis_zero_false in He, Hc.
  unfold supersede, bind. rewrite (on_position_eq _ _ _ _ Hi), close_position_eq, He.
  cbn [fst snd].
  set (old' := closed_at _ _ _) in *.
  set (self1 := set_positions _ self).
  assert (H1 : positions self1 !! i = Some old').
  { subst self1. cbn. apply list_lookup_insert_eq. eapply lookup_lt_Some; eauto. }
  rewrite (_settle_closed_position_eq _ _ _ H1).
  subst self1. cbn [current_capital set_positions]. rewrite Hc.
  unfold superseded, settled. cbn. fold old'. now rewrite delete_insert_same.
Qed.

Lemma supersede_positions i old signal current_price self :
  positions self !! i = Some old ->
  snd (supersede i signal current_price self) = Returned tt ->
  positions (fst (supersede i signal current_price self)) = delete i (positions self).
Proof.
  intros Hi. unfold supersede, bind.
  rewrite (on_position_eq _ _ _ _ Hi), close_position_eq.
  destruct (Qis_zero (entry_price old)); cbn [fst snd]; [discriminate |].
  set (old' := closed_at _ _ _) in *.
  set (self1 := set_positions _ self).
  assert (H1 : positions self1 !! i = Some old').
  { subst self1. cbn. apply list_lookup_insert_eq. eapply lookup_lt_Some; eauto. }
  rewrite (_settle_closed_position_eq _ _ _ H1).
  destruct (Qis_zero _); cbn; [discriminate |]. intros _. apply delete_insert_same.
Qed.

Lemma shrinking_supersede i signal current_price :
  shrinking (supersede i signal current_price).
Proof.
  apply shrinking_bind; [| intros _; apply shrinking_settle].
  apply shrinking_on_position.
  - intros p. apply close_position_symbol.
  - intros p _. apply close_position_closed.
Qed.

Lemma supersede_returned i old signal current_price self s1 :
  positions self !! i = Some old ->
  supersede i signal current_price self = (s1, Returned tt) ->
  s1 = superseded i old signal current_price self.
Proof.
  intros Hi. unfold supersede, bind.
  rewrite (on_position_eq _ _ _ _ Hi), close_position_eq.
  destruct (Qis_zero (entry_price old)); cbn [fst snd]; [discriminate |].
  set (old' := closed_at _ _ _) in *.
  set (self1 := set_positions _ self).
  assert (H1 : positions self1 !! i = Some old').
  { subst self1. cbn. apply list_lookup_insert_eq. eapply lookup_lt_Some; eauto. }
  rewrite (_settle_closed_position_eq _ _ _ H1).
  subst self1. cbn [current_capital set_positions].
  destruct (Qis_zero _); [discriminate |]. intros [= <-].
  unfold superseded, settled. cbn. fold old'. now rewrite delete_insert_same.
Qed.

Lemma add_signal_NoDup signal current_price self :
  NoDup (open_symbols (positions self)) ->
  NoDup (open_symbols (positions (fst (add_signal signal current_price self)))).
Proof.
  intros N.
  destruct (SignalType_eqb (signal_type signal) HOLD) eqn:T.
  { unfold add_signal. destruct (signal_type signal); try discriminate. exact N. }
  rewrite add_signal_unfold by (intros E; rewrite E in T; discriminate).
  unfold bind, _get_open_position.
  destruct (find_open (asset signal) (positions self)) as [i |] eqn:F.
  - destruct (find_open_Some _ _ _ F) as (old & Hi & _ & _).
    pose proof (shrinking_supersede i signal current_price self) as Sh.
    pose proof (supersede_positions i old signal current_price self Hi) as Hp.
    destruct (supersede i signal current_price self) as [s1 [[] | e]]; cbn [fst snd] in *.
    + specialize (Hp eq_refl). apply (shrinks_NoDup _ _ Sh) in N as N1.
      unfold open_new. destruct (Qgtb _ _); cbn [fst]; [exact N1 |].
      cbn [positions set_positions]. apply NoDup_open_symbols_snoc; [exact N1 |].
      rewrite Hp. cbn. now apply find_open_delete.
    + now apply (shrinks_NoDup _ _ Sh).
  - unfold ret, open_new. destruct (Qgtb _ _); cbn [fst]; [exact N |].
    cbn [positions set_positions]. apply NoDup_open_symbols_snoc; [exact N |].
    cbn. now apply find_open_None.
Qed.

(** A call of one of the two public methods of [Portfolio], and the state
    it leaves, whether it returned or raised. *)
Inductive call : Type :=
| Add_signal (signal : TradingSignal) (current_price : Q)
| Update_positions (market_data : snapshot) (now : Z).

Definition after (self : Portfolio) (c : call) : Portfolio :=
  match c with
  | Add_signal signal current_price => fst (add_signal signal current_price self)
  | Update_positions market_data now => fst (update_positions market_data now self)
  end.

Lemma after_NoDup self c :
  NoDup (open_symbols (positions self)) ->
  NoDup (open_symbols (positions (after self c))).
Proof.
  destruct c as [signal current_price | market_data now]; cbn [after].
  - apply add_signal_NoDup.
  - apply shrinks_NoDup, shrinking_update_positions.
Qed.

Lemma run_NoDup calls self :
  NoDup (open_symbols (positions self)) ->
  NoDup (open_symbols (positions (fold_left after calls self))).
Proof.
  revert self. induction calls as [| c calls IH]; intros self N; [exact N |].
  cbn [fold_left]. apply IH, after_NoDup, N.
Qed.

(** C6: after any sequence of [add_signal] and [update_positions] calls on
    a fresh portfolio, no two open positions share an asset; and a signal
    accepted for an asset that has an open position moves that position,
    closed, to [closed_positions] and puts the new one in its place. *)
Theorem C6_one_open_position_per_asset :
  (forall initial_capital calls,
      one_open_per_asset (fold_left after calls (Portfolio_.__init__ initial_capital)))
  /\ (forall self signal current_price i old,
      _get_open_position self (asset signal) = Some i ->
      positions self !! i = Some old ->
      snd (add_signal signal current_price self) = Returned true ->
      let self' := fst (add_signal signal current_price self) in
      positions self'
      = delete i (positions self) ++ [Position_.__init__ (asset signal) signal current_price]
      /\ closed_positions self'
         = closed_positions self ++ [closed_at current_price (timestamp signal) old]
      /\ is_closed (closed_at current_price (timestamp signal) old) = true).
Proof.
  split.
  - intros initial_capital calls. unfold one_open_per_asset.
    apply NoDup_open_symbols_unique, run_NoDup. cbn. apply NoDup_nil_2.
  - intros self signal current_price i old F Hi R self'. subst self'.
    destruct (SignalType_eqb (signal_type signal) HOLD) eqn:T.
    { unfold add_signal in R. destruct (signal_type signal); discriminate. }
    rewrite add_signal_unfold in * by (intros E; rewrite E in T; discriminate).
    rewrite F in *. unfold bind in *.
    destruct (supersede i signal current_price self) as [s1 [[] | e]] eqn:E;
      [| discriminate].
    apply (supersede_returned _ _ _ _ _ _ Hi) in E. subst s1.
    unfold open_new in *. destruct (Qgtb _ _); [discriminate |].
    cbn. auto.
Qed.

(** *** Concrete portfolios *)

Definition signal_for (ty : SignalType) (t : Z) (size : Q) : TradingSignal :=
  mkTradingSignal "X" t ty (8 # 10) (8 # 10) None None None None size EmptyString.

(** A portfolio of 100000 that accepted a BUY of asset X, sized 0.1, at 100. *)
Definition held : Portfolio :=
  fst (add_signal (signal_for BUY 0 (1 # 10)) 100 (Portfolio_.__init__ 100000)).

Definition held_position : Position :=
  Position_.__init__ "X" (signal_for BUY 0 (1 # 10)) 100.

(** The market five minutes later: X trades at 110. *)
Definition tick_110 : snapshot :=
  {[ "X"%string := mkMarketData "X" (minutes 5) 110 0 0 ]}.

Lemma C6_one_open_position_per_asset_witness :
  closed_positions (fst (add_signal (signal_for SELL (minutes 5) (1 # 10)) 110 held))
  = closed_positions held ++ [closed_at 110 (minutes 5) held_position].
Proof.
  destruct C6_one_open_position_per_asset as [_ H].
  apply (H held (signal_for SELL (minutes 5) (1 # 10)) 110 0%nat held_position);
    vm_compute; reflexivity.
Defined.

(** C1 as stated fails: a signal sized 1.0 (above the 95% guard) sent to
    [held] is rejected, but the open position on X has been closed and
    settled by then. *)
Lemma C1_rejection_changes_state :
  let signal := signal_for BUY (minutes 5) 1 in
  current_capital held * (95 # 100) < current_capital held * position_size signal
  /\ snd (add_signal signal 110 held) = Returned false
  /\ add_signal signal 110 held <> (held, Returned false)
  /\ positions held = [held_position]
  /\ positions (fst (add_signal signal 110 held)) = []
  /\ current_capital held == 100000
  /\ current_capital (fst (add_signal signal 110 held)) == 101000.
Proof.
  cbv zeta. split; [vm_compute; reflexivity |]. split; [vm_compute; reflexivity |].
  split.
  { intros H. apply (f_equal (fun r => length (positions (fst r)))) in H.
    vm_compute in H. discriminate H. }
  repeat split; vm_compute; reflexivity.
Qed.

(** C1, amended: a HOLD signal is rejected with the state unchanged; so is
    a signal above the guard when its asset has no open position, and
    within the guard such a signal only appends the new position.  When the
    asset has an open position, entered at a price other than 0, that
    position is closed at the current price and settled first; when the
    capital after settlement is not 0, the guard is evaluated on it: above
    the guard the call returns false in the settled state without opening
    anything, otherwise it opens the new position and returns true. *)
Theorem C1_add_signal_outcomes self signal current_price :
  let guard (capital : Q) := capital * (95 # 100) < capital * position_size signal in
  let position := Position_.__init__ (asset signal) signal current_price in
  (signal_type signal = HOLD ->
   add_signal signal current_price self = (self, Returned false))
  /\ (signal_type signal <> HOLD ->
      _get_open_position self (asset signal) = None ->
      (guard (current_capital self) ->
       add_signal signal current_price self = (self, Returned false))
      /\ (~ guard (current_capital self) ->
          add_signal signal current_price self
          = (set_positions (positions self ++ [position]) self, Returned true)))
  /\ (forall i old,
      signal_type signal <> HOLD ->
      _get_open_position self (asset signal) = Some i ->
      positions self !! i = Some old ->
      ~ entry_price old == 0 ->
      let self' := superseded i old signal current_price self in
      ~ current_capital self' == 0 ->
      (guard (current_capital self') ->
       add_signal signal current_price self = (self', Returned false))
      /\ (~ guard (current_capital self') ->
          add_signal signal current_price self
          = (set_positions (positions self' ++ [position]) self', Returned true))).
Proof.
  intros guard position. subst guard. split; [| split].
  - intros T. unfold add_signal. now rewrite T.
  - intros T F. rewrite add_signal_unfold, F by exact T.
    unfold bind, ret, open_new. split; intros G.
    + apply Qgtb_lt in G. now rewrite G.
    + rewrite <- Qgtb_lt in G. apply not_true_is_false in G. now rewrite G.
  - intros i old T F Hi He self' Hc. rewrite add_signal_unfold, F by exact T.
    unfold bind. rewrite (supersede_eq _ _ _ _ _ Hi He Hc). fold self'.
    unfold open_new. split; intros G.
    + apply Qgtb_lt in G. now rewrite G.
    + rewrite <- Qgtb_lt in G. apply not_true_is_false in G. now rewrite G.
Qed.

Lemma C1_add_signal_outcomes_witness :
  let oversized := signal_for BUY (minutes 5) 1 in
  let sell := signal_for SELL (minutes 5) (1 # 10) in
  add_signal (signal_for BUY 0 1) 100 (Portfolio_.__init__ 100000)
  = (Portfolio_.__init__ 100000, Returned false)
  /\ add_signal oversized 110 held
     = (superseded 0 held_position oversized 110 held, Returned false)
  /\ add_signal sell 110 held
     = (set_positions
          (positions (superseded 0 held_position sell 110 held)
           ++ [Position_.__init__ "X" sell 110])
          (superseded 0 held_position sell 110 held),
        Returned true).
Proof.
  cbv zeta. split; [| split].
  - destruct (C1_add_signal_outcomes (Portfolio_.__init__ 100000) (signal_for BUY 0 1) 100)
      as (_ & H & _).
    apply H.
    + discriminate.
    + reflexivity.
    + vm_compute. reflexivity.
  - destruct (C1_add_signal_outcomes held (signal_for BUY (minutes 5) 1) 110)
      as (_ & _ & H).
    apply (H 0%nat held_position).
    + discriminate.
    + reflexivity.
    + reflexivity.
    + intros E. vm_compute in E. discriminate E.
    + intros E. vm_compute in E. discriminate E.
    + vm_compute. reflexivity.
  - destruct (C1_add_signal_outcomes held (signal_for SELL (minutes 5) (1 # 10)) 110)
      as (_ & _ & H).
    apply (H 0%nat held_position).
    + discriminate.
    + reflexivity.
    + reflexivity.
    + intros E. vm_compute in E. discriminate E.
    + intros E. vm_compute in E. discriminate E.
    + intros G. vm_compute in G. discriminate G.
Defined.

(** *** The equity point appended by [update_positions] *)

Definition same_curve (self self' : Portfolio) : Prop :=
  peak_equity self' = peak_equity self /\ equity_curve self' = equity_curve self.

Lemma same_curve_update_loop market_data n i :
  stable same_curve (update_loop market_data n i).
Proof.
  apply stable_update_loop.
  - intros self. split; reflexivity.
  - intros a b c [H1 H2] [H3 H4]. split; congruence.
  - intros j current_price current_time self. unfold on_position.
    destruct (positions self !! j) as [p |]; [| split; reflexivity].
    destruct (update_price current_price current_time p). split; reflexivity.
  - intros j self. destruct (positions self !! j) as [p |] eqn:E.
    + rewrite (_settle_closed_position_eq _ _ _ E).
      destruct (Qis_zero _); split; reflexivity.
    + rewrite (_settle_closed_position_invalid _ _ E). split; reflexivity.
Qed.

(** A call that returns appends one point, whose drawdown is measured
    against the peak as it was before the call. *)
Lemma update_positions_point market_data now self self' :
  update_positions market_data now self = (self', Returned tt) ->
  exists point,
    equity_curve self' = equity_curve self ++ [point]
    /\ ep_timestamp point = now
    /\ drawdown point = (peak_equity self - equity point) / peak_equity self.
Proof.
  unfold update_positions. unfold bind at 1, get at 1. unfold bind at 1.
  pose proof (same_curve_update_loop market_data (length (positions self)) 0 self) as F.
  destruct (update_loop market_data (length (positions self)) 0 self) as [s1 [[] | e]];
    [| discriminate].
  destruct F as [Fp Fc]. cbn [fst] in Fp, Fc.
  unfold bind at 1, eval at 1.
  destruct (_calculate_current_equity s1 market_data) as [current_equity | e];
    [| discriminate].
  unfold bind at 1, get at 1. unfold bind at 1, eval at 1. unfold py_div.
  destruct (Qis_zero (peak_equity s1)); [discriminate |].
  unfold bind at 1, modify at 1.
  destruct (Qgtb current_equity (peak_equity s1)).
  - unfold modify. intros [= <-]. eexists. cbn. rewrite Fc, Fp. repeat split.
  - unfold bind, eval, modify. intros [= <-]. eexists. cbn. rewrite Fc, Fp. repeat split.
Qed.

(** X2: with a positive peak, the appended drawdown is negative exactly on the
    ticks whose equity exceeds the peak reached before. *)
Lemma update_positions_drawdown_sign market_data now self self' point :
  update_positions market_data now self = (self', Returned tt) ->
  0 < peak_equity self ->
  last (equity_curve self') = Some point ->
  (drawdown point < 0 <-> peak_equity self < equity point).
Proof.
  intros H Hp Hl. destruct (update_positions_point _ _ _ _ H) as (point' & Hc & _ & Hd).
  rewrite Hc, last_snoc in Hl. injection Hl as ->. rewrite Hd. split; intros C.
  - apply Qnot_le_lt. intros Le. apply (Qlt_not_le _ _ C).
    apply Qle_shift_div_l; [exact Hp | lra].
  - apply Qlt_shift_div_r; [exact Hp | lra].
Qed.

(** C2 fails on the code: on [held], a tick at 110 lifts the equity to
    101000, above the peak of 100000, and the point appended for that tick
    carries the drawdown -0.01. *)
Theorem C2_negative_drawdown_at_new_peak :
  exists point,
    snd (update_positions tick_110 0 held) = Returned tt
    /\ equity_curve (fst (update_positions tick_110 0 held)) = equity_curve held ++ [point]
    /\ equity point == 101000
    /\ peak_equity held == 100000
    /\ drawdown point == - (1 # 100)
    /\ drawdown point < 0.
Proof.
  eexists. split; [vm_compute; reflexivity |].
  split; [vm_compute; reflexivity |].
  cbn [equity drawdown]. repeat split; vm_compute; reflexivity.
Qed.

Lemma update_positions_drawdown_sign_witness :
  exists point,
    last (equity_curve (fst (update_positions tick_110 0 held))) = Some point
    /\ (drawdown point < 0 <-> peak_equity held < equity point).
Proof.
  eexists. split; [vm_compute; reflexivity |].
  apply (update_positions_drawdown_sign tick_110 0 held
           (fst (update_positions tick_110 0 held)));
    vm_compute; reflexivity.
Defined.

(** *** The running maximum drawdown *)

Definition drawdown_grows (self self' : Portfolio) : Prop :=
  max_drawdown self <= max_drawdown self'.

Lemma py_max_ge_l a b : a <= py_max a b.
Proof.
  unfold py_max. destruct (Qgtb b a) eqn:E; [| apply Qle_refl].
  apply Qgtb_lt in E. now apply Qlt_le_weak.
Qed.

Lemma drawdown_grows_on_position {A : Type} i (m : Py Position A) :
  stable drawdown_grows (on_position i m).
Proof.
  intros self. unfold drawdown_grows, on_position.
  destruct (positions self !! i) as [p |]; [| apply Qle_refl].
  destruct (m p). apply Qle_refl.
Qed.

Lemma drawdown_grows_settle i : stable drawdown_grows (_settle_closed_position i).
Proof.
  intros self. unfold drawdown_grows. destruct (positions self !! i) as [p |] eqn:E.
  - rewrite (_settle_closed_position_eq _ _ _ E). destruct (Qis_zero _); apply Qle_refl.
  - rewrite (_settle_closed_position_invalid _ _ E). apply Qle_refl.
Qed.

(** X3: no call of [add_signal] or [update_positions] lowers
    [max_drawdown], whether it returns or raises. *)
Theorem max_drawdown_never_decreases (self : Portfolio) (c : call) :
  max_drawdown self <= max_drawdown (after self c).
Proof.
  assert (Rr : forall s, drawdown_grows s s) by (intros s; apply Qle_refl).
  assert (Rt : forall a b c', drawdown_grows a b -> drawdown_grows b c' -> drawdown_grows a c')
    by (intros a b c'; apply Qle_trans).
  destruct c as [signal current_price | market_data now]; cbn [after].
  - destruct (SignalType_eqb (signal_type signal) HOLD) eqn:T.
    { unfold add_signal. destruct (signal_type signal); try discriminate. apply Qle_refl. }
    rewrite add_signal_unfold by (intros E; rewrite E in T; discriminate).
    apply (stable_bind drawdown_grows Rt).
    + destruct (_get_open_position self (asset signal)) as [i |];
        [| apply stable_ret, Rr].
      apply (stable_bind drawdown_grows Rt);
        [apply drawdown_grows_on_position | intros _; apply drawdown_grows_settle].
    + intros _ s. unfold open_new, drawdown_grows. destruct (Qgtb _ _); apply Qle_refl.
  - unfold update_positions.
    apply (stable_bind drawdown_grows Rt); [apply stable_get, Rr |]. intros self0.
    apply (stable_bind drawdown_grows Rt).
    { apply (stable_update_loop drawdown_grows Rr Rt).
      - intros. apply drawdown_grows_on_position.
      - apply drawdown_grows_settle. }
    intros _.
    apply (stable_bind drawdown_grows Rt); [apply stable_eval, Rr |]. intros current_equity.
    apply (stable_bind drawdown_grows Rt); [apply stable_get, Rr |]. intros self'.
    apply (stable_bind drawdown_grows Rt); [apply stable_eval, Rr |]. intros point_drawdown.
    apply (stable_bind drawdown_grows Rt); [apply stable_modify; intros s; apply Qle_refl |].
    intros _. destruct (Qgtb current_equity (peak_equity self')).
    + apply stable_modify. intros s. apply Qle_refl.
    + apply (stable_bind drawdown_grows Rt); [apply stable_eval, Rr |].
      intros current_drawdown. apply stable_modify. intros s. apply py_max_ge_l.
Qed.

(** *** Scenario C of the specification *)

Definition buy_with_target : TradingSignal :=
  mkTradingSignal "X" 0 BUY (8 # 10) (8 # 10) None None (Some 120) None (1 # 10) EmptyString.

Definition tick_120 : snapshot :=
  {[ "X"%string := mkMarketData "X" (minutes 5) 120 0 0 ]}.

(** Scenario C: a portfolio of 100000 accepts a BUY sized 0.1 at 100 with
    a take-profit at 120; the tick at 120 closes the position by
    take-profit with a profit fraction of 0.2, sized to 0.02, and the
    capital becomes 102000. *)
Theorem scenario_C_take_profit :
  let opened := add_signal buy_with_target 100 (Portfolio_.__init__ 100000) in
  let ticked := update_positions tick_120 0 (fst opened) in
  snd opened = Returned true
  /\ _check_exit_conditions (Position_.__init__ "X" buy_with_target 100) 120 (minutes 5)
     = (true, "take_profit"%string)
  /\ snd ticked = Returned tt
  /\ positions (fst ticked) = []
  /\ (exists closed,
        closed_positions (fst ticked) = [closed]
        /\ is_closed closed = true
        /\ realized 120 (Position_.__init__ "X" buy_with_target 100) == 2 # 10
        /\ pnl closed == 2 # 100)
  /\ current_capital (fst ticked) == 102000.
Proof.
  cbv zeta. split; [vm_compute; reflexivity |]. split; [vm_compute; reflexivity |].
  split; [vm_compute; reflexivity |]. split; [vm_compute; reflexivity |].
  split; [| vm_compute; reflexivity].
  eexists. split; [vm_compute; reflexivity |]. repeat split; vm_compute; reflexivity.
Qed.

End PortfolioFacts.

(** ** The aggregator's window and momentum *)

Module AggregatorFacts.
Import SentimentAggregator.

Definition seconds (n : Z) : Z := (n * 1000000)%Z.

Definition observed (t : Z) (score : Q) : Observation :=
  mkObservation (naive (seconds t)) score 1 1 TWITTER 1.

(** Scenario A of the specification: asset X receives the scores 0.8, 0.6
    and -0.2 at 0 s, 30 s and 50 s, each with volume proxy 1. *)
Definition scenario_A : sentiment_data :=
  record_observation "X" (observed 50 (- (2 # 10)))
    (record_observation "X" (observed 30 (6 # 10))
       (record_observation "X" (observed 0 (8 # 10)) ∅)).

(** The window test in the specification's words: [now - timestamp] is at
    most [windowSeconds]. *)
Definition in_window (now window_size : Z) (item : Observation) : bool :=
  (now - instant (obs_timestamp item) <=? seconds window_size)%Z.

(** All the stored timestamps are naive. *)
Definition all_naive (history : list Observation) : Prop :=
  Forall (fun item => aware (obs_timestamp item) = false) history.

(** [t] is a [datetime]: it lies between [datetime.min] and
    [datetime.max]. *)
Definition representable (t : Z) : Prop := (datetime_min <= t <= datetime_max)%Z.

Lemma recent_items_naive cutoff_time history :
  all_naive history ->
  recent_items cutoff_time history
  = Returned (List.filter (fun item => (cutoff_time <=? instant (obs_timestamp item))%Z)
                history).
Proof.
  induction 1 as [| item rest N _ IH]; [reflexivity |].
  cbn [recent_items List.filter]. unfold datetime_ge. now rewrite N, IH.
Qed.

Lemma recent_items_returned cutoff_time history recent_data :
  recent_items cutoff_time history = Returned recent_data -> all_naive history.
Proof.
  revert recent_data. induction history as [| item rest IH]; intros recent_data H;
    [constructor |].
  cbn [recent_items] in H. unfold datetime_ge in H.
  destruct (aware (obs_timestamp item)) eqn:A; [discriminate |].
  destruct (recent_items cutoff_time rest) as [l | e]; [| discriminate].
  constructor; [exact A | now apply (IH l)].
Qed.

Lemma recent_items_aware cutoff_time history :
  ~ all_naive history -> recent_items cutoff_time history = Raised TypeError.
Proof.
  induction history as [| item rest IH]; intros H; [destruct H; constructor |].
  cbn [recent_items]. unfold datetime_ge.
  destruct (aware (obs_timestamp item)) eqn:A; [reflexivity |].
  rewrite IH; [reflexivity |]. intros N. apply H. now constructor.
Qed.

Lemma timedelta_seconds_fits now window_size :
  representable now -> representable (now - seconds window_size) ->
  timedelta_seconds window_size = Returned (seconds window_size).
Proof.
  unfold representable, datetime_min, datetime_max, seconds, timedelta_seconds.
  intros Hn Hc. cbn zeta.
  assert (D : (-999999999 <= window_size / 86400 <= 999999999)%Z).
  { split.
    - apply Z.div_le_lower_bound; lia.
    - apply Z.div_le_upper_bound; lia. }
  destruct D as [D1 D2]. apply Z.leb_le in D1, D2. now rewrite D1, D2.
Qed.

Lemma datetime_sub_fits now delta :
  representable (now - delta) -> datetime_sub now delta = Returned (now - delta)%Z.
Proof.
  unfold representable, datetime_sub. intros [H1 H2]. cbn zeta.
  apply Z.leb_le in H1, H2. now rewrite H1, H2.
Qed.

Lemma datetime_sub_returned now delta cutoff_time :
  datetime_sub now delta = Returned cutoff_time ->
  cutoff_time = (now - delta)%Z /\ representable (now - delta).
Proof.
  unfold datetime_sub, representable. cbn zeta.
  destruct (datetime_min <=? now - delta)%Z eqn:A; [| discriminate].
  destruct (now - delta <=? datetime_max)%Z eqn:B; [| discriminate].
  apply Z.leb_le in A, B. cbn. intros [= <-]. auto.
Qed.

Lemma timedelta_seconds_returned window_size delta :
  timedelta_seconds window_size = Returned delta -> delta = seconds window_size.
Proof.
  unfold timedelta_seconds, seconds. cbn zeta.
  destruct (_ && _); [now intros [= <-] | discriminate].
Qed.

Lemma filter_in_window now window_size history :
  List.filter
    (fun item => (now - seconds window_size <=? instant (obs_timestamp item))%Z) history
  = List.filter (in_window now window_size) history.
Proof.
  apply List.filter_ext. intros item. unfold in_window.
  apply eq_true_iff_eq. rewrite !Z.leb_le. lia.
Qed.

(** What a query that returns has computed: every stored timestamp was
    naive, the cutoff a datetime, and the answer is made from the
    observations in the window. *)
Lemma get_aggregated_sentiment_returned (self : sentiment_data) asset window_size now r :
  get_aggregated_sentiment self asset window_size now = Returned r ->
  match self !! asset with
  | None => r = None
  | Some history =>
      all_naive history
      /\ representable (now - seconds window_size)
      /\ r = match List.filter (in_window now window_size) history with
             | [] => None
             | recent_data => Some (aggregate asset now window_size recent_data)
             end
  end.
Proof.
  unfold get_aggregated_sentiment. destruct (self !! asset) as [history |];
    [| now intros [= <-]].
  destruct (timedelta_seconds window_size) as [delta | e] eqn:T; [| discriminate].
  apply timedelta_seconds_returned in T. subst delta.
  destruct (datetime_sub now (seconds window_size)) as [cutoff_time | e] eqn:S;
    [| discriminate].
  apply datetime_sub_returned in S as [-> R].
  destruct (recent_items _ history) as [recent_data | e] eqn:I; [| discriminate].
  pose proof (recent_items_returned _ _ _ I) as N.
  rewrite (recent_items_naive _ _ N), filter_in_window in I. injection I as <-.
  intros H. split; [exact N |]. split; [exact R |].
  destruct (List.filter (in_window now window_size) history); now injection H as <-.
Qed.

(** The query on a history of naive timestamps, for a cutoff that is a
    datetime. *)
Lemma get_aggregated_sentiment_naive (self : sentiment_data) asset window_size now history :
  self !! asset = Some history ->
  all_naive history ->
  representable now -> representable (now - seconds window_size) ->
  get_aggregated_sentiment self asset window_size now
  = Returned match List.filter (in_window now window_size) history with
             | [] => None
             | recent_data => Some (aggregate asset now window_size recent_data)
             end.
Proof.
  intros E N Rn Rc. unfold get_aggregated_sentiment. rewrite E.
  rewrite (timedelta_seconds_fits _ _ Rn Rc), (datetime_sub_fits _ _ Rc).
  rewrite (recent_items_naive _ _ N), filter_in_window.
  now destruct (List.filter (in_window now window_size) history).
Qed.

(** C3 as stated fails on scenario A: the query does return three samples
    with mean 0.4, but not the momentum -0.9. *)
Lemma C3_scenario_A_momentum_differs :
  exists agg,
    get_aggregated_sentiment scenario_A "X" 60 (seconds 60) = Returned (Some agg)
    /\ total_mentions agg = 3%Z
    /\ sentiment_score agg == 4 # 10
    /\ ~ momentum agg == - (9 # 10).
Proof.
  eexists. split; [vm_compute; reflexivity |].
  cbn [total_mentions sentiment_score momentum].
  split; [vm_compute; reflexivity |]. split; [vm_compute; reflexivity |].
  vm_compute. discriminate.
Qed.

(** C3, amended: with [n >= 2] entries in the window, taken in stored
    order, the older half is the first [n / 2] of them (rounded down) and
    the later half the rest; momentum is the mean score of the later half
    minus that of the older half, and 0 with fewer than 2 entries.  On
    scenario A the query returns 3 samples, mean 0.4 and the momentum
    mean([0.6, -0.2]) - mean([0.8]) = -0.6. *)
Theorem C3_momentum_of_halves :
  (forall self asset window_size now agg history older later,
      get_aggregated_sentiment self asset window_size now = Returned (Some agg) ->
      self !! asset = Some history ->
      map obs_sentiment_score (List.filter (in_window now window_size) history)
      = older ++ later ->
      length older = (length (older ++ later) / 2)%nat ->
      total_mentions agg = Z.of_nat (length (older ++ later))
      /\ ((2 <= length (older ++ later))%nat ->
          momentum agg == np_mean later - np_mean older)
      /\ ((length (older ++ later) < 2)%nat -> momentum agg == 0))
  /\ (exists agg,
        get_aggregated_sentiment scenario_A "X" 60 (seconds 60) = Returned (Some agg)
        /\ total_mentions agg = 3%Z
        /\ sentiment_score agg == 4 # 10
        /\ momentum agg == np_mean [6 # 10; - (2 # 10)] - np_mean [8 # 10]
        /\ momentum agg == - (6 # 10)).
Proof.
  split.
  - intros self asset window_size now agg history older later H Hh Hs Hl.
    apply get_aggregated_sentiment_returned in H. rewrite Hh in H.
    destruct H as (_ & _ & H).
    set (recent_data := List.filter _ history) in *.
    assert (Hn : length recent_data = length (older ++ later)).
    { rewrite <- Hs. now rewrite length_map. }
    destruct recent_data as [| item rest] eqn:E; [discriminate |].
    rewrite <- E in *. injection H as ->.
    cbn [total_mentions momentum aggregate]. rewrite Hn, <- Hl, Hs.
    split; [reflexivity |]. split.
    + intros H2. assert (Hpos : (0 < length older)%nat).
      { rewrite Hl. apply Nat.div_str_pos. lia. }
      apply Nat.ltb_lt in Hpos. rewrite Hpos.
      rewrite drop_app_length, take_app_length. reflexivity.
    + intros H2. assert (H0 : length older = 0%nat).
      { rewrite Hl. apply Nat.div_small. lia. }
      rewrite H0. reflexivity.
  - eexists. split; [vm_compute; reflexivity |].
    cbn [total_mentions sentiment_score momentum]. repeat split; vm_compute; reflexivity.
Qed.

Lemma C3_momentum_of_halves_witness :
  exists agg,
    get_aggregated_sentiment scenario_A "X" 60 (seconds 60) = Returned (Some agg)
    /\ momentum agg == np_mean [6 # 10; - (2 # 10)] - np_mean [8 # 10].
Proof.
  destruct C3_momentum_of_halves as [H _].
  eexists. split; [vm_compute; reflexivity |].
  refine (proj1 (proj2 (H scenario_A "X"%string 60%Z (seconds 60) _
            [observed 0 (8 # 10); observed 30 (6 # 10); observed 50 (- (2 # 10))]
            [8 # 10] [6 # 10; - (2 # 10)] _ _ _ _)) _).
  - vm_compute. reflexivity.
  - vm_compute. reflexivity.
  - vm_compute. reflexivity.
  - vm_compute. reflexivity.
  - cbn. lia.
Defined.

(** C7 as stated fails: an observation made 60 seconds before the query
    lies within a window of 10^11 seconds, yet the query raises
    [OverflowError], the cutoff falling some twelve centuries before
    [datetime.min]; and a query on a history that holds a timestamp with a
    time zone raises [TypeError], whatever the window. *)
Lemma C7_query_raises :
  (seconds 60 - instant (obs_timestamp (observed 0 (8 # 10))) <= seconds 100000000000)%Z
  /\ get_aggregated_sentiment {[ "X"%string := [observed 0 (8 # 10)] ]} "X"
       100000000000 (seconds 60)
     = Raised OverflowError
  /\ get_aggregated_sentiment
       {[ "X"%string := [mkObservation (mkDatetime 0 true) (8 # 10) 1 1 NEWS 1] ]} "X"
       60 (seconds 60)
     = Raised TypeError.
Proof.
  split; [vm_compute; discriminate |]. split; vm_compute; reflexivity.
Qed.

(** C7, amended: an asset without history gives [None].  For an asset
    with a history, queried at a datetime [now]: when [now - windowSeconds]
    is not a datetime the query raises [OverflowError]; when it is and a
    stored timestamp carries a time zone the query raises [TypeError]; when
    it is and all the stored timestamps are naive the query computes its
    statistics on exactly the stored observations with
    [now - timestamp <= windowSeconds], and returns [None] when none is
    left. *)
Theorem C7_window_contents (self : sentiment_data) (asset : string) (window_size now : Z) :
  let history := default [] (self !! asset) in
  let included := List.filter (in_window now window_size) history in
  (forall item,
      In item included
      <-> In item history
          /\ (now - instant (obs_timestamp item) <= seconds window_size)%Z)
  /\ (self !! asset = None ->
      get_aggregated_sentiment self asset window_size now = Returned None)
  /\ (is_Some (self !! asset) -> ~ representable (now - seconds window_size) ->
      get_aggregated_sentiment self asset window_size now = Raised OverflowError)
  /\ (is_Some (self !! asset) ->
      representable now -> representable (now - seconds window_size) ->
      ~ all_naive history ->
      get_aggregated_sentiment self asset window_size now = Raised TypeError)
  /\ (representable now -> representable (now - seconds window_size) ->
      all_naive history ->
      (included = [] ->
       get_aggregated_sentiment self asset window_size now = Returned None)
      /\ (included <> [] ->
          get_aggregated_sentiment self asset window_size now
          = Returned (Some (aggregate asset now window_size included))))
  /\ (forall agg,
      get_aggregated_sentiment self asset window_size now = Returned (Some agg) ->
      included <> []
      /\ agg = aggregate asset now window_size included
      /\ total_mentions agg = Z.of_nat (length included)
      /\ sentiment_score agg = np_mean (map obs_sentiment_score included)
      /\ agg_confidence agg = np_mean (map obs_confidence included)).
Proof.
  intros history included. split; [| split; [| split; [| split; [| split]]]].
  - intros item. subst included. rewrite List.filter_In. unfold in_window.
    now rewrite Z.leb_le.
  - intros H. unfold get_aggregated_sentiment. now rewrite H.
  - intros [stored E] R. unfold get_aggregated_sentiment. rewrite E.
    destruct (timedelta_seconds window_size) as [delta | e] eqn:T.
    + apply timedelta_seconds_returned in T. subst delta.
      destruct (datetime_sub now (seconds window_size)) as [cutoff_time | e] eqn:S.
      * apply datetime_sub_returned in S as [_ S]. contradiction.
      * unfold datetime_sub in S. cbn zeta in S. destruct (_ && _); now inversion S.
    + unfold timedelta_seconds in T. cbn zeta in T. destruct (_ && _); now inversion T.
  - intros [stored E] Rn Rc N. unfold get_aggregated_sentiment. rewrite E.
    rewrite (timedelta_seconds_fits _ _ Rn Rc), (datetime_sub_fits _ _ Rc).
    subst history. rewrite E in N. cbn [default from_option] in N. unfold id in N.
    now rewrite (recent_items_aware _ _ N).
  - intros Rn Rc N. subst included history.
    destruct (self !! asset) as [stored |] eqn:E; cbn [default from_option] in *;
      unfold id in *.
    + rewrite (get_aggregated_sentiment_naive _ _ _ _ _ E N Rn Rc).
      split; intros H; [now rewrite H |].
      now destruct (List.filter (in_window now window_size) stored).
    + split; [intros _; unfold get_aggregated_sentiment; now rewrite E |].
      intros H. now destruct H.
  - intros agg H. apply get_aggregated_sentiment_returned in H.
    subst included history. destruct (self !! asset) as [stored |]; [| discriminate].
    cbn [default from_option]. unfold id. destruct H as (_ & _ & H).
    destruct (List.filter (in_window now window_size) stored) as [| item rest] eqn:F;
      [discriminate |].
    injection H as ->. split; [discriminate |]. repeat split.
Qed.

Lemma C7_window_contents_witness :
  get_aggregated_sentiment scenario_A "X" 20 (seconds 60)
  = Returned
      (Some (aggregate "X" (seconds 60) 20
               (List.filter (in_window (seconds 60) 20)
                  (default [] (scenario_A !! "X"%string)))))
  /\ List.filter (in_window (seconds 60) 20) (default [] (scenario_A !! "X"%string))
     = [observed 50 (- (2 # 10))]
  /\ get_aggregated_sentiment scenario_A "X" 5 (seconds 60) = Returned None.
Proof.
  destruct (C7_window_contents scenario_A "X" 20 (seconds 60)) as (_ & _ & _ & _ & H & _).
  destruct (C7_window_contents scenario_A "X" 5 (seconds 60)) as (_ & _ & _ & _ & H' & _).
  split; [| split].
  - apply H; [vm_compute; split; discriminate | vm_compute; split; discriminate | |].
    + repeat constructor.
    + vm_compute. discriminate.
  - vm_compute. reflexivity.
  - apply H'; [vm_compute; split; discriminate | vm_compute; split; discriminate | |].
    + repeat constructor.
    + vm_compute. reflexivity.
Defined.

End AggregatorFacts.

(** ** The backtest as a function of its inputs *)

Module EngineFacts.
Import Portfolio_ BacktestEngine PortfolioFacts.

(** *** Fuel of the date loops *)

Lemma iterations_past start_date end_date step :
  (0 < step)%Z -> (end_date < start_date)%Z -> iterations start_date end_date step = 0%nat.
Proof.
  intros Hs Hlt. unfold iterations.
  assert ((end_date - start_date) / step < 0)%Z by (apply Z.div_lt_upper_bound; lia).
  lia.
Qed.

Lemma iterations_step start_date end_date step :
  (0 < step)%Z -> (start_date <= end_date)%Z ->
  iterations start_date end_date step = S (iterations (start_date + step) end_date step).
Proof.
  intros Hs Hle. unfold iterations.
  replace (end_date - start_date)%Z with ((end_date - (start_date + step)) + 1 * step)%Z by lia.
  rewrite Z.div_add by lia.
  assert (-1 <= (end_date - (start_date + step)) / step)%Z.
  { apply Z.div_le_lower_bound; lia. }
  lia.
Qed.

(** More fuel than [iterations] changes nothing: the loop has stopped on
    its own condition. *)
Lemma while_dates_fuel {S A : Type} fuel start_date end_date step
    (body : Z -> A -> Py S A) acc s :
  (0 < step)%Z ->
  (iterations start_date end_date step <= fuel)%nat ->
  while_dates fuel start_date end_date step body acc s
  = while_dates (iterations start_date end_date step) start_date end_date step body acc s.
Proof.
  intros Hs. revert start_date acc s.
  induction fuel as [| fuel IH]; intros start_date acc s Hf.
  - replace (iterations start_date end_date step) with 0%nat by lia. reflexivity.
  - cbn [while_dates]. destruct (start_date <=? end_date)%Z eqn:C.
    + apply Z.leb_le in C. rewrite iterations_step in * by assumption.
      cbn [while_dates]. apply Z.leb_le in C. rewrite C.
      unfold bind. destruct (body start_date acc s) as [s' [acc' | e]]; [| reflexivity].
      apply IH. lia.
    + apply Z.leb_gt in C. rewrite iterations_past by assumption. reflexivity.
Qed.

Lemma while_dates_ext {S A : Type} fuel start_date end_date step
    (body body' : Z -> A -> Py S A) acc s :
  (forall d a s', body d a s' = body' d a s') ->
  while_dates fuel start_date end_date step body acc s
  = while_dates fuel start_date end_date step body' acc s.
Proof.
  intros H. revert start_date acc s.
  induction fuel as [| fuel IH]; intros start_date acc s; [reflexivity |].
  cbn [while_dates]. destruct (start_date <=? end_date)%Z; [| reflexivity].
  unfold bind. rewrite H. destruct (body' start_date acc s) as [s' [acc' | e]];
    [apply IH | reflexivity].
Qed.

(** *** What the simulation reads of a market observation *)

(** An observation with its volume and 24-hour change blanked. *)
Definition price_view (d : MarketData) : MarketData :=
  mkMarketData (md_symbol d) (md_timestamp d) (price d) 0 0.

Lemma equity_loop_view self (market_data : snapshot) l equity :
  equity_loop self (price_view <$> market_data) l equity
  = equity_loop self market_data l equity.
Proof.
  revert equity. induction l as [| p l IH]; intros equity; cbn [equity_loop]; [reflexivity |].
  rewrite lookup_fmap. destruct (negb (is_closed p)); [| apply IH].
  destruct (market_data !! symbol p) as [data |]; cbn [fmap option_fmap option_map price price_view];
    [| apply IH].
  destruct (signal_type (signal p)); destruct (py_div _ _); try reflexivity; apply IH.
Qed.

Lemma update_loop_view (market_data : snapshot) n i self :
  update_loop (price_view <$> market_data) n i self = update_loop market_data n i self.
Proof.
  revert i self. induction n as [| n IH]; intros i self; cbn [update_loop]; [reflexivity |].
  unfold bind at 1, get at 1. symmetry. unfold bind at 1, get at 1. symmetry.
  destruct (positions self !! i) as [p |]; [| reflexivity].
  rewrite lookup_fmap.
  destruct (market_data !! symbol p) as [data |];
    cbn [fmap option_fmap option_map price md_timestamp price_view]; [| apply IH].
  apply bind_ext. intros _ s1. apply bind_ext. intros self' s2.
  destruct (positions self' !! i) as [p' |]; [| reflexivity].
  destruct (is_closed p'); [| apply IH].
  apply bind_ext. intros _ s3. apply IH.
Qed.

Lemma update_positions_view (market_data : snapshot) now self :
  update_positions (price_view <$> market_data) now self
  = update_positions market_data now self.
Proof.
  unfold update_positions. apply bind_ext. intros self0 s0.
  unfold bind at 1. symmetry. unfold bind at 1. symmetry.
  rewrite update_loop_view.
  destruct (update_loop market_data (length (positions self0)) 0 s0) as [s1 [[] | e]];
    [| reflexivity].
  unfold bind at 1, eval at 1. symmetry. unfold bind at 1, eval at 1. symmetry.
  unfold _calculate_current_equity. rewrite equity_loop_view. reflexivity.
Qed.

Lemma for_signals_view (current_market_data : snapshot) l self :
  for_signals (price_view <$> current_market_data) l self
  = for_signals current_market_data l self.
Proof.
  revert self. induction l as [| signal l IH]; intros self; cbn [for_signals]; [reflexivity |].
  rewrite lookup_fmap.
  destruct (current_market_data !! asset signal) as [data |];
    cbn [fmap option_fmap option_map price price_view]; [| apply IH].
  apply bind_ext. intros _ s1. apply IH.
Qed.

Lemma min_by_key_view current_date (l : list MarketData) :
  min_by_key (fun x => Z.abs (md_timestamp x - current_date)) (map price_view l)
  = match min_by_key (fun x => Z.abs (md_timestamp x - current_date)) l with
    | Returned closest_data => Returned (price_view closest_data)
    | Raised e => Raised e
    end.
Proof.
  destruct l as [| x rest]; cbn [min_by_key map]; [reflexivity |]. f_equal.
  revert x. induction rest as [| y rest IH]; intros x; cbn [fold_left map]; [reflexivity |].
  cbn [md_timestamp price_view].
  destruct (_ <? _)%Z; apply IH.
Qed.

Lemma closest_for_view (market_data : price_data) current_date l (acc : snapshot) :
  closest_for (map price_view <$> market_data) current_date l (price_view <$> acc)
  = match closest_for market_data current_date l acc with
    | Returned current_market_data => Returned (price_view <$> current_market_data)
    | Raised e => Raised e
    end.
Proof.
  revert acc. induction l as [| symbol_ l IH]; intros acc; cbn [closest_for]; [reflexivity |].
  rewrite lookup_fmap.
  destruct (market_data !! symbol_) as [symbol_data |]; cbn [fmap option_fmap option_map];
    [| reflexivity].
  rewrite min_by_key_view.
  destruct (min_by_key _ symbol_data) as [closest_data | e]; [| reflexivity].
  rewrite <- fmap_insert. apply IH.
Qed.

Lemma simulation_step_view symbols_ (market_data : price_data) signals_by_time clock
    current_date u self :
  simulation_step symbols_ (map price_view <$> market_data) signals_by_time clock
    current_date u self
  = simulation_step symbols_ market_data signals_by_time clock current_date u self.
Proof.
  unfold simulation_step. unfold bind at 1, eval at 1. symmetry.
  unfold bind at 1, eval at 1. symmetry.
  pose proof (closest_for_view market_data current_date symbols_ ∅) as C.
  rewrite fmap_empty in C. rewrite C. clear C.
  destruct (closest_for market_data current_date symbols_ ∅) as [current_market_data | e];
    [| reflexivity].
  unfold bind at 1. symmetry. unfold bind at 1. symmetry.
  assert (E : match signals_by_time !! current_date with
              | Some scheduled => for_signals (price_view <$> current_market_data) scheduled
              | None => ret tt
              end self
              = match signals_by_time !! current_date with
                | Some scheduled => for_signals current_market_data scheduled
                | None => ret tt
                end self).
  { destruct (signals_by_time !! current_date); [apply for_signals_view | reflexivity]. }
  rewrite E.
  destruct (match signals_by_time !! current_date with
            | Some scheduled => for_signals current_market_data scheduled
            | None => ret tt
            end self) as [s1 [[] | e]]; [| reflexivity].
  apply update_positions_view.
Qed.

Lemma run_simulation_view signals start_date end_date initial_capital symbols_
    (market_data : price_data) clock :
  run_simulation signals start_date end_date initial_capital symbols_
    (map price_view <$> market_data) clock
  = run_simulation signals start_date end_date initial_capital symbols_ market_data clock.
Proof.
  unfold run_simulation.
  rewrite (while_dates_ext _ _ _ _ _
             (simulation_step symbols_ market_data (group_by_time signals) clock));
    [reflexivity |].
  intros d a s'. apply simulation_step_view.
Qed.

(** *** Determinism *)

Definition effective_symbols (list_of_set : list string -> list string)
    (signals : list TradingSignal) (symbols_ : option (list string)) : list string :=
  match symbols_ with
  | Some (symbol_ :: rest) => symbol_ :: rest
  | _ => list_of_set (map asset signals)
  end.

(** The series that the mock generator of a run produces. *)
Definition generated (list_of_set : list string -> list string)
    (signals : list TradingSignal) (start_date end_date : Z)
    (symbols_ : option (list string)) (rng : Rng) : outcome price_data :=
  snd (MockMarketData_.generate_price_data start_date end_date 5
         (MockMarketData_.__init__ (effective_symbols list_of_set signals symbols_) rng)).

Definition stream (l : list Q) : Rng := mkRng (fun n => nth n l 0) 0.

Definition buy_X : TradingSignal :=
  mkTradingSignal "X" 0 BUY (8 # 10) (8 # 10) None None None None (1 # 10) EmptyString.

(** Variates of three runs over two ticks of asset X: the first two set the
    initial price 100 and the volatility 0.02, then each tick draws a
    price change, a volume and a 24-hour change.  [draws_b] differs from
    [draws_a] in the second price change, [draws_c] in the volumes only. *)
Definition draws_a : Rng := stream [0; 0; 0; 1 # 2; 1 # 2; 1; 1 # 2; 1 # 2].
Definition draws_b : Rng := stream [0; 0; 0; 1 # 2; 1 # 2; 2; 1 # 2; 1 # 2].
Definition draws_c : Rng := stream [0; 0; 0; 1 # 4; 1 # 2; 1; 3 # 4; 1 # 2].

Definition run_X (rng : Rng) (clock : Z -> Z) : outcome BacktestResult :=
  run_backtest remove_dups [buy_X] 0 (minutes 5) 100000 (Some ["X"%string]) rng clock.

(** C4 as stated fails: with the same signals, dates, capital and
    symbols, two runs whose mock generators draw different price changes
    return different results (total return 0.002 against 0.004); so do two
    runs whose clocks read differently, through the stamps of the equity
    curve. *)
Lemma C4_same_arguments_different_results :
  exists r_a r_b r_a',
    run_X draws_a (fun t => t) = Returned r_a
    /\ run_X draws_b (fun t => t) = Returned r_b
    /\ run_X draws_a (fun t => (t + 1)%Z) = Returned r_a'
    /\ total_return r_a == 2 # 1000
    /\ total_return r_b == 4 # 1000
    /\ r_a <> r_b
    /\ r_a <> r_a'.
Proof.
  do 3 eexists.
  split; [vm_compute; reflexivity |].
  split; [vm_compute; reflexivity |].
  split; [vm_compute; reflexivity |].
  split; [vm_compute; reflexivity |].
  split; [vm_compute; reflexivity |].
  split; intros E.
  - apply (f_equal total_return) in E. vm_compute in E. discriminate E.
  - apply (f_equal (fun r => map ep_timestamp (details_equity_curve (details r)))) in E.
    vm_compute in E. discriminate E.
Qed.

(** The timestamps and prices of a generated series (or the exception
    that stopped the generator). *)
Definition prices_of (series : outcome price_data) : outcome price_data :=
  match series with
  | Returned market_data => Returned (map price_view <$> market_data)
  | Raised e => Raised e
  end.

(** *** Results that are returned *)

(** X1: a run that returns a result closed no position: [_calculate_results]
    raises as soon as [closed_positions] is not empty, so every returned
    result reports no trade, a win rate of 0 and an infinite profit
    factor. *)
Theorem returned_result_has_no_trades
    (list_of_set : list string -> list string) (signals : list TradingSignal)
    (start_date end_date : Z) (initial_capital : Q) (symbols_ : option (list string))
    (rng : Rng) (clock : Z -> Z) (r : BacktestResult) :
  run_backtest list_of_set signals start_date end_date initial_capital symbols_ rng clock
  = Returned r ->
  total_trades r = 0%Z
  /\ win_rate r = 0
  /\ profit_factor r = Infinity
  /\ all_trades (details r) = []
  /\ max_consecutive_wins (details r) = 0%Z
  /\ max_consecutive_losses (details r) = 0%Z.
Proof.
  unfold run_backtest.
  destruct (snd (MockMarketData_.generate_price_data _ _ _ _)) as [market_data | e];
    [| discriminate].
  unfold run_simulation.
  destruct (while_dates _ _ _ _ _ _ _) as [portfolio [[] | e]]; [| discriminate].
  unfold _calculate_results. destruct (py_div _ _) as [total_return | e]; [| discriminate].
  destruct (closed_positions portfolio); [| discriminate].
  intros [= <-]. repeat split.
Qed.

Lemma returned_result_has_no_trades_witness :
  exists r, run_X draws_a (fun t => t) = Returned r /\ total_trades r = 0%Z.
Proof.
  destruct (run_X draws_a (fun t => t)) as [r | e] eqn:E;
    [| vm_compute in E; discriminate E].
  exists r. split; [reflexivity |].
  exact (proj1 (returned_result_has_no_trades _ _ _ _ _ _ _ _ r E)).
Defined.

End EngineFacts.

(** ** Price updates and exits *)

Module ExitFacts.
Import Position_ Portfolio_ PortfolioFacts.

(** The object after the excursion tracking of [update_price]. *)
Definition tracked (current_price : Q) (p : Position) : Position :=
  match signal_type (signal p) with
  | BUY =>
      let e := (current_price - entry_price p) / entry_price p in
      if Qgtb current_price (entry_price p)
      then set_max_favorable_excursion (py_max (max_favorable_excursion p) e) p
      else set_max_adverse_excursion (py_min (max_adverse_excursion p) e) p
  | _ =>
      let e := (entry_price p - current_price) / entry_price p in
      if Qltb current_price (entry_price p)
      then set_max_favorable_excursion (py_max (max_favorable_excursion p) e) p
      else set_max_adverse_excursion (py_min (max_adverse_excursion p) e) p
  end.

Lemma tracked_fields current_price p :
  symbol (tracked current_price p) = symbol p
  /\ signal (tracked current_price p) = signal p
  /\ entry_price (tracked current_price p) = entry_price p
  /\ entry_time (tracked current_price p) = entry_time p
  /\ is_closed (tracked current_price p) = is_closed p
  /\ exit_price (tracked current_price p) = exit_price p
  /\ exit_time (tracked current_price p) = exit_time p
  /\ pnl (tracked current_price p) = pnl p.
Proof.
  unfold tracked. destruct (signal_type (signal p));
    match goal with |- context [if ?c then _ else _] => destruct c end;
    repeat split.
Qed.

Lemma _check_exit_conditions_tracked current_price p price_ time_ :
  _check_exit_conditions (tracked current_price p) price_ time_
  = _check_exit_conditions p price_ time_.
Proof.
  destruct (tracked_fields current_price p) as (_ & Hs & _ & Ht & _).
  unfold _check_exit_conditions. now rewrite Hs, Ht.
Qed.

(** [update_price] on an open position, in closed form. *)
Lemma update_price_eq current_price current_time p :
  is_closed p = false ->
  update_price current_price current_time p
  = if Qis_zero (entry_price p) then (p, Raised ZeroDivisionError)
    else if fst (_check_exit_conditions p current_price current_time)
         then (closed_at current_price current_time (tracked current_price p), Returned tt)
         else (tracked current_price p, Returned tt).
Proof.
  intros Hc. unfold update_price. unfold bind at 1, get at 1. rewrite Hc.
  unfold bind at 1.
  assert (E : (match signal_type (signal p) with
               | BUY =>
                   (unrealized_pnl <- eval (fun _ =>
                      py_div (current_price - entry_price p) (entry_price p)) ;;
                    e <- eval (fun _ =>
                      py_div (current_price - entry_price p) (entry_price p)) ;;
                    if Qgtb current_price (entry_price p)
                    then modify (fun self =>
                           set_max_favorable_excursion
                             (py_max (max_favorable_excursion self) e) self)
                    else modify (fun self =>
                           set_max_adverse_excursion
                             (py_min (max_adverse_excursion self) e) self))%py
               | _ =>
                   (unrealized_pnl <- eval (fun _ =>
                      py_div (entry_price p - current_price) (entry_price p)) ;;
                    e <- eval (fun _ =>
                      py_div (entry_price p - current_price) (entry_price p)) ;;
                    if Qltb current_price (entry_price p)
                    then modify (fun self =>
                           set_max_favorable_excursion
                             (py_max (max_favorable_excursion self) e) self)
                    else modify (fun self =>
                           set_max_adverse_excursion
                             (py_min (max_adverse_excursion self) e) self))%py
               end) p
              = if Qis_zero (entry_price p) then (p, Raised ZeroDivisionError)
                else (tracked current_price p, Returned tt)).
  { unfold tracked. py_unfold.
    destruct (signal_type (signal p)); destruct (Qis_zero (entry_price p)); try reflexivity;
      match goal with |- context [if ?c then _ else _] => destruct c end; reflexivity. }
  rewrite E. clear E.
  destruct (Qis_zero (entry_price p)) eqn:Z; [reflexivity |].
  unfold bind at 1, get at 1. rewrite _check_exit_conditions_tracked.
  destruct (_check_exit_conditions p current_price current_time) as [[] reason];
    cbn [fst]; [| reflexivity].
  rewrite close_position_eq.
  destruct (tracked_fields current_price p) as (_ & _ & He & _). now rewrite He, Z.
Qed.









End ExitFacts.

(** ** The ledger of a portfolio: equity curve, peak and maximum drawdown *)

Module LedgerFacts.
Import Position_ Portfolio_ PortfolioFacts.

Definition same_ledger (self self' : Portfolio) : Prop :=
  peak_equity self' = peak_equity self
  /\ equity_curve self' = equity_curve self
  /\ max_drawdown self' = max_drawdown self
  /\ initial_capital self' = initial_capital self.

Lemma same_ledger_refl self : same_ledger self self.
Proof. repeat split. Qed.

Lemma same_ledger_trans a b c : same_ledger a b -> same_ledger b c -> same_ledger a c.
Proof. intros (? & ? & ? & ?) (? & ? & ? & ?). repeat split; congruence. Qed.

Lemma same_ledger_on_position {A : Type} i (m : Py Position A) :
  stable same_ledger (on_position i m).
Proof.
  intros self. unfold on_position.
  destruct (positions self !! i) as [p |]; [| apply same_ledger_refl].
  destruct (m p). repeat split.
Qed.

Lemma same_ledger_settle i : stable same_ledger (_settle_closed_position i).
Proof.
  intros self. destruct (positions self !! i) as [p |] eqn:E.
  - rewrite (_settle_closed_position_eq _ _ _ E). destruct (Qis_zero _); repeat split.
  - rewrite (_settle_closed_position_invalid _ _ E). apply same_ledger_refl.
Qed.

Lemma same_ledger_update_loop market_data n i :
  stable same_ledger (update_loop market_data n i).
Proof.
  apply stable_update_loop.
  - apply same_ledger_refl.
  - apply same_ledger_trans.
  - intros. apply same_ledger_on_position.
  - apply same_ledger_settle.
Qed.

Lemma same_ledger_add_signal signal current_price :
  stable same_ledger (add_signal signal current_price).
Proof.
  intros self. destruct (SignalType_eqb (signal_type signal) HOLD) eqn:T.
  { unfold add_signal. destruct (signal_type signal); try discriminate.
    apply same_ledger_refl. }
  rewrite add_signal_unfold by (intros E; rewrite E in T; discriminate).
  apply (stable_bind same_ledger same_ledger_trans).
  - destruct (_get_open_position self (asset signal)) as [i |];
      [| apply stable_ret, same_ledger_refl].
    apply (stable_bind same_ledger same_ledger_trans);
      [apply same_ledger_on_position | intros _; apply same_ledger_settle].
  - intros _ s. unfold open_new. destruct (Qgtb _ _); repeat split.
Qed.

(** What a call of [update_positions] does to the ledger, whether it
    returns or raises: nothing, or one point is appended and then either
    the peak is raised to its equity, or the maximum drawdown is updated
    with its drawdown. *)
Lemma update_positions_ledger market_data now self self' r :
  update_positions market_data now self = (self', r) ->
  let peak := peak_equity self in
  same_ledger self self'
  \/ exists current_equity,
       ~ peak == 0
       /\ initial_capital self' = initial_capital self
       /\ equity_curve self'
          = equity_curve self
            ++ [mkEquityPoint now current_equity ((peak - current_equity) / peak)]
       /\ ((peak < current_equity
            /\ peak_equity self' = current_equity
            /\ max_drawdown self' = max_drawdown self)
           \/ (current_equity <= peak
               /\ peak_equity self' = peak
               /\ max_drawdown self'
                  = py_max (max_drawdown self) ((peak - current_equity) / peak))).
Proof.
  cbv zeta. unfold update_positions. unfold bind at 1, get at 1. unfold bind at 1.
  pose proof (same_ledger_update_loop market_data (length (positions self)) 0 self) as F.
  destruct (update_loop market_data (length (positions self)) 0 self) as [s1 [[] | e]];
    cbn [fst] in F; [| intros [= <- _]; left; exact F].
  destruct F as (Fp & Fc & Fd & Fi).
  unfold bind at 1, eval at 1.
  destruct (_calculate_current_equity s1 market_data) as [current_equity | e];
    [| intros [= <- _]; left; repeat split; assumption].
  unfold bind at 1, get at 1. unfold bind at 1, eval at 1. unfold py_div.
  destruct (Qis_zero (peak_equity s1)) eqn:Z;
    [intros [= <- _]; left; repeat split; assumption |].
  apply Qis_zero_false in Z. rewrite Fp in Z.
  unfold bind at 1, modify at 1.
  destruct (Qgtb current_equity (peak_equity s1)) eqn:G.
  - apply Qgtb_lt in G. rewrite Fp in G. unfold modify. intros [= <- _].
    right. exists current_equity. split; [exact Z |].
    cbn. rewrite ?Fp, ?Fc, ?Fd, ?Fi.
    split; [reflexivity |]. split; [reflexivity |]. left. repeat split. exact G.
  - apply not_true_iff_false in G. rewrite Qgtb_lt, Fp in G. apply Qnot_lt_le in G.
    unfold bind, eval, modify. intros [= <- _].
    right. exists current_equity. split; [exact Z |].
    cbn. rewrite ?Fp, ?Fc, ?Fd, ?Fi.
    split; [reflexivity |]. split; [reflexivity |]. right. repeat split. exact G.
Qed.

Lemma py_max_ge_r a b : b <= py_max a b.
Proof.
  unfold py_max. destruct (Qgtb b a) eqn:E; [apply Qle_refl |].
  apply not_true_iff_false in E. rewrite Qgtb_lt in E. now apply Qnot_lt_le.
Qed.

(** The ledger is sound: the peak is positive, the maximum drawdown is not
    negative, and every recorded point has an equity of at most the peak
    and a drawdown of at most the maximum drawdown. *)
Definition sound_ledger (self : Portfolio) : Prop :=
  0 < peak_equity self
  /\ initial_capital self <= peak_equity self
  /\ 0 <= max_drawdown self
  /\ Forall (fun point =>
               equity point <= peak_equity self /\ drawdown point <= max_drawdown self)
       (equity_curve self).

Lemma same_ledger_sound self self' :
  same_ledger self self' -> sound_ledger self -> sound_ledger self'.
Proof. intros (Hp & Hc & Hd & Hi). unfold sound_ledger. now rewrite Hp, Hc, Hd, Hi. Qed.

Lemma after_sound self c : sound_ledger self -> sound_ledger (after self c).
Proof.
  intros S. destruct c as [signal current_price | market_data now]; cbn [after].
  - eapply same_ledger_sound; [apply same_ledger_add_signal | exact S].
  - destruct (update_positions market_data now self) as [self' r] eqn:E. cbn [fst].
    destruct (update_positions_ledger _ _ _ _ _ E)
      as [F | (current_equity & Z & Hi & Hc & [(G & Hp & Hd) | (G & Hp & Hd)])];
      [eapply same_ledger_sound; eauto | |];
      destruct S as (P & I & D & C); unfold sound_ledger;
      rewrite Hp, Hd, Hc, Hi; rewrite Forall_app, Forall_singleton; cbn [equity drawdown].
    + assert (N : (peak_equity self - current_equity) / peak_equity self < 0).
      { apply Qlt_shift_div_r; [exact P | lra]. }
      split; [lra |]. split; [lra |]. split; [exact D |]. split; [| split; lra].
      eapply Forall_impl; [exact C |]. intros point [H1 H2]. split; [lra | exact H2].
    + pose proof (py_max_ge_l (max_drawdown self)
                    ((peak_equity self - current_equity) / peak_equity self)) as L.
      pose proof (py_max_ge_r (max_drawdown self)
                    ((peak_equity self - current_equity) / peak_equity self)) as R.
      split; [exact P |]. split; [exact I |]. split; [lra |].
      split; [| split; [exact G | exact R]].
      eapply Forall_impl; [exact C |]. intros point [H1 H2]. split; [exact H1 | lra].
Qed.

Lemma after_initial_capital self c : initial_capital (after self c) = initial_capital self.
Proof.
  destruct c as [signal current_price | market_data now]; cbn [after].
  - apply (same_ledger_add_signal signal current_price self).
  - destruct (update_positions market_data now self) as [self' r] eqn:E. cbn [fst].
    destruct (update_positions_ledger _ _ _ _ _ E) as [F | (eq_ & _ & Hi & _)];
      [apply F | exact Hi].
Qed.

Lemma run_sound calls self :
  sound_ledger self ->
  sound_ledger (fold_left after calls self)
  /\ initial_capital (fold_left after calls self) = initial_capital self.
Proof.
  revert self. induction calls as [| c calls IH]; intros self S; [split; [exact S | reflexivity] |].
  cbn [fold_left]. destruct (IH (after self c) (after_sound _ _ S)) as [S' E].
  split; [exact S' |]. rewrite E. apply after_initial_capital.
Qed.

(** X5: after any sequence of calls on a portfolio created with a positive
    capital, the peak equity is at least the initial capital, the maximum
    drawdown is not negative, and every point of the equity curve has an
    equity of at most the peak and a drawdown of at most the maximum
    drawdown. *)
Theorem ledger_is_sound (capital : Q) (calls : list call) :
  0 < capital ->
  let self := fold_left after calls (Portfolio_.__init__ capital) in
  capital <= peak_equity self
  /\ 0 <= max_drawdown self
  /\ forall point, In point (equity_curve self) ->
       equity point <= peak_equity self /\ drawdown point <= max_drawdown self.
Proof.
  intros Hc self.
  assert (S0 : sound_ledger (Portfolio_.__init__ capital)).
  { unfold sound_ledger. cbn. split; [exact Hc |]. split; [apply Qle_refl |].
    split; [apply Qle_refl | constructor]. }
  destruct (run_sound calls _ S0) as ((P & I & D & C) & E). fold self in P, I, D, C, E.
  cbn in E. rewrite E in I.
  split; [exact I |]. split; [exact D |].
  intros point Hin. rewrite Forall_forall in C. apply C. now apply list_elem_of_In.
Qed.

Lemma ledger_is_sound_witness :
  0 < 100000
  /\ 100000
     <= peak_equity
          (fold_left after
             [Add_signal (signal_for BUY 0 (1 # 10)) 100; Update_positions tick_110 0]
             (Portfolio_.__init__ 100000)).
Proof.
  assert (H : 0 < 100000) by reflexivity.
  split; [exact H |].
  exact (proj1 (ledger_is_sound 100000
                  [Add_signal (signal_for BUY 0 (1 # 10)) 100; Update_positions tick_110 0]
                  H)).
Defined.

End LedgerFacts.

(** ** The trade book of a portfolio *)

Module TradeBookFacts.
Import Position_ Portfolio_ PortfolioFacts ExitFacts.

Definition well_formed (p : Position) : Prop :=
  symbol p = asset (signal p)
  /\ signal_type (signal p) <> HOLD
  /\ entry_time p = timestamp (signal p)
  /\ (is_closed p = true -> exit_price p <> None /\ exit_time p <> None).

Definition settled_trade (p : Position) : Prop :=
  well_formed p /\ is_closed p = true.

Definition sound_book (self : Portfolio) : Prop :=
  Forall well_formed (positions self) /\ Forall settled_trade (closed_positions self).

Lemma close_position_well_formed exit_price_ exit_time_ reason p :
  well_formed p ->
  settled_trade (fst (close_position exit_price_ exit_time_ reason p)).
Proof.
  intros (Hs & Ht & He & _). rewrite close_position_eq.
  destruct (Qis_zero (entry_price p)); cbn; repeat split; auto; discriminate.
Qed.

Lemma tracked_well_formed current_price p : well_formed p -> well_formed (tracked current_price p).
Proof.
  intros (Hs & Ht & He & Hx).
  destruct (tracked_fields current_price p) as (F1 & F2 & _ & F4 & F5 & F6 & F7 & _).
  unfold well_formed. rewrite F1, F2, F4, F5, F6, F7. auto.
Qed.

Lemma update_price_well_formed current_price current_time p :
  well_formed p -> well_formed (fst (update_price current_price current_time p)).
Proof.
  intros W. destruct (is_closed p) eqn:C.
  { now rewrite update_price_stays_closed. }
  rewrite update_price_eq by exact C.
  destruct (Qis_zero (entry_price p)) eqn:Z; [exact W |].
  destruct (fst (_check_exit_conditions p current_price current_time)); cbn [fst].
  - pose proof (tracked_well_formed current_price p W) as W'.
    pose proof (close_position_well_formed current_price current_time EmptyString _ W') as S.
    rewrite close_position_eq in S.
    destruct (tracked_fields current_price p) as (_ & _ & He & _).
    rewrite He, Z in S. apply S.
  - now apply tracked_well_formed.
Qed.

Lemma settle_sound_book i self p :
  positions self !! i = Some p -> is_closed p = true ->
  sound_book self -> sound_book (fst (_settle_closed_position i self)).
Proof.
  intros Hi Hc [Hp Hq]. rewrite (_settle_closed_position_eq _ _ _ Hi).
  assert (W : well_formed p).
  { rewrite Forall_forall in Hp. apply Hp. eapply list_elem_of_lookup_2; eauto. }
  destruct (Qis_zero _); cbn; (split; [now apply Forall_delete |]);
    apply Forall_app; split; auto; apply Forall_singleton; split; auto.
Qed.

Lemma update_loop_sound_book market_data n i self :
  sound_book self -> sound_book (fst (update_loop market_data n i self)).
Proof.
  revert i self. induction n as [| n IH]; intros i self B; [exact B |].
  cbn [update_loop]. unfold bind at 1, get at 1.
  destruct (positions self !! i) as [p |] eqn:Hi; [| exact B].
  destruct (market_data !! symbol p) as [data |]; [| now apply IH].
  unfold bind at 1. rewrite (on_position_eq _ _ _ _ Hi).
  set (p' := fst (update_price (price data) (md_timestamp data) p)).
  assert (W' : well_formed p').
  { apply update_price_well_formed. destruct B as [Hp _].
    rewrite Forall_forall in Hp. apply Hp. eapply list_elem_of_lookup_2; eauto. }
  set (s1 := set_positions (<[i := p']> (positions self)) self).
  assert (B1 : sound_book s1).
  { destruct B as [Hp Hq]. split; [| exact Hq]. cbn. now apply Forall_insert. }
  assert (Hi' : positions s1 !! i = Some p').
  { cbn. apply list_lookup_insert_eq. eapply lookup_lt_Some; eauto. }
  destruct (snd (update_price (price data) (md_timestamp data) p)) as [[] | e];
    [| exact B1].
  unfold bind at 1, get at 1. rewrite Hi'.
  destruct (is_closed p') eqn:C; [| now apply IH].
  pose proof (settle_sound_book i s1 p' Hi' C B1) as B2.
  unfold bind at 1. destruct (_settle_closed_position i s1) as [s2 [[] | e]];
    cbn [fst] in B2; [now apply IH | exact B2].
Qed.

Lemma update_positions_book market_data now self :
  let s1 := fst (update_loop market_data (length (positions self)) 0 self) in
  let self' := fst (update_positions market_data now self) in
  positions self' = positions s1 /\ closed_positions self' = closed_positions s1.
Proof.
  cbv zeta.
  destruct (update_positions market_data now self) as [self' r] eqn:E. cbn [fst].
  revert E. unfold update_positions. unfold bind at 1, get at 1. unfold bind at 1.
  destruct (update_loop market_data (length (positions self)) 0 self) as [s1 [[] | e]];
    cbn [fst]; [| intros [= <- _]; split; reflexivity].
  unfold bind at 1, eval at 1.
  destruct (_calculate_current_equity s1 market_data) as [current_equity | e];
    [| intros [= <- _]; split; reflexivity].
  unfold bind at 1, get at 1. unfold bind at 1, eval at 1. unfold py_div.
  destruct (Qis_zero (peak_equity s1)); [intros [= <- _]; split; reflexivity |].
  unfold bind at 1, modify at 1.
  destruct (Qgtb current_equity (peak_equity s1)).
  - unfold modify. intros [= <- _]. split; reflexivity.
  - unfold bind, eval, modify. intros [= <- _]. split; reflexivity.
Qed.

Lemma add_signal_sound_book signal current_price self :
  sound_book self -> sound_book (fst (add_signal signal current_price self)).
Proof.
  intros B. destruct (SignalType_eqb (signal_type signal) HOLD) eqn:T.
  { unfold add_signal. destruct (signal_type signal); try discriminate. exact B. }
  assert (NH : signal_type signal <> HOLD) by (intros E; rewrite E in T; discriminate).
  rewrite add_signal_unfold by exact NH. unfold bind.
  assert (S : sound_book
                (fst (match _get_open_position self (asset signal) with
                      | Some i => supersede i signal current_price
                      | None => ret tt
                      end self))).
  { unfold _get_open_position.
    destruct (find_open (asset signal) (positions self)) as [i |] eqn:F; [| exact B].
    destruct (find_open_Some _ _ _ F) as (old & Hi & _ & _).
    unfold supersede, bind. rewrite (on_position_eq _ _ _ _ Hi).
    set (old' := fst (close_position current_price (timestamp signal) "new_signal" old)).
    assert (W : well_formed old).
    { destruct B as [Hp _]. rewrite Forall_forall in Hp. apply Hp.
      eapply list_elem_of_lookup_2; eauto. }
    destruct (close_position_well_formed current_price (timestamp signal)
                "new_signal" old W) as [W' C']. fold old' in W', C'.
    set (s1 := set_positions (<[i := old']> (positions self)) self).
    assert (B1 : sound_book s1).
    { destruct B as [Hp Hq]. split; [| exact Hq]. cbn. now apply Forall_insert. }
    assert (Hi' : positions s1 !! i = Some old').
    { cbn. apply list_lookup_insert_eq. eapply lookup_lt_Some; eauto. }
    destruct (snd (close_position current_price (timestamp signal) "new_signal" old))
      as [[] | e]; [| exact B1].
    exact (settle_sound_book i s1 old' Hi' C' B1). }
  destruct (match _get_open_position self (asset signal) with
            | Some i => supersede i signal current_price
            | None => ret tt
            end self) as [s1 [[] | e]]; cbn [fst] in S |- *; [| exact S].
  unfold open_new. destruct (Qgtb _ _); cbn [fst]; [exact S |].
  destruct S as [Hp Hq]. split; [| exact Hq]. cbn.
  apply Forall_app. split; [exact Hp |]. apply Forall_singleton.
  repeat split; auto; discriminate.
Qed.

Lemma run_sound_book calls self :
  sound_book self -> sound_book (fold_left after calls self).
Proof.
  revert self. induction calls as [| c calls IH]; intros self B; [exact B |].
  cbn [fold_left]. apply IH.
  destruct c as [signal current_price | market_data now]; cbn [after].
  - now apply add_signal_sound_book.
  - destruct (update_positions_book market_data now self) as [Hp Hc].
    pose proof (update_loop_sound_book market_data (length (positions self)) 0 self B)
      as [Lp Lc].
    split; [now rewrite Hp | now rewrite Hc].
Qed.

(** X7: after any sequence of calls on a fresh portfolio, every position it
    holds carries a BUY or SELL signal for its own symbol and was entered at
    the signal's timestamp, and every trade in [closed_positions] is closed
    with its exit price and exit time recorded. *)
Theorem trade_book_is_sound (capital : Q) (calls : list call) :
  let self := fold_left after calls (Portfolio_.__init__ capital) in
  (forall p, In p (positions self) \/ In p (closed_positions self) ->
     symbol p = asset (signal p)
     /\ signal_type (signal p) <> HOLD
     /\ entry_time p = timestamp (signal p))
  /\ (forall p, In p (closed_positions self) ->
        is_closed p = true /\ exit_price p <> None /\ exit_time p <> None).
Proof.
  intros self.
  assert (B : sound_book self).
  { apply run_sound_book. split; constructor. }
  destruct B as [Hp Hq]. rewrite Forall_forall in Hp, Hq. split.
  - intros p [H | H]; apply list_elem_of_In in H.
    + destruct (Hp p H) as (? & ? & ? & _). auto.
    + destruct (Hq p H) as ((? & ? & ? & _) & _). auto.
  - intros p H. apply list_elem_of_In in H.
    destruct (Hq p H) as ((_ & _ & _ & X) & C). destruct (X C). auto.
Qed.

End TradeBookFacts.

(** ** The simulation loop of the backtest *)

Module SimulationFacts.
Import Position_ Portfolio_ BacktestEngine PortfolioFacts LedgerFacts EngineFacts.

(** The dates that a loop from [start_date] to [end_date] visits. *)
Definition on_grid (start_date end_date step d : Z) : Prop :=
  (start_date <= d /\ d <= end_date /\ (d - start_date) mod step = 0)%Z.

Definition on_gridb (start_date end_date step d : Z) : bool :=
  ((start_date <=? d) && (d <=? end_date) && ((d - start_date) mod step =? 0))%Z.

Lemma on_gridb_spec start_date end_date step d :
  on_gridb start_date end_date step d = true <-> on_grid start_date end_date step d.
Proof.
  unfold on_gridb, on_grid. rewrite !andb_true_iff, !Z.leb_le, Z.eqb_eq. tauto.
Qed.

Lemma while_dates_ext_from {S A : Type} fuel start_date current_date end_date step
    (body body' : Z -> A -> Py S A) acc s :
  (0 < step)%Z ->
  (start_date <= current_date)%Z -> ((current_date - start_date) mod step = 0)%Z ->
  (forall d a s', on_grid start_date end_date step d -> body d a s' = body' d a s') ->
  while_dates fuel current_date end_date step body acc s
  = while_dates fuel current_date end_date step body' acc s.
Proof.
  intros Hs. revert current_date acc s.
  induction fuel as [| fuel IH]; intros current_date acc s Hle Hmod H; [reflexivity |].
  cbn [while_dates]. destruct (current_date <=? end_date)%Z eqn:C; [| reflexivity].
  apply Z.leb_le in C. unfold bind.
  rewrite H by (repeat split; assumption).
  destruct (body' current_date acc s) as [s' [acc' | e]]; [| reflexivity].
  apply IH; [lia | | exact H].
  replace (current_date + step - start_date)%Z
    with (current_date - start_date + 1 * step)%Z by lia.
  now rewrite Z.mod_add by lia.
Qed.

(** *** Signals grouped by timestamp *)

Definition at_time (t : Z) (signal : TradingSignal) : bool := (timestamp signal =? t)%Z.

Lemma group_fold_lookup (signals : list TradingSignal) (m : gmap Z (list TradingSignal)) t :
  fold_left
    (fun signals_by_time signal =>
       <[timestamp signal := default [] (signals_by_time !! timestamp signal) ++ [signal]]>
         signals_by_time)
    signals m !! t
  = match List.filter (at_time t) signals with
    | [] => m !! t
    | l => Some (default [] (m !! t) ++ l)
    end.
Proof.
  revert m. induction signals as [| signal signals IH]; intros m; [reflexivity |].
  cbn [fold_left List.filter]. rewrite IH. unfold at_time at 2.
  destruct (timestamp signal =? t)%Z eqn:E.
  - apply Z.eqb_eq in E. subst t. rewrite lookup_insert_eq.
    destruct (List.filter (at_time (timestamp signal)) signals); simpl; [reflexivity |].
    f_equal. now rewrite <- app_assoc.
  - apply Z.eqb_neq in E. now rewrite lookup_insert_ne.
Qed.

(** The signals scheduled at [t] are the signals stamped [t], in the order
    of the input; a date without signal has no entry. *)
Lemma group_by_time_lookup (signals : list TradingSignal) t :
  group_by_time signals !! t
  = match List.filter (at_time t) signals with
    | [] => None
    | l => Some l
    end.
Proof.
  unfold group_by_time. rewrite group_fold_lookup, lookup_empty.
  now destruct (List.filter (at_time t) signals).
Qed.

Lemma filter_at_time_on_grid start_date end_date step (signals : list TradingSignal) d :
  on_grid start_date end_date step d ->
  List.filter (at_time d)
    (List.filter (fun signal => on_gridb start_date end_date step (timestamp signal)) signals)
  = List.filter (at_time d) signals.
Proof.
  intros G. apply on_gridb_spec in G.
  induction signals as [| signal signals IH]; [reflexivity |].
  cbn [List.filter]. destruct (on_gridb _ _ _ (timestamp signal)) eqn:E.
  - cbn [List.filter]. now rewrite IH.
  - rewrite IH. unfold at_time at 2. destruct (timestamp signal =? d)%Z eqn:T; [| reflexivity].
    apply Z.eqb_eq in T. congruence.
Qed.

Lemma minutes_5_pos : (0 < minutes 5)%Z.
Proof. reflexivity. Qed.

Lemma run_simulation_on_grid signals start_date end_date initial_capital symbols_
    (market_data : price_data) clock :
  run_simulation signals start_date end_date initial_capital symbols_ market_data clock
  = run_simulation
      (List.filter
         (fun signal => on_gridb start_date end_date (minutes 5) (timestamp signal)) signals)
      start_date end_date initial_capital symbols_ market_data clock.
Proof.
  unfold run_simulation.
  rewrite (while_dates_ext_from _ start_date start_date end_date (minutes 5) _
             (simulation_step symbols_ market_data
                (group_by_time
                   (List.filter
                      (fun signal => on_gridb start_date end_date (minutes 5) (timestamp signal))
                      signals)) clock));
    [reflexivity | apply minutes_5_pos | lia | now rewrite Z.sub_diag | ].
  intros d a s' G. unfold simulation_step.
  now rewrite !group_by_time_lookup, (filter_at_time_on_grid _ _ _ _ _ G).
Qed.

(** X8: only the signals stamped exactly on the five-minute grid of the run
    (start date plus a multiple of five minutes, up to the end date) take
    part in a backtest over given symbols: the other signals can be removed
    without changing the outcome. *)
Theorem run_backtest_ignores_off_grid_signals
    (list_of_set : list string -> list string) (signals : list TradingSignal)
    (start_date end_date : Z) (initial_capital : Q) (symbol_ : string)
    (symbols_ : list string) (rng : Rng) (clock : Z -> Z) :
  run_backtest list_of_set signals start_date end_date initial_capital
    (Some (symbol_ :: symbols_)) rng clock
  = run_backtest list_of_set
      (List.filter
         (fun signal => on_gridb start_date end_date (minutes 5) (timestamp signal)) signals)
      start_date end_date initial_capital (Some (symbol_ :: symbols_)) rng clock.
Proof.
  unfold run_backtest.
  destruct (snd (MockMarketData_.generate_price_data _ _ _ _)) as [market_data | e];
    [| reflexivity].
  apply run_simulation_on_grid.
Qed.

(** *** One equity point per step *)

Lemma same_ledger_for_signals (current_market_data : snapshot) l :
  stable same_ledger (for_signals current_market_data l).
Proof.
  induction l as [| signal l IH]; cbn [for_signals].
  - apply stable_ret, same_ledger_refl.
  - destruct (current_market_data !! asset signal) as [data |]; [| exact IH].
    apply (stable_bind same_ledger same_ledger_trans);
      [apply same_ledger_add_signal | intros _; exact IH].
Qed.

Lemma simulation_step_point symbols_ (market_data : price_data) signals_by_time clock
    current_date u self self' :
  simulation_step symbols_ market_data signals_by_time clock current_date u self
  = (self', Returned tt) ->
  length (equity_curve self') = S (length (equity_curve self)).
Proof.
  unfold simulation_step. unfold bind at 1, eval at 1.
  destruct (closest_for market_data current_date symbols_ ∅) as [current_market_data | e];
    [| discriminate].
  unfold bind at 1.
  assert (F : stable same_ledger
                match signals_by_time !! current_date with
                | Some scheduled => for_signals current_market_data scheduled
                | None => ret tt
                end).
  { destruct (signals_by_time !! current_date);
      [apply same_ledger_for_signals | apply stable_ret, same_ledger_refl]. }
  specialize (F self).
  destruct (match signals_by_time !! current_date with
            | Some scheduled => for_signals current_market_data scheduled
            | None => ret tt
            end self) as [s1 [[] | e]]; [| discriminate].
  destruct F as (_ & Fc & _). cbn [fst] in Fc. intros H.
  destruct (update_positions_point _ _ _ _ H) as (point & Hc & _).
  rewrite Hc, length_app, Fc. cbn. lia.
Qed.

Lemma while_dates_points symbols_ (market_data : price_data) signals_by_time clock
    fuel current_date end_date self self' :
  while_dates fuel current_date end_date (minutes 5)
    (simulation_step symbols_ market_data signals_by_time clock) tt self
  = (self', Returned tt) ->
  (fuel <= iterations current_date end_date (minutes 5))%nat ->
  length (equity_curve self') = (length (equity_curve self) + fuel)%nat.
Proof.
  revert current_date self. induction fuel as [| fuel IH]; intros current_date self H Hf.
  - cbn in H. injection H as <-. lia.
  - cbn [while_dates] in H. destruct (current_date <=? end_date)%Z eqn:C.
    + apply Z.leb_le in C. rewrite iterations_step in Hf by (apply minutes_5_pos || exact C).
      unfold bind in H.
      destruct (simulation_step symbols_ market_data signals_by_time clock current_date tt self)
        as [s1 [[] | e]] eqn:E; [| discriminate].
      apply simulation_step_point in E. apply IH in H; [| lia]. lia.
    + apply Z.leb_gt in C. rewrite iterations_past in Hf by (apply minutes_5_pos || exact C).
      lia.
Qed.

(** X9: a backtest that returns has recorded exactly one equity point per
    five-minute step from the start date to the end date, and none when the
    end date precedes the start date. *)
Theorem returned_equity_curve_length
    (list_of_set : list string -> list string) (signals : list TradingSignal)
    (start_date end_date : Z) (initial_capital : Q) (symbols_ : option (list string))
    (rng : Rng) (clock : Z -> Z) (r : BacktestResult) :
  run_backtest list_of_set signals start_date end_date initial_capital symbols_ rng clock
  = Returned r ->
  length (details_equity_curve (details r)) = iterations start_date end_date (minutes 5)
  /\ ((end_date < start_date)%Z -> details_equity_curve (details r) = []).
Proof.
  unfold run_backtest.
  destruct (snd (MockMarketData_.generate_price_data _ _ _ _)) as [market_data | e];
    [| discriminate].
  unfold run_simulation.
  destruct (while_dates _ _ _ _ _ _ _) as [portfolio [[] | e]] eqn:W; [| discriminate].
  apply while_dates_points in W; [| lia]. cbn in W.
  unfold _calculate_results. destruct (py_div _ _) as [total_return | e]; [| discriminate].
  destruct (closed_positions portfolio); [| discriminate].
  intros [= <-]. cbn [details details_equity_curve]. split; [exact W |].
  intros Hlt. rewrite iterations_past in W by (apply minutes_5_pos || exact Hlt).
  now destruct (equity_curve portfolio).
Qed.

Lemma returned_equity_curve_length_witness :
  exists r,
    run_X draws_a (fun t => t) = Returned r
    /\ length (details_equity_curve (details r)) = 2%nat.
Proof.
  destruct (run_X draws_a (fun t => t)) as [r | e] eqn:E;
    [| vm_compute in E; discriminate E].
  exists r. split; [reflexivity |].
  exact (proj1 (returned_equity_curve_length _ _ _ _ _ _ _ _ r E)).
Defined.

End SimulationFacts.

(** ** The generated market *)

Module MarketFacts.
Import MockMarketData_ BacktestEngine SimulationFacts.

Definition covers {A : Type} (l : list string) (m : gmap string A) : Prop :=
  forall k, k ∈ l -> is_Some (m !! k).

(** The generator knows a price and a volatility for each of its symbols. *)
Definition ready (l : list string) (self : MockMarketData) : Prop :=
  symbols self = l /\ covers l (current_prices self) /\ covers l (volatilities self).

Lemma covers_insert {A : Type} l (m : gmap string A) k v :
  covers l m -> covers l (<[k := v]> m).
Proof.
  intros H k' Hk'. destruct (decide (k = k')) as [-> | N].
  - rewrite lookup_insert_eq. eauto.
  - rewrite lookup_insert_ne by exact N. now apply H.
Qed.

Lemma uniform_for_each_returns low high l acc self :
  exists m self',
    uniform_for_each low high l acc self = (self', Returned m)
    /\ symbols self' = symbols self
    /\ current_prices self' = current_prices self
    /\ volatilities self' = volatilities self
    /\ (forall k, k ∈ l \/ is_Some (acc !! k) -> is_Some (m !! k)).
Proof.
  revert acc self. induction l as [| k0 l IH]; intros acc self.
  - exists acc, self. repeat split. intros k [H | H]; [inversion H | exact H].
  - cbn [uniform_for_each]. unfold bind at 1, np_random_uniform, bind, draw, ret.
    match goal with
    | |- context [uniform_for_each low high l ?a ?s] => destruct (IH a s) as (m & s' & E & H1 & H2 & H3 & H4)
    end.
    exists m, s'. rewrite E. repeat split; try assumption.
    intros k [H | H]; apply H4.
    + apply elem_of_cons in H as [-> | H]; [right; rewrite lookup_insert_eq; eauto | left; exact H].
    + right. destruct (decide (k0 = k)) as [-> | N];
        [rewrite lookup_insert_eq; eauto | now rewrite lookup_insert_ne].
Qed.

Lemma __init___ready l rng : ready l (MockMarketData_.__init__ l rng).
Proof.
  unfold MockMarketData_.__init__. unfold bind at 1.
  destruct (uniform_for_each_returns 100 50000 l ∅ (mkMockMarketData l ∅ ∅ rng))
    as (m & s1 & E & H1 & H2 & H3 & H4).
  rewrite E. unfold bind at 1, modify at 1. unfold bind at 1.
  destruct (uniform_for_each_returns (2 # 100) (5 # 100) l ∅ (set_current_prices m s1))
    as (m' & s2 & E' & H1' & H2' & H3' & H4').
  rewrite E'. unfold modify. cbn [fst]. unfold ready. cbn.
  rewrite H1', H2'. cbn. rewrite H1. cbn.
  split; [reflexivity |]. split; intros k Hk; [apply H4 | apply H4']; now left.
Qed.

Section Series.

Variables (start_date end_date step : Z) (l : list string).
Hypothesis step_pos : (0 < step)%Z.

(** An observation of symbol [k] as the generator makes them. *)
Definition generated_for (k : string) (x : MarketData) : Prop :=
  md_symbol x = k /\ 1 # 100 <= price x
  /\ on_grid start_date end_date step (md_timestamp x).

Definition stamped (d : Z) (series : list MarketData) : Prop :=
  exists x, x ∈ series /\ md_timestamp x = d.

(** Every symbol has a series of generated observations, with one stamped
    at each date of [visited] and, for the symbols of [done], one stamped
    [d]. *)
Definition series_inv (visited : Z -> Prop) (done : list string) (d : Z)
    (data : price_data) : Prop :=
  forall k, k ∈ l ->
    exists series,
      data !! k = Some series
      /\ Forall (generated_for k) series
      /\ (forall d', visited d' -> stamped d' series)
      /\ (k ∈ done -> stamped d series).

Lemma stamped_app d series x : stamped d series -> stamped d (series ++ [x]).
Proof. intros (y & Hy & E). exists y. split; [apply elem_of_app; now left | exact E]. Qed.

Lemma for_symbols_inv visited d todo done data self :
  on_grid start_date end_date step d ->
  ready l self ->
  (forall k, k ∈ todo -> k ∈ l) ->
  series_inv visited done d data ->
  exists self' data',
    for_symbols d todo data self = (self', Returned data')
    /\ ready l self'
    /\ series_inv visited (done ++ todo) d data'.
Proof.
  intros G. revert done data self.
  induction todo as [| k0 todo IH]; intros done data self R Hsub I.
  - exists self, data. rewrite app_nil_r. auto.
  - cbn [for_symbols]. unfold bind at 1, get at 1.
    destruct R as (Rs & Rp & Rv).
    assert (Hk0 : k0 ∈ l) by (apply Hsub; left).
    destruct (Rv k0 Hk0) as [volatility Ev]. destruct (Rp k0 Hk0) as [current_price Ep].
    rewrite Ev, Ep.
    destruct (I k0 Hk0) as (series & Es & Fs & Vs & _).
    unfold bind at 1, np_random_normal, np_random_uniform, bind, draw, ret, modify.
    cbn [fst snd symbols current_prices volatilities np_random set_current_prices].
    rewrite Es.
    match goal with
    | |- context [for_symbols d todo ?a ?s] =>
        destruct (IH (done ++ [k0]) a s) as (self' & data' & E & R' & I')
    end.
    + unfold ready. cbn. split; [exact Rs |]. split; [| exact Rv].
      now apply covers_insert, covers_insert.
    + intros k Hk. apply Hsub. now right.
    + intros k Hk. destruct (decide (k0 = k)) as [<- | N].
      * eexists. rewrite lookup_insert_eq. split; [reflexivity |].
        split; [| split].
        -- apply Forall_app. split; [exact Fs |]. apply Forall_singleton.
           split; [reflexivity |]. split; [apply LedgerFacts.py_max_ge_r | exact G].
        -- intros d' Hd'. apply stamped_app. now apply Vs.
        -- intros _. eexists. split; [apply elem_of_app; right; left |]. reflexivity.
      * destruct (I k Hk) as (series' & Es' & Fs' & Vs' & Ds').
        exists series'. rewrite lookup_insert_ne by exact N.
        split; [exact Es' |]. split; [exact Fs' |]. split; [exact Vs' |].
        intros Hd. apply Ds'. apply elem_of_app in Hd as [Hd | Hd]; [exact Hd |].
        apply list_elem_of_singleton in Hd. congruence.
    + exists self', data'. split; [exact E |]. split; [exact R' |].
      now rewrite <- app_assoc in I'.
Qed.

Lemma grid_next d d' :
  (start_date <= d)%Z -> ((d - start_date) mod step = 0)%Z ->
  on_grid start_date end_date step d' -> (d' < d + step)%Z ->
  (d' < d)%Z \/ d' = d.
Proof.
  intros Hd Hm (Hd' & _ & Hm') Hlt.
  destruct (Z.lt_ge_cases d' d) as [L | Ge]; [now left | right].
  apply Z.mod_divide in Hm, Hm'; try lia.
  destruct Hm as [a Ha], Hm' as [b Hb].
  assert ((b - a) * step < 1 * step)%Z by lia.
  assert (0 <= (b - a) * step)%Z by lia.
  assert (b - a < 1)%Z by (apply Z.mul_lt_mono_pos_r with step; lia).
  assert (0 <= b - a)%Z by nia.
  assert (b = a) by lia. subst b. lia.
Qed.

Lemma generate_loop_inv fuel current_date data self :
  (start_date <= current_date)%Z -> ((current_date - start_date) mod step = 0)%Z ->
  (iterations current_date end_date step <= fuel)%nat ->
  ready l self ->
  series_inv (fun d => on_grid start_date end_date step d /\ (d < current_date)%Z) [] 0 data ->
  exists self' data',
    while_dates fuel current_date end_date step
      (fun current_date data => for_symbols current_date l data) data self
    = (self', Returned data')
    /\ series_inv (on_grid start_date end_date step) [] 0 data'.
Proof.
  revert current_date data self.
  induction fuel as [| fuel IH]; intros current_date data self Hle Hmod Hf R I.
  - assert (Hgt : (end_date < current_date)%Z).
    { destruct (Z.lt_ge_cases end_date current_date) as [L | Ge]; [exact L |].
      rewrite EngineFacts.iterations_step in Hf by lia. lia. }
    exists self, data. split; [reflexivity |].
    intros k Hk. destruct (I k Hk) as (series & Es & Fs & Vs & _).
    exists series. split; [exact Es |]. split; [exact Fs |].
    split; [| intros H; inversion H].
    intros d' G. apply Vs. split; [exact G |]. destruct G as (_ & G & _). lia.
  - cbn [while_dates]. destruct (current_date <=? end_date)%Z eqn:C.
    + apply Z.leb_le in C.
      assert (G : on_grid start_date end_date step current_date) by (repeat split; assumption).
      assert (I0 : series_inv
                     (fun d => on_grid start_date end_date step d /\ (d < current_date)%Z)
                     [] current_date data).
      { intros k Hk. destruct (I k Hk) as (series & Es & Fs & Vs & _).
        exists series. repeat split; try assumption. intros H. inversion H. }
      destruct (for_symbols_inv _ current_date l [] data self G R (fun k H => H) I0)
        as (s1 & data1 & E & R1 & I1).
      unfold bind. rewrite E. cbn [app] in I1.
      apply IH; [lia | | | exact R1 |].
      * replace (current_date + step - start_date)%Z
          with (current_date - start_date + 1 * step)%Z by lia.
        now rewrite Z.mod_add by lia.
      * rewrite EngineFacts.iterations_step in Hf by assumption. lia.
      * intros k Hk. destruct (I1 k Hk) as (series & Es & Fs & Vs & Ds).
        exists series. split; [exact Es |]. split; [exact Fs |].
        split; [| intros H; inversion H].
        intros d' [G' Hlt]. destruct (grid_next current_date d' Hle Hmod G' Hlt) as [L | ->].
        -- apply Vs. now split.
        -- now apply Ds.
    + apply Z.leb_gt in C. exists self, data. split; [reflexivity |].
      intros k Hk. destruct (I k Hk) as (series & Es & Fs & Vs & _).
      exists series. split; [exact Es |]. split; [exact Fs |].
      split; [| intros H; inversion H].
      intros d' G. apply Vs. split; [exact G |]. destruct G as (_ & G & _). lia.
Qed.

Lemma empty_series_lookup k :
  k ∈ l ->
  (list_to_map (map (fun symbol_ => (symbol_, [])) l) : price_data) !! k = Some [].
Proof.
  induction l as [| k0 l0 IH]; intros H; [inversion H |].
  cbn [map list_to_map foldr]. destruct (decide (k0 = k)) as [-> | N].
  - apply lookup_insert_eq.
  - rewrite lookup_insert_ne by exact N. apply IH.
    apply elem_of_cons in H as [-> | H]; [congruence | exact H].
Qed.

End Series.

(** *** The nearest observation *)

Lemma min_fold_least {A : Type} (key : A -> Z) rest x0 :
  let r := fold_left (fun best y => if (key y <? key best)%Z then y else best) rest x0 in
  r ∈ x0 :: rest /\ forall y, y ∈ x0 :: rest -> (key r <= key y)%Z.
Proof.
  revert x0. induction rest as [| y0 rest IH]; intros x0; cbn [fold_left].
  - split; [left |]. intros y Hy. apply list_elem_of_singleton in Hy. subst y. lia.
  - destruct (key y0 <? key x0)%Z eqn:C.
    + apply Z.ltb_lt in C. destruct (IH y0) as [Hin Hle]. split.
      * right. exact Hin.
      * intros y Hy. apply elem_of_cons in Hy as [-> | Hy]; [| now apply Hle].
        specialize (Hle y0 ltac:(left)). lia.
    + apply Z.ltb_ge in C. destruct (IH x0) as [Hin Hle]. split.
      * apply elem_of_cons in Hin as [-> | Hin]; [left | right; right; exact Hin].
      * intros y Hy. apply elem_of_cons in Hy as [-> | Hy]; [apply Hle; left |].
        apply elem_of_cons in Hy as [-> | Hy]; [| apply Hle; now right].
        specialize (Hle x0 ltac:(left)). lia.
Qed.

(** [min(l, key=...)] returns an element of [l] with the least key, and
    raises [ValueError] on the empty list only. *)
Lemma min_by_key_least {A : Type} (key : A -> Z) (l : list A) :
  match min_by_key key l with
  | Returned x => x ∈ l /\ forall y, y ∈ l -> (key x <= key y)%Z
  | Raised e => l = [] /\ e = ValueError
  end.
Proof.
  destruct l as [| x0 rest]; cbn [min_by_key]; [split; reflexivity |].
  apply min_fold_least.
Qed.

Lemma closest_for_at_date start_date end_date step l (market_data : price_data) d todo acc :
  series_inv start_date end_date step l (on_grid start_date end_date step) [] 0 market_data ->
  on_grid start_date end_date step d ->
  (forall k, k ∈ todo -> k ∈ l) ->
  exists current_market_data,
    closest_for market_data d todo acc = Returned current_market_data
    /\ forall k,
         (k ∈ todo ->
          exists x, current_market_data !! k = Some x
                    /\ generated_for start_date end_date step k x
                    /\ md_timestamp x = d)
         /\ (k ∉ todo -> current_market_data !! k = acc !! k).
Proof.
  intros I G. revert acc.
  induction todo as [| k0 todo IH]; intros acc Hsub.
  - exists acc. split; [reflexivity |]. intros k. split; [intros H; inversion H | reflexivity].
  - cbn [closest_for].
    destruct (I k0 (Hsub k0 ltac:(left))) as (series & Es & Fs & Vs & _). rewrite Es.
    pose proof (min_by_key_least (fun x => Z.abs (md_timestamp x - d)) series) as M.
    destruct (min_by_key _ series) as [x0 | e].
    2:{ destruct M as [-> _]. destruct (Vs d G) as (x & Hx & _). inversion Hx. }
    destruct M as [Hin Hle].
    assert (T : md_timestamp x0 = d).
    { destruct (Vs d G) as (x & Hx & Tx). specialize (Hle x Hx). cbn beta in Hle.
      rewrite Tx, Z.sub_diag in Hle. cbn in Hle. lia. }
    destruct (IH (<[k0 := x0]> acc) (fun k H => Hsub k ltac:(right; exact H)))
      as (cm & E & H).
    exists cm. split; [exact E |]. intros k. split.
    + intros Hk. destruct (decide (k ∈ todo)) as [Y | N]; [now apply H |].
      apply elem_of_cons in Hk as [-> | Hk]; [| contradiction].
      exists x0. destruct (H k0) as [_ H2]. rewrite (H2 N), lookup_insert_eq.
      split; [reflexivity |]. split; [| exact T].
      rewrite Forall_forall in Fs. now apply Fs.
    + intros Hk. apply not_elem_of_cons in Hk as [N1 N2].
      destruct (H k) as [_ H2]. rewrite (H2 N2). now rewrite lookup_insert_ne.
Qed.

Lemma generate_price_data_inv symbols_ rng start_date end_date :
  exists self' market_data,
    generate_price_data start_date end_date 5 (MockMarketData_.__init__ symbols_ rng)
    = (self', Returned market_data)
    /\ series_inv start_date end_date (minutes 5) symbols_
         (on_grid start_date end_date (minutes 5)) [] 0 market_data.
Proof.
  pose proof (__init___ready symbols_ rng) as R.
  unfold generate_price_data. unfold bind at 1, get at 1.
  destruct R as (Rs & Rp & Rv). rewrite Rs.
  apply (generate_loop_inv start_date end_date (minutes 5) symbols_ minutes_5_pos
           (iterations start_date end_date (minutes 5)) start_date
           (list_to_map (map (fun symbol_ => (symbol_, [])) symbols_))
           (MockMarketData_.__init__ symbols_ rng));
    [lia | now rewrite Z.sub_diag | lia | repeat split; assumption |].
  intros k Hk. exists []. split; [now apply empty_series_lookup |].
  split; [constructor |]. split; [| intros H; inversion H].
  intros d' [(H1 & _) H2]. lia.
Qed.

(** X10: on naive dates whose five-minute steps stay within the range of
    [datetime] (the end date plus five minutes is at most [datetime.max]),
    the mock generator of a run returns a series, also when the end date
    precedes the start date; and at every five-minute date of the run the
    nearest-observation search of [run_backtest] finds, for each symbol,
    an observation of that symbol stamped with exactly that date, at a
    price of at least 0.01. *)
Theorem snapshot_is_generated_for_its_date
    (symbols_ : list string) (rng : Rng) (start_date end_date : Z) :
  (end_date + minutes 5 <= datetime_max)%Z ->
  exists market_data,
    snd (generate_price_data start_date end_date 5 (MockMarketData_.__init__ symbols_ rng))
    = Returned market_data
    /\ forall d,
         on_grid start_date end_date (minutes 5) d ->
         exists current_market_data,
           closest_for market_data d symbols_ ∅ = Returned current_market_data
           /\ forall k, k ∈ symbols_ ->
                exists x, current_market_data !! k = Some x
                          /\ md_symbol x = k /\ md_timestamp x = d /\ 1 # 100 <= price x.
Proof.
  intros _.
  destruct (generate_price_data_inv symbols_ rng start_date end_date)
    as (self' & market_data & E & I).
  exists market_data. rewrite E. split; [reflexivity |]. intros d G.
  destruct (closest_for_at_date start_date end_date (minutes 5) symbols_ market_data d
              symbols_ ∅ I G (fun k H => H)) as (cm & C & H).
  exists cm. split; [exact C |].
  intros k Hk. destruct (H k) as [H1 _]. destruct (H1 Hk) as (x & Ex & (Sx & Px & _) & Tx).
  exists x. auto.
Qed.

Lemma snapshot_is_generated_for_its_date_witness :
  (exists market_data,
      snd (generate_price_data (minutes 5) 0 5
             (MockMarketData_.__init__ ["X"%string] EngineFacts.draws_a))
      = Returned market_data)
  /\ exists market_data current_market_data x,
       snd (generate_price_data 0 (minutes 5) 5
              (MockMarketData_.__init__ ["X"%string] EngineFacts.draws_a))
       = Returned market_data
       /\ closest_for market_data (minutes 5) ["X"%string] ∅ = Returned current_market_data
       /\ current_market_data !! "X"%string = Some x
       /\ md_timestamp x = minutes 5.
Proof.
  split.
  - assert (R : (0 + minutes 5 <= datetime_max)%Z) by (vm_compute; discriminate).
    destruct (snapshot_is_generated_for_its_date ["X"%string] EngineFacts.draws_a
                (minutes 5) 0 R) as (m & H & _).
    exists m. exact H.
  - assert (R : (minutes 5 + minutes 5 <= datetime_max)%Z) by (vm_compute; discriminate).
    assert (G : on_grid 0 (minutes 5) (minutes 5) (minutes 5))
      by (unfold on_grid, minutes; repeat split; (lia || reflexivity)).
    destruct (snapshot_is_generated_for_its_date ["X"%string] EngineFacts.draws_a
                0 (minutes 5) R) as (m & H1 & H2).
    destruct (H2 (minutes 5) G) as (c & C & K).
    destruct (K "X"%string ltac:(left)) as (x & Ex & _ & Tx & _).
    exists m, c, x. auto.
Defined.

End MarketFacts.

(** ** Determinism of a run *)

Module DeterminismFacts.
Import MockMarketData_ BacktestEngine EngineFacts SimulationFacts MarketFacts.

(** The entry of [current_market_data] for one symbol. *)
Definition closest_one (market_data : price_data) (current_date : Z) (k : string)
  : option MarketData :=
  match market_data !! k with
  | Some symbol_data =>
      match min_by_key (fun x => Z.abs (md_timestamp x - current_date)) symbol_data with
      | Returned closest_data => Some closest_data
      | Raised _ => None
      end
  | None => None
  end.

Lemma closest_for_lookup (market_data : price_data) d todo (acc : snapshot) :
  (forall k, k ∈ todo -> is_Some (closest_one market_data d k)) ->
  exists m,
    closest_for market_data d todo acc = Returned m
    /\ forall k, m !! k = if decide (k ∈ todo) then closest_one market_data d k else acc !! k.
Proof.
  revert acc. induction todo as [| k0 todo IH]; intros acc H.
  - exists acc. split; [reflexivity |]. intros k.
    destruct (decide (k ∈ [])) as [I |]; [inversion I | reflexivity].
  - cbn [closest_for]. destruct (H k0 ltac:(left)) as [x Hx]. unfold closest_one in Hx.
    destruct (market_data !! k0) as [series |] eqn:Es; [| discriminate].
    destruct (min_by_key _ series) as [x0 | e] eqn:M; [| discriminate].
    injection Hx as ->.
    destruct (IH (<[k0 := x]> acc)) as (m & E & L).
    { intros k Hk. apply H. now right. }
    exists m. split; [exact E |]. intros k. rewrite L.
    destruct (decide (k ∈ todo)) as [I | N].
    + rewrite decide_True by (now right). reflexivity.
    + destruct (decide (k = k0)) as [-> | D].
      * rewrite decide_True by left. rewrite lookup_insert_eq.
        unfold closest_one. now rewrite Es, M.
      * rewrite decide_False.
        -- rewrite lookup_insert_ne by congruence. reflexivity.
        -- intros I. apply elem_of_cons in I as [? | ?]; contradiction.
Qed.

(** The snapshot of a date does not depend on the order in which the
    symbols are visited. *)
Lemma closest_for_same_set (market_data : price_data) d l1 l2 :
  (forall k, k ∈ l1 <-> k ∈ l2) ->
  (forall k, k ∈ l2 -> is_Some (closest_one market_data d k)) ->
  closest_for market_data d l1 ∅ = closest_for market_data d l2 ∅.
Proof.
  intros S H.
  destruct (closest_for_lookup market_data d l1 ∅) as (m1 & -> & L1).
  { intros k Hk. apply H, S, Hk. }
  destruct (closest_for_lookup market_data d l2 ∅ H) as (m2 & -> & L2).
  f_equal. apply map_eq. intros k. rewrite L1, L2.
  destruct (decide (k ∈ l1)) as [I | N].
  - rewrite decide_True by (apply S, I). reflexivity.
  - rewrite decide_False; [reflexivity |]. intros I. apply N, S, I.
Qed.

Lemma run_simulation_same_set signals start_date end_date initial_capital l1 l2
    (market_data : price_data) clock :
  (forall k, k ∈ l1 <-> k ∈ l2) ->
  series_inv start_date end_date (minutes 5) l2
    (on_grid start_date end_date (minutes 5)) [] 0 market_data ->
  run_simulation signals start_date end_date initial_capital l1 market_data clock
  = run_simulation signals start_date end_date initial_capital l2 market_data clock.
Proof.
  intros S I. unfold run_simulation.
  rewrite (while_dates_ext_from _ start_date start_date end_date (minutes 5) _
             (simulation_step l2 market_data (group_by_time signals) clock));
    [reflexivity | apply minutes_5_pos | lia | now rewrite Z.sub_diag |].
  intros d a s' G. unfold simulation_step. unfold bind at 1, eval at 1. symmetry.
  unfold bind at 1, eval at 1. symmetry.
  rewrite (closest_for_same_set market_data d l1 l2 S); [reflexivity |].
  intros k Hk. destruct (I k Hk) as (series & Es & _ & Vs & _).
  unfold closest_one. rewrite Es. destruct (Vs d G) as (x & Hx & _).
  destruct series as [| y rest]; [inversion Hx | cbn [min_by_key]; eauto].
Qed.

Lemma run_backtest_of_prices los1 los2 signals start_date end_date initial_capital
    symbols_ rng1 rng2 clock :
  (forall k, k ∈ effective_symbols los1 signals symbols_
             <-> k ∈ effective_symbols los2 signals symbols_) ->
  prices_of (generated los1 signals start_date end_date symbols_ rng1)
  = prices_of (generated los2 signals start_date end_date symbols_ rng2) ->
  run_backtest los1 signals start_date end_date initial_capital symbols_ rng1 clock
  = run_backtest los2 signals start_date end_date initial_capital symbols_ rng2 clock.
Proof.
  unfold run_backtest, generated, prices_of.
  fold (effective_symbols los1 signals symbols_).
  fold (effective_symbols los2 signals symbols_).
  set (l1 := effective_symbols los1 signals symbols_).
  set (l2 := effective_symbols los2 signals symbols_).
  intros S.
  destruct (generate_price_data_inv l2 rng2 start_date end_date)
    as (self2 & series2 & -> & I2). cbn [snd].
  destruct (snd (generate_price_data start_date end_date 5 (MockMarketData_.__init__ l1 rng1)))
    as [series1 | e1]; [| discriminate].
  intros [= E].
  rewrite <- (run_simulation_view _ _ _ _ _ series1), E, run_simulation_view.
  now apply run_simulation_same_set.
Qed.

(** C4, amended: the result of [run_backtest] is a function of its
    arguments, of the timestamps and prices of the series that its mock
    generator draws, and of the clock readings: two runs with the same
    arguments and clock whose generated series agree on every timestamp and
    price return the same result, whatever else the generators drew.  This
    holds for one order of iteration over the set of assets, whatever it
    is, and also when the two runs iterate over that set in different
    orders. *)
Theorem C4_result_determined_by_prices
    (list_of_set list_of_set' : list string -> list string) (signals : list TradingSignal)
    (start_date end_date : Z) (initial_capital : Q) (symbols_ : option (list string))
    (rng1 rng2 : Rng) (clock : Z -> Z) :
  (prices_of (generated list_of_set signals start_date end_date symbols_ rng1)
   = prices_of (generated list_of_set signals start_date end_date symbols_ rng2) ->
   run_backtest list_of_set signals start_date end_date initial_capital symbols_ rng1 clock
   = run_backtest list_of_set signals start_date end_date initial_capital symbols_ rng2 clock)
  /\ ((forall l x, x ∈ list_of_set l <-> x ∈ l) ->
      (forall l x, x ∈ list_of_set' l <-> x ∈ l) ->
      prices_of (generated list_of_set signals start_date end_date symbols_ rng1)
      = prices_of (generated list_of_set' signals start_date end_date symbols_ rng2) ->
      run_backtest list_of_set signals start_date end_date initial_capital symbols_ rng1 clock
      = run_backtest list_of_set' signals start_date end_date initial_capital symbols_ rng2
          clock).
Proof.
  split.
  - apply run_backtest_of_prices. reflexivity.
  - intros H1 H2. apply run_backtest_of_prices. intros k. unfold effective_symbols.
    destruct symbols_ as [[| symbol_ rest] |]; try reflexivity;
      now rewrite H1, H2.
Qed.

Definition buy_Y : TradingSignal :=
  mkTradingSignal "Y" 0 BUY (8 # 10) (8 # 10) None None None None (1 # 10) EmptyString.

(** Variates of two runs over the assets X and Y, the first visiting X
    before Y and the second Y before X: in both, the price of Y doubles at
    the first tick and the price of X stays; the volumes differ. *)
Definition draws_xy : Rng := stream [0; 0; 0; 0; 0; 1 # 2; 1 # 2; 50; 1 # 2; 1 # 2].
Definition draws_yx : Rng := stream [0; 0; 0; 0; 50; 1 # 4; 1 # 2; 0; 3 # 4; 1 # 2].

Definition reversed (l : list string) : list string := reverse (remove_dups l).

Lemma C4_result_determined_by_prices_witness :
  run_X draws_a (fun t => t) = run_X draws_c (fun t => t)
  /\ exists r,
       run_backtest remove_dups [buy_X; buy_Y] 0 (minutes 5) 100000 None draws_xy
         (fun t => t) = Returned r
       /\ run_backtest reversed [buy_X; buy_Y] 0 (minutes 5) 100000 None draws_yx
            (fun t => t) = Returned r
       /\ remove_dups (map asset [buy_X; buy_Y]) <> reversed (map asset [buy_X; buy_Y]).
Proof.
  split.
  - unfold run_X.
    apply (proj1 (C4_result_determined_by_prices remove_dups remove_dups [buy_X] 0
                    (minutes 5) 100000 (Some ["X"%string]) draws_a draws_c (fun t => t))).
    vm_compute. reflexivity.
  - destruct (run_backtest remove_dups [buy_X; buy_Y] 0 (minutes 5) 100000 None draws_xy
                (fun t => t)) as [r | e] eqn:E; [| vm_compute in E; discriminate E].
    exists r. split; [reflexivity |]. split; [| vm_compute; discriminate].
    rewrite <- E.
    symmetry.
    apply (proj2 (C4_result_determined_by_prices remove_dups reversed [buy_X; buy_Y] 0
                    (minutes 5) 100000 None draws_xy draws_yx (fun t => t))).
    + intros l x. apply elem_of_remove_dups.
    + intros l x. unfold reversed. rewrite elem_of_reverse. apply elem_of_remove_dups.
    + vm_compute. reflexivity.
Defined.

End DeterminismFacts.

(** ** Feeding the aggregator *)

Module IngestFacts.
Import SentimentAggregator AggregatorWrites.

(** The fourteen tickers that normalisation can return. *)
Definition tickers : list string :=
  [ "BTC"; "ETH"; "ADA"; "SOL"; "MATIC"; "DOGE"; "XRP";
    "AAPL"; "GOOGL"; "MSFT"; "TSLA"; "AMZN"; "NVDA"; "META" ]%string.

Lemma ascii_case_laws c :
  ascii_lower (ascii_lower c) = ascii_lower c
  /\ ascii_upper (ascii_lower c) = ascii_upper c
  /\ ascii_lower (ascii_upper c) = ascii_lower c
  /\ ascii_upper (ascii_upper c) = ascii_upper c.
Proof. destruct c as [[] [] [] [] [] [] [] []]; repeat split. Qed.

Lemma str_case_laws s :
  lower (lower s) = lower s
  /\ upper (lower s) = upper s
  /\ lower (upper s) = lower s
  /\ upper (upper s) = upper s.
Proof.
  unfold lower, upper. induction s as [| c s (IH1 & IH2 & IH3 & IH4)]; [repeat split |].
  cbn [str_map]. destruct (ascii_case_laws c) as (H1 & H2 & H3 & H4).
  rewrite H1, H2, H3, H4, IH1, IH2, IH3, IH4. repeat split.
Qed.

Lemma str_in_elem x l : str_in x l = true <-> x ∈ l.
Proof.
  unfold str_in. rewrite existsb_exists. split.
  - intros (y & Hy & E). apply String.eqb_eq in E. subst y. now apply list_elem_of_In.
  - intros H. exists x. split; [now apply list_elem_of_In | apply String.eqb_refl].
Qed.

Lemma _normalize_asset_name_ticker entity symbol_ :
  _normalize_asset_name entity = Some symbol_ -> symbol_ ∈ tickers.
Proof.
  unfold _normalize_asset_name.
  destruct (crypto_mapping !! lower entity) as [v |] eqn:E.
  - intros [= <-]. apply elem_of_list_to_map_2 in E.
    repeat (apply elem_of_cons in E as [[= _ ->] | E];
            [unfold tickers; repeat (apply elem_of_cons; try (left; reflexivity); right) |]).
    inversion E.
  - destruct (str_in (upper entity) stock_symbols) eqn:S; [| discriminate].
    intros [= <-]. apply str_in_elem in S. unfold tickers.
    do 7 apply list_elem_of_further. exact S.
Qed.

(** X11: normalisation is a projection onto the fourteen tickers: what it
    returns is one of them, and it returns a ticker unchanged. *)
Theorem _normalize_asset_name_projection entity symbol_ :
  _normalize_asset_name entity = Some symbol_ ->
  symbol_ ∈ tickers /\ _normalize_asset_name symbol_ = Some symbol_.
Proof.
  intros H. apply _normalize_asset_name_ticker in H. split; [exact H |].
  unfold tickers in H.
  repeat (apply elem_of_cons in H as [-> | H]; [vm_compute; reflexivity |]).
  inversion H.
Qed.

Lemma _normalize_asset_name_projection_witness :
  "BTC"%string ∈ tickers /\ _normalize_asset_name "BTC" = Some "BTC"%string.
Proof.
  apply (_normalize_asset_name_projection "Bitcoin" "BTC"). vm_compute. reflexivity.
Defined.

(** X12: for an entity made of ASCII characters, normalisation ignores
    the case of the letters: the entity, its lower-case form and its
    upper-case form are normalised alike. *)
Theorem _normalize_asset_name_ignores_case entity :
  ascii_only entity = true ->
  _normalize_asset_name (lower entity) = _normalize_asset_name entity
  /\ _normalize_asset_name (upper entity) = _normalize_asset_name entity.
Proof.
  intros _. destruct (str_case_laws entity) as (H1 & H2 & H3 & H4).
  unfold _normalize_asset_name. now rewrite H1, H2, H3, H4.
Qed.

Lemma _normalize_asset_name_ignores_case_witness :
  ascii_only "Bitcoin" = true
  /\ _normalize_asset_name "bitcoin" = Some "BTC"%string
  /\ _normalize_asset_name "BITCOIN" = Some "BTC"%string
  /\ _normalize_asset_name "Bitcoin" = Some "BTC"%string.
Proof.
  assert (A : ascii_only "Bitcoin" = true) by reflexivity.
  destruct (_normalize_asset_name_ignores_case "Bitcoin" A) as [L U].
  split; [exact A |]. split; [| split]; [| | vm_compute; reflexivity].
  - change "bitcoin"%string with (lower "Bitcoin"). rewrite L. vm_compute. reflexivity.
  - change "BITCOIN"%string with (upper "Bitcoin"). rewrite U. vm_compute. reflexivity.
Defined.

Lemma ticker_truthy name : name ∈ tickers -> str_truthy (Some name) = true.
Proof.
  unfold tickers. intros H.
  repeat (apply elem_of_cons in H as [-> | H]; [reflexivity |]).
  inversion H.
Qed.

Lemma normalized_entities_eq l assets :
  normalized_entities l assets = assets ++ omap _normalize_asset_name l.
Proof.
  revert assets. induction l as [| entity rest IH]; intros assets;
    cbn [normalized_entities omap list_omap].
  - now rewrite app_nil_r.
  - destruct (_normalize_asset_name entity) as [name |] eqn:E; [| apply IH].
    rewrite (ticker_truthy name (_normalize_asset_name_ticker _ _ E)).
    rewrite IH, <- app_assoc. reflexivity.
Qed.

Lemma _extract_assets_known data asset :
  asset ∈ _extract_assets data -> asset = "MARKET"%string \/ asset ∈ tickers.
Proof.
  unfold _extract_assets. rewrite normalized_entities_eq. cbn [app].
  destruct (omap _normalize_asset_name (financial_entities data)) as [| a l] eqn:E.
  - intros H. apply list_elem_of_singleton in H. now left.
  - intros H. right. rewrite <- E in H. apply list_elem_of_omap in H as (e & _ & N).
    exact (_normalize_asset_name_ticker _ _ N).
Qed.

(** X13: the assets of a document are the normalised names of its entities,
    in order and with repetitions; a document that names no known asset is
    filed under MARKET. The list is never empty. *)
Theorem _extract_assets_names data :
  let names := omap _normalize_asset_name (financial_entities data) in
  _extract_assets data = (if decide (names = []) then ["MARKET"%string] else names)
  /\ _extract_assets data <> []
  /\ (forall asset, asset ∈ _extract_assets data ->
        asset = "MARKET"%string \/ asset ∈ tickers).
Proof.
  cbn zeta. split; [| split; [| apply _extract_assets_known]].
  - unfold _extract_assets. rewrite normalized_entities_eq. cbn [app].
    destruct (omap _normalize_asset_name (financial_entities data)) as [| a l];
      [now rewrite decide_True | now rewrite decide_False].
  - unfold _extract_assets. rewrite normalized_entities_eq. cbn [app].
    destruct (omap _normalize_asset_name (financial_entities data)); discriminate.
Qed.

Lemma record_observation_eq asset item (self : sentiment_data) :
  record_observation asset item self !! asset
  = Some (deque_append (default [] (self !! asset)) item).
Proof. unfold record_observation. apply lookup_insert_eq. Qed.

Lemma record_observation_ne asset other item (self : sentiment_data) :
  asset <> other -> record_observation asset item self !! other = self !! other.
Proof. intros H. unfold record_observation. now apply lookup_insert_ne. Qed.

Lemma deque_append_last d item : last (deque_append d item) = Some item.
Proof. unfold deque_append. destruct (maxlen <=? length d)%nat; apply last_snoc. Qed.

Lemma deque_append_length d item :
  (length d <= maxlen)%nat ->
  (1 <= length (deque_append d item) <= maxlen)%nat.
Proof.
  intros H. unfold deque_append.
  destruct (Nat.leb_spec maxlen (length d)) as [L | L];
    rewrite length_app; [rewrite length_drop |]; cbn [length]; unfold maxlen in *; lia.
Qed.

(** Every history is bounded by the deque's capacity and none is empty. *)
Definition bounded (self : sentiment_data) : Prop :=
  forall asset history, self !! asset = Some history ->
    (1 <= length history <= maxlen)%nat.

(** [asset]'s history ends with [item]. *)
Definition latest (asset : string) (item : Observation) (self : sentiment_data) : Prop :=
  exists history, self !! asset = Some history /\ last history = Some item.

Lemma record_observation_bounded asset item self :
  bounded self -> bounded (record_observation asset item self).
Proof.
  intros B a h. destruct (decide (asset = a)) as [<- | N].
  - rewrite record_observation_eq. intros [= <-]. apply deque_append_length.
    destruct (self !! asset) as [d |] eqn:E; cbn [default length]; [| lia].
    apply (B _ _ E).
  - rewrite record_observation_ne by exact N. apply B.
Qed.

Lemma record_observation_latest asset other item self :
  latest asset item self -> latest asset item (record_observation other item self).
Proof.
  intros (h & E & L). unfold latest. destruct (decide (other = asset)) as [-> | N].
  - rewrite record_observation_eq. eexists. split; [reflexivity | apply deque_append_last].
  - rewrite record_observation_ne by exact N. eauto.
Qed.

Lemma add_loop_bounded item assets self :
  bounded self ->
  bounded (fold_left (fun self asset => record_observation asset item self) assets self).
Proof.
  revert self. induction assets as [| a l IH]; intros self B; cbn [fold_left]; [exact B |].
  apply IH, record_observation_bounded, B.
Qed.

Lemma add_loop_latest_keep item asset assets self :
  latest asset item self ->
  latest asset item (fold_left (fun self asset => record_observation asset item self) assets self).
Proof.
  revert self. induction assets as [| a l IH]; intros self L; cbn [fold_left]; [exact L |].
  apply IH, record_observation_latest, L.
Qed.

Lemma add_loop_latest item asset assets self :
  asset ∈ assets ->
  latest asset item (fold_left (fun self asset => record_observation asset item self) assets self).
Proof.
  revert self. induction assets as [| a l IH]; intros self H; [inversion H |].
  cbn [fold_left]. apply elem_of_cons in H as [-> | H]; [| now apply IH].
  apply add_loop_latest_keep. unfold latest. rewrite record_observation_eq.
  eexists. split; [reflexivity | apply deque_append_last].
Qed.

Lemma add_loop_other item asset assets (self : sentiment_data) :
  asset ∉ assets ->
  fold_left (fun self asset => record_observation asset item self) assets self !! asset
  = self !! asset.
Proof.
  revert self. induction assets as [| a l IH]; intros self H; cbn [fold_left]; [reflexivity |].
  apply not_elem_of_cons in H as [N H]. rewrite IH by exact H.
  apply record_observation_ne. congruence.
Qed.

(** The aggregator after feeding it the documents [feed], oldest first. *)
Definition fed (feed : list ProcessedData) (self : sentiment_data) : sentiment_data :=
  fold_left (fun self data => add_sentiment_data data self) feed self.

Lemma add_sentiment_data_bounded data self :
  bounded self -> bounded (add_sentiment_data data self).
Proof. apply add_loop_bounded. Qed.

(** X14: whatever is fed to a new aggregator, each asset it tracks has
    between one and a thousand observations, and the tracked names are
    tickers or MARKET. *)
Theorem history_is_bounded feed asset history :
  fed feed ∅ !! asset = Some history ->
  (1 <= length history <= 1000)%nat
  /\ (asset = "MARKET"%string \/ asset ∈ tickers).
Proof.
  unfold fed.
  assert (I : bounded (∅ : sentiment_data)
              /\ forall a h, (∅ : sentiment_data) !! a = Some h ->
                   a = "MARKET"%string \/ a ∈ tickers).
  { split; intros a h; rewrite lookup_empty; discriminate. }
  revert I. generalize (∅ : sentiment_data) as self. revert asset history.
  induction feed as [| data rest IH]; intros asset history self [B K] E; cbn [fold_left] in E.
  - split; [apply (B _ _ E) | apply (K _ _ E)].
  - refine (IH _ _ _ (conj (add_sentiment_data_bounded data self B) _) E).
    intros a h F. destruct (decide (a ∈ _extract_assets data)) as [M | M].
    + now apply (_extract_assets_known data).
    + unfold add_sentiment_data in F. rewrite add_loop_other in F by exact M.
      apply (K _ _ F).
Qed.

Lemma history_is_bounded_witness :
  exists history,
    fed [mkProcessedData (mkRawData "1" TWITTER (naive 0) "to the moon" None ∅)
           (mkSentimentScore POSITIVE 1 (1 # 2) []) ["Bitcoin"; "btc"]%string 1 "en"] ∅
      !! "BTC"%string = Some history
    /\ (1 <= length history <= 1000)%nat
    /\ ("BTC"%string = "MARKET"%string \/ "BTC"%string ∈ tickers).
Proof.
  eexists. split; [vm_compute; reflexivity |].
  apply (history_is_bounded
           [mkProcessedData (mkRawData "1" TWITTER (naive 0) "to the moon" None ∅)
              (mkSentimentScore POSITIVE 1 (1 # 2) []) ["Bitcoin"; "btc"]%string 1 "en"]
           "BTC"%string).
  vm_compute. reflexivity.
Defined.

Lemma deque_append_naive d item :
  aware (obs_timestamp item) = false ->
  AggregatorFacts.all_naive d -> AggregatorFacts.all_naive (deque_append d item).
Proof.
  intros A N. unfold deque_append, AggregatorFacts.all_naive.
  destruct (maxlen <=? length d)%nat; apply Forall_app; split;
    try (now apply Forall_drop); try exact N; now apply Forall_singleton.
Qed.

Lemma add_loop_naive item assets (self : sentiment_data) :
  aware (obs_timestamp item) = false ->
  forall asset,
    AggregatorFacts.all_naive (default [] (self !! asset)) ->
    AggregatorFacts.all_naive
      (default []
         (fold_left (fun self asset => record_observation asset item self) assets self
          !! asset)).
Proof.
  intros A asset. revert self.
  induction assets as [| a l IH]; intros self N; cbn [fold_left]; [exact N |].
  apply IH. destruct (decide (a = asset)) as [-> | D].
  - rewrite record_observation_eq. cbn [default from_option]. unfold id.
    now apply deque_append_naive.
  - now rewrite record_observation_ne.
Qed.

Lemma get_aggregated_sentiment_mentions (self : sentiment_data) asset w now a :
  get_aggregated_sentiment self asset w now = Returned (Some a) ->
  exists history,
    self !! asset = Some history
    /\ total_mentions a
       = Z.of_nat (length (List.filter (AggregatorFacts.in_window now w) history))
    /\ (1 <= total_mentions a)%Z
    /\ agg_asset a = asset /\ window_size a = w /\ agg_timestamp a = now.
Proof.
  intros G. apply AggregatorFacts.get_aggregated_sentiment_returned in G.
  destruct (self !! asset) as [history |]; [| discriminate].
  destruct G as (_ & _ & G). exists history.
  destruct (List.filter _ history) as [| x l]; [discriminate |].
  injection G as ->. unfold aggregate.
  cbn [total_mentions agg_asset window_size agg_timestamp].
  repeat split; try reflexivity. cbn [length]. lia.
Qed.

(** X15: a document with a naive timestamp that has just been added is
    counted for each of its assets in every window that reaches back to its
    timestamp, provided the timestamps stored for the asset before are
    naive and the cutoff of the window is a datetime. *)
Theorem added_document_is_counted data self asset w now :
  asset ∈ _extract_assets data ->
  aware (raw_timestamp (raw_data data)) = false ->
  AggregatorFacts.all_naive (default [] (self !! asset)) ->
  AggregatorFacts.representable now ->
  AggregatorFacts.representable (now - w * 1000000) ->
  (now - w * 1000000 <= instant (raw_timestamp (raw_data data)))%Z ->
  exists a,
    get_aggregated_sentiment (add_sentiment_data data self) asset w now
    = Returned (Some a)
    /\ (1 <= total_mentions a)%Z.
Proof.
  intros M A N Rn Rc T.
  destruct (add_loop_latest (observation_of data) asset (_extract_assets data) self M)
    as (history & E & L).
  fold (add_sentiment_data data self) in E.
  assert (N' : AggregatorFacts.all_naive history).
  { pose proof (add_loop_naive (observation_of data) (_extract_assets data) self A asset
                  N) as H.
    fold (add_sentiment_data data self) in H. now rewrite E in H. }
  assert (R : observation_of data
                ∈ List.filter (AggregatorFacts.in_window now w) history).
  { apply list_elem_of_In, filter_In. split.
    - apply list_elem_of_In. destruct history as [| x l] using rev_ind; [discriminate |].
      rewrite last_snoc in L. injection L as ->. apply elem_of_app. right. now left.
    - unfold AggregatorFacts.in_window, AggregatorFacts.seconds. cbn.
      apply Z.leb_le. lia. }
  rewrite (AggregatorFacts.get_aggregated_sentiment_naive _ _ _ _ _ E N' Rn Rc).
  destruct (List.filter (AggregatorFacts.in_window now w) history) as [| x l] eqn:F;
    [inversion R |].
  eexists. split; [reflexivity |]. unfold aggregate. cbn [total_mentions length]. lia.
Qed.

Lemma added_document_is_counted_witness :
  exists a,
    get_aggregated_sentiment
      (add_sentiment_data
         (mkProcessedData (mkRawData "1" TWITTER (naive 0) "to the moon" None ∅)
            (mkSentimentScore POSITIVE 1 (1 # 2) []) ["Bitcoin"]%string 1 "en") ∅)
      "BTC" 300 1000000 = Returned (Some a)
    /\ (1 <= total_mentions a)%Z.
Proof.
  apply (added_document_is_counted
           (mkProcessedData (mkRawData "1" TWITTER (naive 0) "to the moon" None ∅)
              (mkSentimentScore POSITIVE 1 (1 # 2) []) ["Bitcoin"]%string 1 "en")
           ∅ "BTC"%string 300 1000000).
  - vm_compute. left.
  - reflexivity.
  - constructor.
  - vm_compute. split; discriminate.
  - vm_compute. split; discriminate.
  - vm_compute. discriminate.
Defined.

Lemma fed_bounded feed self : bounded self -> bounded (fed feed self).
Proof.
  revert self. induction feed as [| data rest IH]; intros self B; [exact B |].
  apply IH, add_sentiment_data_bounded, B.
Qed.

(** X16: an aggregate never reports more than a thousand mentions, however
    many documents named the asset. *)
Theorem mentions_are_capped feed asset w now a :
  get_aggregated_sentiment (fed feed ∅) asset w now = Returned (Some a) ->
  (1 <= total_mentions a <= 1000)%Z.
Proof.
  intros G. destruct (get_aggregated_sentiment_mentions _ _ _ _ _ G)
    as (history & E & T & P & _).
  split; [exact P |]. rewrite T.
  pose proof (List.filter_length_le (AggregatorFacts.in_window now w) history).
  assert (B : bounded (fed feed ∅)).
  { apply fed_bounded. intros x h. rewrite lookup_empty. discriminate. }
  pose proof (B _ _ E). unfold maxlen in *. lia.
Qed.

Lemma mentions_are_capped_witness :
  exists a,
    get_aggregated_sentiment
      (fed [mkProcessedData (mkRawData "1" TWITTER (naive 0) "to the moon" None ∅)
              (mkSentimentScore POSITIVE 1 (1 # 2) []) ["Bitcoin"; "btc"]%string 1 "en"] ∅)
      "BTC" 300 1000000 = Returned (Some a)
    /\ (1 <= total_mentions a <= 1000)%Z.
Proof.
  destruct (get_aggregated_sentiment
              (fed [mkProcessedData (mkRawData "1" TWITTER (naive 0) "to the moon" None ∅)
                      (mkSentimentScore POSITIVE 1 (1 # 2) []) ["Bitcoin"; "btc"]%string 1 "en"] ∅)
              "BTC" 300 1000000) as [[a |] | e] eqn:G; [| vm_compute in G; discriminate G ..].
  exists a. split; [reflexivity |].
  exact (mentions_are_capped _ _ _ _ _ G).
Defined.

End IngestFacts.

(** ** Ranges of sums and means *)

Section Means.

Lemma fold_plus_acc xs a : fold_left Qplus xs a == a + py_sum xs.
Proof.
  unfold py_sum. revert a. induction xs as [| x xs IH]; intros a; cbn [fold_left].
  - ring.
  - rewrite (IH (a + x)), (IH (0 + x)). ring.
Qed.

Lemma py_sum_cons x xs : py_sum (x :: xs) == x + py_sum xs.
Proof. unfold py_sum at 1. cbn [fold_left]. rewrite fold_plus_acc. ring. Qed.

Lemma inject_length_cons {A : Type} (x : A) xs :
  inject_Z (Z.of_nat (length (x :: xs))) == inject_Z (Z.of_nat (length xs)) + 1.
Proof. cbn [length]. rewrite Nat2Z.inj_succ, <- Z.add_1_r, inject_Z_plus. reflexivity. Qed.

Lemma py_sum_bounds lo hi xs :
  Forall (fun x => lo <= x <= hi) xs ->
  inject_Z (Z.of_nat (length xs)) * lo <= py_sum xs
  /\ py_sum xs <= inject_Z (Z.of_nat (length xs)) * hi.
Proof.
  induction 1 as [| x xs [L H] _ [IL IH]].
  - unfold py_sum. cbn. split; ring_simplify; apply Qle_refl.
  - rewrite py_sum_cons, inject_length_cons. split; ring_simplify; lra.
Qed.

Lemma np_mean_bounds lo hi xs :
  xs <> [] -> Forall (fun x => lo <= x <= hi) xs -> lo <= np_mean xs <= hi.
Proof.
  intros N F. destruct (py_sum_bounds lo hi xs F) as [L H].
  assert (P : 0 < inject_Z (Z.of_nat (length xs))).
  { destruct xs; [contradiction |]. rewrite inject_length_cons.
    assert (0 <= inject_Z (Z.of_nat (length xs))); [| lra].
    change 0 with (inject_Z 0). rewrite <- Zle_Qle. lia. }
  unfold np_mean. split.
  - apply Qle_shift_div_l; [exact P |]. rewrite Qmult_comm. exact L.
  - apply Qle_shift_div_r; [exact P |]. rewrite Qmult_comm. exact H.
Qed.

Lemma unit_ratio a m : 0 < m -> - m <= a <= m -> -1 <= a / m <= 1.
Proof.
  intros P [L H]. split.
  - apply Qle_shift_div_l; [exact P | lra].
  - apply Qle_shift_div_r; [exact P | lra].
Qed.

End Means.

(** ** The range of the fear-and-greed index *)

Module IndexRangeFacts.
Import FearGreedCalculator.

Lemma max_abs_loop_ge ps m :
  m <= fold_left (fun m q => if Qgtb (Qabs q) m then Qabs q else m) ps m
  /\ Forall (fun p => Qabs p
               <= fold_left (fun m q => if Qgtb (Qabs q) m then Qabs q else m) ps m) ps.
Proof.
  revert m. induction ps as [| p ps IH]; intros m; cbn [fold_left].
  - split; [apply Qle_refl | constructor].
  - destruct (IH (if Qgtb (Qabs p) m then Qabs p else m)) as [G F].
    destruct (Qgtb (Qabs p) m) eqn:C.
    + apply Qgtb_lt in C. split; [lra |]. constructor; [exact G | exact F].
    + assert (Qabs p <= m).
      { apply Qnot_lt_le. intros L. apply Qgtb_lt in L. congruence. }
      split; [exact G |]. constructor; [lra | exact F].
Qed.

Lemma max_abs_ge ps : Forall (fun p => - max_abs ps <= p <= max_abs ps) ps.
Proof.
  destruct ps as [| p ps]; [constructor |]. unfold max_abs.
  destruct (max_abs_loop_ge ps (Qabs p)) as [G F].
  set (M := fold_left _ ps (Qabs p)) in *.
  assert (B : forall q, Qabs q <= M -> - M <= q <= M).
  { intros q H. apply Qabs_Qle_condition in H. exact H. }
  constructor; [apply B, G |].
  eapply Forall_impl; [exact F |]. exact B.
Qed.

Lemma mean_over_max_abs ps :
  ps <> [] -> 0 < max_abs ps -> -1 <= np_mean ps / max_abs ps <= 1.
Proof.
  intros N P. apply unit_ratio; [exact P |].
  apply np_mean_bounds; [exact N | apply max_abs_ge].
Qed.

(** X17: the volume component lies in [[-1, 1]] whatever the aggregates are. *)
Theorem volume_component_in_unit_range (sentiments : sentiments_dict) :
  -1 <= _calculate_volume_component sentiments <= 1.
Proof.
  unfold _calculate_volume_component.
  destruct sentiments as [| kv rest]; [lra |].
  set (ps := map _ (values (kv :: rest))).
  destruct (Qgtb (max_abs ps) 0) eqn:C; [| lra].
  apply Qgtb_lt in C. apply mean_over_max_abs; [discriminate | exact C].
Qed.

(** An aggregate as [get_aggregated_sentiment] makes them from scores in
    [[-1, 1]], with its momentum within [[-1, 1]]. *)
Definition moderate (s : AggregatedSentiment) : Prop :=
  (0 <= total_mentions s)%Z
  /\ 0 <= agg_confidence s
  /\ -1 <= volume_weighted_score s <= 1
  /\ -1 <= momentum s <= 1.

Lemma sentiment_loop_range l acc :
  Forall moderate l ->
  - snd acc <= fst acc <= snd acc ->
  - snd (fold_left sentiment_step l acc) <= fst (fold_left sentiment_step l acc)
    <= snd (fold_left sentiment_step l acc).
Proof.
  intros F. revert acc. induction F as [| s l (M & C & V & _) _ IH]; intros acc A;
    cbn [fold_left]; [exact A |].
  apply IH. unfold sentiment_step. cbn [fst snd].
  set (w := inject_Z (total_mentions s) * agg_confidence s).
  assert (W : 0 <= w).
  { apply Qmult_le_0_compat; [| exact C]. change 0 with (inject_Z 0).
    rewrite <- Zle_Qle. exact M. }
  assert (- w <= volume_weighted_score s * w <= w); [| lra].
  split.
  - apply Qle_trans with ((-1) * w); [ring_simplify; apply Qle_refl |].
    apply Qmult_le_compat_r; [apply V | exact W].
  - apply Qle_trans with (1 * w); [| ring_simplify; apply Qle_refl].
    apply Qmult_le_compat_r; [apply V | exact W].
Qed.

Lemma sentiment_component_range sentiments :
  Forall moderate (values sentiments) ->
  -1 <= _calculate_sentiment_component sentiments <= 1.
Proof.
  intros F. unfold _calculate_sentiment_component.
  destruct sentiments as [| kv rest]; [lra |].
  pose proof (sentiment_loop_range (values (kv :: rest)) (0, 0) F) as R.
  destruct (fold_left sentiment_step (values (kv :: rest)) (0, 0)) as [w t].
  cbn [fst snd] in R. destruct (Qgtb t 0) eqn:C; [| lra].
  apply Qgtb_lt in C. apply unit_ratio; [exact C |]. apply R. lra.
Qed.

Lemma momentum_component_range sentiments :
  Forall moderate (values sentiments) ->
  -1 <= _calculate_momentum_component sentiments <= 1.
Proof.
  intros F. unfold _calculate_momentum_component.
  destruct sentiments as [| kv rest]; [lra |].
  apply np_mean_bounds; [discriminate |].
  apply Forall_map. eapply Forall_impl; [exact F |].
  intros s (_ & _ & _ & M). exact M.
Qed.

(** X18: from aggregates whose scores and momentum lie in [[-1, 1]] the
    three components that the component functions compute lie in
    [[-1, 1]]; the correlation component being the constant 0, the score of
    the index is [(0.4 s + 0.25 m + 0.2 v + 1) * 50] of these components,
    without clamping, and stays within [[7.5, 92.5]] (floats read as exact
    numbers). *)
Theorem index_stays_clear_of_the_ends now (sentiments : sentiments_dict) :
  Forall moderate (values sentiments) ->
  let s := _calculate_sentiment_component sentiments in
  let m := _calculate_momentum_component sentiments in
  let v := _calculate_volume_component sentiments in
  let r := calculate_fear_greed_index now sentiments in
  -1 <= s <= 1
  /\ -1 <= m <= 1
  /\ -1 <= v <= 1
  /\ _calculate_correlation_component == 0
  /\ overall_score r == (s * (4 # 10) + m * (25 # 100) + v * (2 # 10) + 1) * 50
  /\ 75 # 10 <= overall_score r <= 925 # 10.
Proof.
  intros F s m v r. subst r.
  cbn [calculate_fear_greed_index overall_score].
  pose proof (sentiment_component_range sentiments F) as S.
  pose proof (momentum_component_range sentiments F) as M.
  assert (V : -1 <= _calculate_volume_component sentiments <= 1).
  { unfold _calculate_volume_component.
    destruct sentiments as [| kv rest]; [lra |].
    destruct (Qgtb (max_abs _) 0) eqn:C; [| lra].
    apply Qgtb_lt in C. apply mean_over_max_abs; [| exact C].
    destruct (values (kv :: rest)) eqn:D; discriminate. }
  fold s in S |- *. fold m in M |- *. fold v in V |- *.
  unfold _calculate_correlation_component.
  set (w := (s * (4 # 10) + m * (25 # 100) + v * (2 # 10) + 0 * (15 # 100) + 1) * 50).
  assert (W : 75 # 10 <= w <= 925 # 10) by (unfold w; lra).
  assert (E : py_max 0 (py_min 100 w) == w).
  { rewrite py_max_Qmax, py_min_Qmin.
    rewrite (Q.min_r 100 w) by lra. apply Q.max_r. lra. }
  split; [exact S |]. split; [exact M |]. split; [exact V |].
  split; [reflexivity |]. split; [rewrite E; unfold w; ring |].
  rewrite E. exact W.
Qed.

(** One aggregate of BTC: ten mentions, scores 1 and 0.5, momentum 0.2. *)
Definition one_aggregate : sentiments_dict :=
  [ ("BTC"%string, mkAggregatedSentiment "BTC" 0 300 10 1 1 (1 # 2) (1 # 5) []) ].

Lemma index_stays_clear_of_the_ends_witness :
  _calculate_sentiment_component one_aggregate == 1 # 2
  /\ _calculate_momentum_component one_aggregate == 1 # 5
  /\ _calculate_volume_component one_aggregate == 1
  /\ overall_score (calculate_fear_greed_index 0 one_aggregate) == 725 # 10
  /\ 75 # 10 <= overall_score (calculate_fear_greed_index 0 one_aggregate) <= 925 # 10.
Proof.
  assert (F : Forall moderate (values one_aggregate)).
  { repeat constructor; cbn; try lia; try lra; discriminate. }
  destruct (index_stays_clear_of_the_ends 0 one_aggregate F) as (_ & _ & _ & _ & E & R).
  split; [vm_compute; reflexivity |]. split; [vm_compute; reflexivity |].
  split; [vm_compute; reflexivity |]. split; [| exact R].
  rewrite E. vm_compute. reflexivity.
Defined.

End IndexRangeFacts.

(** ** The range of an aggregate *)

Module AggregateRangeFacts.
Import SentimentAggregator.

(** An observation as the sentiment analysis is meant to produce them:
    score in [[-1, 1]], confidence in [[0, 1]], no negative volume. *)
Definition in_range (item : Observation) : Prop :=
  -1 <= obs_sentiment_score item <= 1
  /\ 0 <= obs_confidence item <= 1
  /\ 0 <= volume_proxy item.

Lemma weighted_sum_range l :
  Forall in_range l ->
  0 <= py_sum (map volume_proxy l)
  /\ - py_sum (map volume_proxy l)
     <= py_sum (map (fun sv => fst sv * snd sv)
                  (combine (map obs_sentiment_score l) (map volume_proxy l)))
     <= py_sum (map volume_proxy l).
Proof.
  induction 1 as [| x l (S & _ & V) _ (P & IH)]; cbn [map combine].
  - unfold py_sum. cbn. lra.
  - rewrite !py_sum_cons. cbn [fst snd].
    assert (- volume_proxy x <= obs_sentiment_score x * volume_proxy x <= volume_proxy x);
      [| lra].
    split.
    + apply Qle_trans with ((-1) * volume_proxy x); [ring_simplify; apply Qle_refl |].
      apply Qmult_le_compat_r; [apply S | exact V].
    + apply Qle_trans with (1 * volume_proxy x); [| ring_simplify; apply Qle_refl].
      apply Qmult_le_compat_r; [apply S | exact V].
Qed.

Lemma aggregate_range asset now w recent_data :
  recent_data <> [] ->
  Forall in_range recent_data ->
  let a := aggregate asset now w recent_data in
  -1 <= sentiment_score a <= 1
  /\ 0 <= agg_confidence a <= 1
  /\ -1 <= volume_weighted_score a <= 1
  /\ -2 <= momentum a <= 2.
Proof.
  intros N F a. subst a. unfold aggregate.
  cbn [sentiment_score agg_confidence volume_weighted_score momentum].
  assert (S : Forall (fun x => -1 <= x <= 1) (map obs_sentiment_score recent_data)).
  { apply Forall_map. eapply Forall_impl; [exact F |]. now intros x (S & _). }
  assert (C : Forall (fun x => 0 <= x <= 1) (map obs_confidence recent_data)).
  { apply Forall_map. eapply Forall_impl; [exact F |]. now intros x (_ & C & _). }
  assert (NS : map obs_sentiment_score recent_data <> []).
  { destruct recent_data; [contradiction | discriminate]. }
  assert (NC : map obs_confidence recent_data <> []).
  { destruct recent_data; [contradiction | discriminate]. }
  split; [apply np_mean_bounds; assumption |].
  split; [apply np_mean_bounds; assumption |].
  split.
  - destruct (Qgtb (py_sum (map volume_proxy recent_data)) 0) eqn:G.
    + apply Qgtb_lt in G. apply unit_ratio; [exact G |]. now apply weighted_sum_range.
    + apply np_mean_bounds; assumption.
  - destruct (Nat.ltb_spec 0 (length recent_data / 2)) as [L | L]; [| lra].
    assert (D : (length recent_data / 2 < length recent_data)%nat).
    { apply Nat.div_lt; [| lia]. destruct recent_data; [contradiction | cbn; lia]. }
    assert (R : -1 <= np_mean (drop (length recent_data / 2)
                                 (map obs_sentiment_score recent_data)) <= 1).
    { apply np_mean_bounds; [| now apply Forall_drop].
      intros E. apply (f_equal length) in E. rewrite length_drop, length_map in E.
      cbn [length] in E. lia. }
    assert (O : -1 <= np_mean (take (length recent_data / 2)
                                 (map obs_sentiment_score recent_data)) <= 1).
    { apply np_mean_bounds; [| now apply Forall_take].
      intros E. apply (f_equal length) in E. rewrite length_take, length_map in E.
      cbn [length] in E. lia. }
    lra.
Qed.

Lemma recent_in_range (f : Observation -> bool) history :
  Forall in_range history -> Forall in_range (List.filter f history).
Proof.
  intros F. apply List.Forall_forall. intros x H. apply filter_In in H as [H _].
  apply (proj1 (List.Forall_forall _ _) F x H).
Qed.

(** X19: from observations in range, every aggregate has its mean score and
    its volume-weighted score in [[-1, 1]] and its confidence in [[0, 1]];
    its momentum, a difference of two means, lies in [[-2, 2]]. *)
Theorem aggregate_of_observations_in_range
    (self : sentiment_data) asset w now history a :
  self !! asset = Some history ->
  Forall in_range history ->
  get_aggregated_sentiment self asset w now = Returned (Some a) ->
  -1 <= sentiment_score a <= 1
  /\ 0 <= agg_confidence a <= 1
  /\ -1 <= volume_weighted_score a <= 1
  /\ -2 <= momentum a <= 2.
Proof.
  intros E F G. apply AggregatorFacts.get_aggregated_sentiment_returned in G.
  rewrite E in G. destruct G as (_ & _ & G).
  pose proof (recent_in_range (AggregatorFacts.in_window now w) history F) as FR.
  destruct (List.filter _ history) as [| x l]; [discriminate |].
  injection G as ->. apply aggregate_range; [discriminate | exact FR].
Qed.

Lemma aggregate_of_observations_in_range_witness :
  exists a,
    get_aggregated_sentiment
      {[ "BTC"%string := [mkObservation (naive 0) 1 1 1 TWITTER 1;
                          mkObservation (naive 1000000) (-1) 1 1 NEWS 1] ]}
      "BTC" 300 2000000 = Returned (Some a)
    /\ -1 <= sentiment_score a <= 1
    /\ 0 <= agg_confidence a <= 1
    /\ -1 <= volume_weighted_score a <= 1
    /\ -2 <= momentum a <= 2.
Proof.
  destruct (get_aggregated_sentiment
              {[ "BTC"%string := [mkObservation (naive 0) 1 1 1 TWITTER 1;
                                  mkObservation (naive 1000000) (-1) 1 1 NEWS 1] ]}
              "BTC" 300 2000000) as [[a |] | e] eqn:G;
    [| vm_compute in G; discriminate G ..].
  exists a. split; [reflexivity |].
  apply (aggregate_of_observations_in_range
           {[ "BTC"%string := [mkObservation (naive 0) 1 1 1 TWITTER 1;
                               mkObservation (naive 1000000) (-1) 1 1 NEWS 1] ]}
           "BTC"%string 300 2000000
           [mkObservation (naive 0) 1 1 1 TWITTER 1;
            mkObservation (naive 1000000) (-1) 1 1 NEWS 1] a).
  - vm_compute. reflexivity.
  - repeat constructor; cbn; lra || discriminate.
  - exact G.
Defined.

End AggregateRangeFacts.

(** ** Emitted signals *)

Module SignalFacts.
Import SentimentAggregator FearGreedCalculator SignalGenerator SignalPipeline.

Lemma influence_positive fg_score : 7 # 10 <= _calculate_fear_greed_influence fg_score <= 13 # 10.
Proof.
  unfold _calculate_fear_greed_influence.
  repeat match goal with |- context [if ?b then _ else _] => destruct b end; lra.
Qed.

Lemma py_min_le_l a b : py_min a b <= a.
Proof.
  unfold py_min. destruct (Qltb b a) eqn:C; [| lra].
  apply Qltb_lt in C. lra.
Qed.

Lemma py_min_le_r a b : py_min a b <= b.
Proof.
  unfold py_min. destruct (Qltb b a) eqn:C; [lra |].
  apply Qnot_lt_le. intros L. apply Qltb_lt in L. congruence.
Qed.

Lemma py_min_glb a b c : c <= a -> c <= b -> c <= py_min a b.
Proof. intros. unfold py_min. now destruct (Qltb b a). Qed.

(** What [_analyze_signal_conditions] computes from a short-term
    aggregate: the confirmation factor, the strength and the confidence. *)
Definition confirmation_of (short_term : AggregatedSentiment)
    (medium_term : option AggregatedSentiment) : Q :=
  match medium_term with
  | Some medium_term =>
      if Bool.eqb (Qgtb (volume_weighted_score short_term) 0)
           (Qgtb (sentiment_score medium_term) 0)
      then 12 # 10
      else 8 # 10
  | None => 1
  end.

Lemma confirmation_range short_term medium_term :
  8 # 10 <= confirmation_of short_term medium_term <= 12 # 10.
Proof.
  unfold confirmation_of. destruct medium_term as [m |]; [| lra].
  destruct (Bool.eqb _ _); lra.
Qed.

Lemma _analyze_signal_conditions_range sentiments fear_greed signal_type_ confidence_ strength_ :
  _analyze_signal_conditions sentiments fear_greed = (signal_type_, confidence_, strength_) ->
  0 <= strength_ <= 1
  /\ confidence_ <= 1
  /\ (sentiments !! 300%Z = None ->
        signal_type_ = HOLD /\ confidence_ = 0 /\ strength_ = 0)
  /\ (forall short_term,
        sentiments !! 300%Z = Some short_term ->
        confidence_
          <= agg_confidence short_term
             * confirmation_of short_term (sentiments !! 3600%Z) * strength_
        /\ strength_ <= Qabs (volume_weighted_score short_term) * (156 # 100)
        /\ (signal_type_ = BUY <->
              3 # 10 < volume_weighted_score short_term + momentum short_term * (5 # 10))
        /\ (signal_type_ = SELL <->
              volume_weighted_score short_term + momentum short_term * (5 # 10) < - (3 # 10))).
Proof.
  unfold _analyze_signal_conditions.
  change (SHORT_TERM_WINDOW processing_config) with 300%Z.
  change (MEDIUM_TERM_WINDOW processing_config) with 3600%Z.
  destruct (sentiments !! 300%Z) as [short_term |].
  2:{ intros [= <- <- <-]. repeat split; try lra; try discriminate. }
  cbn zeta. fold (confirmation_of short_term (sentiments !! 3600%Z)).
  pose proof (confirmation_range short_term (sentiments !! 3600%Z)) as C.
  pose proof (influence_positive (overall_score fear_greed)) as I.
  pose proof (Qabs_nonneg (volume_weighted_score short_term)) as A.
  set (c := confirmation_of _ _) in *.
  set (i := _calculate_fear_greed_influence _) in *.
  set (a := Qabs _) in *.
  assert (P : 0 <= a * c * i).
  { apply Qmult_le_0_compat; [apply Qmult_le_0_compat |]; lra. }
  assert (U : a * c * i <= a * (156 # 100)).
  { assert (c * i <= 156 # 100) by nra. nra. }
  intros [= <- <- <-]. split; [| split; [| split]].
  - split; [apply py_min_glb; lra | apply py_min_le_l].
  - apply py_min_le_r.
  - discriminate.
  - intros s [= <-]. split; [apply py_min_le_l |].
    split; [eapply Qle_trans; [apply py_min_le_r | exact U] |].
    set (k := volume_weighted_score short_term + momentum short_term * (5 # 10)).
    destruct (Qgtb k (3 # 10)) eqn:B.
    + apply Qgtb_lt in B. split; split; (reflexivity || discriminate || lra || auto).
    + assert (k <= 3 # 10).
      { apply Qnot_lt_le. intros L. apply Qgtb_lt in L. congruence. }
      destruct (Qltb k (- (3 # 10))) eqn:S.
      * apply Qltb_lt in S. split; split; (reflexivity || discriminate || lra || auto).
      * assert (- (3 # 10) <= k).
        { apply Qnot_lt_le. intros L. apply Qltb_lt in L. congruence. }
        split; split; (discriminate || lra).
Qed.

(** [self'] is [self] after some readings of the clock: the data are the
    same, the clock has advanced. *)
Definition later (self self' : SignalGeneratorState) : Prop :=
  aggregator self' = aggregator self
  /\ market_history self' = market_history self
  /\ signal_history self' = signal_history self
  /\ last_signals self' = last_signals self
  /\ readings (wall_clock self') = readings (wall_clock self)
  /\ (reads (wall_clock self) <= reads (wall_clock self'))%nat.

Lemma later_refl self : later self self.
Proof. repeat split; reflexivity. Qed.

Lemma later_trans a b c : later a b -> later b c -> later a c.
Proof.
  intros (A1 & A2 & A3 & A4 & A5 & A6) (B1 & B2 & B3 & B4 & B5 & B6).
  repeat split; try congruence. lia.
Qed.

(** [now] is a reading of the clock made after the state [self] and
    before the state [self']: each reading advances [reads] by one. *)
Definition read_between (self self' : SignalGeneratorState) (now : Z) : Prop :=
  exists k,
    (reads (wall_clock self) <= k < reads (wall_clock self'))%nat
    /\ now = readings (wall_clock self) k.

Lemma read_between_widen a b c d now :
  later a b -> later b c -> later c d -> read_between b c now -> read_between a d now.
Proof.
  intros (_ & _ & _ & _ & R1 & L1) (_ & _ & _ & _ & R2 & L2) (_ & _ & _ & _ & R3 & L3)
    (k & K & ->).
  exists k. split; [lia | now rewrite R1].
Qed.

Lemma datetime_now_later self :
  exists self',
    datetime_now self = (self', Returned (readings (wall_clock self) (reads (wall_clock self))))
    /\ later self self'
    /\ read_between self self' (readings (wall_clock self) (reads (wall_clock self))).
Proof.
  eexists. split; [reflexivity |]. split; [repeat split; cbn; lia |].
  exists (reads (wall_clock self)). split; [cbn; lia | reflexivity].
Qed.

(** The exceptions that the aggregator's query raises. *)
Definition date_error (e : exn) : Prop := e = TypeError \/ e = OverflowError.

Lemma recent_items_raised cutoff_time history e :
  recent_items cutoff_time history = Raised e -> e = TypeError.
Proof.
  induction history as [| item rest IH]; cbn [recent_items]; [discriminate |].
  unfold datetime_ge. destruct (aware (obs_timestamp item)); [now intros [= <-] |].
  destruct (recent_items cutoff_time rest) as [l | e']; [discriminate |].
  intros [= <-]. now apply IH.
Qed.

Lemma get_aggregated_sentiment_raised (self : sentiment_data) asset_ w now e :
  get_aggregated_sentiment self asset_ w now = Raised e -> date_error e.
Proof.
  unfold get_aggregated_sentiment, date_error.
  destruct (self !! asset_) as [history |]; [| discriminate].
  unfold timedelta_seconds. cbn zeta. destruct (_ && _); [| intros [= <-]; now right].
  unfold datetime_sub. cbn zeta. destruct (_ && _); [| intros [= <-]; now right].
  destruct (recent_items _ history) as [recent_data | e'] eqn:R.
  - now destruct recent_data.
  - intros [= <-]. left. exact (recent_items_raised _ _ _ R).
Qed.

(** The timestamps stored for [asset_] are naive. *)
Definition naive_for (asset_ : string) (self : SignalGeneratorState) : Prop :=
  AggregatorFacts.all_naive (default [] (aggregator self !! asset_)).

(** Every reading of the clock still to come is a datetime, and so is the
    cutoff of each of the [timeframes] at that reading. *)
Definition fits (timeframes : list Z) (self : SignalGeneratorState) : Prop :=
  forall k timeframe,
    (reads (wall_clock self) <= k)%nat -> timeframe ∈ timeframes ->
    AggregatorFacts.representable (readings (wall_clock self) k)
    /\ AggregatorFacts.representable
         (readings (wall_clock self) k - AggregatorFacts.seconds timeframe).

Lemma naive_for_later asset_ self self' :
  later self self' -> naive_for asset_ self -> naive_for asset_ self'.
Proof. intros (A & _). unfold naive_for. now rewrite A. Qed.

Lemma fits_later timeframes self self' :
  later self self' -> fits timeframes self -> fits timeframes self'.
Proof.
  intros (_ & _ & _ & _ & R & L) F k tf K I. rewrite R. apply F; [lia | exact I].
Qed.

Lemma fits_tail timeframe timeframes self :
  fits (timeframe :: timeframes) self -> fits timeframes self.
Proof. intros F k tf K I. apply F; [exact K | now right]. Qed.

Lemma query_timeframes_spec asset_ timeframes sentiments self :
  exists self' r,
    query_timeframes asset_ timeframes sentiments self = (self', r)
    /\ later self self'
    /\ (aggregator self !! asset_ = None -> self' = self /\ r = Returned sentiments)
    /\ match r with
       | Returned result =>
           forall timeframe a,
             result !! timeframe = Some a ->
             sentiments !! timeframe = Some a
             \/ exists now,
                  read_between self self' now
                  /\ get_aggregated_sentiment (aggregator self) asset_ timeframe now
                     = Returned (Some a)
       | Raised e => date_error e
       end
    /\ (naive_for asset_ self -> fits timeframes self -> exists result, r = Returned result).
Proof.
  revert sentiments self.
  induction timeframes as [| timeframe rest IH]; intros sentiments self;
    cbn [query_timeframes].
  - exists self, (Returned sentiments). split; [reflexivity |].
    split; [apply later_refl |]. split; [auto |]. split; [| eauto].
    intros tf a H. now left.
  - unfold bind at 1, get at 1.
    destruct (aggregator self !! asset_) as [history |] eqn:E.
    + unfold bind at 1.
      destruct (datetime_now_later self) as (s1 & -> & L1 & B1).
      set (now := readings (wall_clock self) (reads (wall_clock self))) in *.
      assert (Ret : naive_for asset_ self -> fits (timeframe :: rest) self ->
                    exists r, get_aggregated_sentiment (aggregator self) asset_ timeframe now
                              = Returned r).
      { intros N F. unfold naive_for in N. rewrite E in N.
        cbn [default from_option] in N. unfold id in N.
        destruct (F (reads (wall_clock self)) timeframe) as [Rn Rc]; [lia | now left |].
        eexists. exact (AggregatorFacts.get_aggregated_sentiment_naive _ _ _ _ _ E N Rn Rc). }
      destruct (get_aggregated_sentiment (aggregator self) asset_ timeframe now)
        as [[sentiment_ |] | e] eqn:G.
      * destruct (IH (<[timeframe := sentiment_]> sentiments) s1)
          as (s2 & r & -> & L2 & _ & R & T).
        exists s2, r. split; [reflexivity |].
        split; [eapply later_trans; eassumption |].
        split; [discriminate |]. split.
        -- destruct r as [result | e]; [| exact R].
           intros tf a H. destruct (R tf a H) as [I | (now' & N' & G')].
           ++ destruct (decide (timeframe = tf)) as [<- | D].
              ** rewrite lookup_insert_eq in I. injection I as <-. right.
                 exists now. split; [| exact G].
                 exact (read_between_widen _ _ _ _ _ (later_refl self) L1 L2 B1).
              ** rewrite lookup_insert_ne in I by exact D. now left.
           ++ right. exists now'. split.
              ** exact (read_between_widen _ _ _ _ _ L1 L2 (later_refl s2) N').
              ** destruct L1 as (<- & _). exact G'.
        -- intros N F. apply T; [exact (naive_for_later _ _ _ L1 N) |].
           exact (fits_later _ _ _ L1 (fits_tail _ _ _ F)).
      * destruct (IH sentiments s1) as (s2 & r & -> & L2 & _ & R & T).
        exists s2, r. split; [reflexivity |].
        split; [eapply later_trans; eassumption |].
        split; [discriminate |]. split.
        -- destruct r as [result | e]; [| exact R].
           intros tf a H. destruct (R tf a H) as [I | (now' & N' & G')]; [now left |].
           right. exists now'. split.
           ++ exact (read_between_widen _ _ _ _ _ L1 L2 (later_refl s2) N').
           ++ destruct L1 as (<- & _). exact G'.
        -- intros N F. apply T; [exact (naive_for_later _ _ _ L1 N) |].
           exact (fits_later _ _ _ L1 (fits_tail _ _ _ F)).
      * exists s1, (Raised e). split; [reflexivity |]. split; [exact L1 |].
        split; [discriminate |].
        split; [exact (get_aggregated_sentiment_raised _ _ _ _ _ G) |].
        intros N F. destruct (Ret N F) as [r H]. discriminate H.
    + destruct (IH sentiments self) as (s2 & r & -> & L2 & S & R & T).
      exists s2, r. split; [reflexivity |]. split; [exact L2 |].
      split; [intros _; now apply S |]. split; [exact R |].
      intros N F. apply T; [exact N | exact (fits_tail _ _ _ F)].
Qed.

(** How a returned signal was made from the aggregates of [self]. *)
Definition made_from (asset_ : string) (self self' : SignalGeneratorState)
    (signal_ : TradingSignal) : Prop :=
  exists sentiments fear_greed,
    (forall timeframe a,
        sentiments !! timeframe = Some a ->
        exists now,
          read_between self self' now
          /\ get_aggregated_sentiment (aggregator self) asset_ timeframe now
             = Returned (Some a))
    /\ _analyze_signal_conditions sentiments fear_greed
       = (signal_type signal_, confidence signal_, strength signal_)
    /\ 7 # 10 <= confidence signal_
    /\ asset signal_ = asset_
    /\ position_size signal_
       = _calculate_position_size (confidence signal_) (strength signal_)
    /\ _calculate_price_targets asset_ (signal_type signal_) (strength signal_)
       = (target_price signal_, stop_loss signal_, take_profit signal_)
    /\ risk_reward_ratio signal_
       = _calculate_risk_reward (stop_loss signal_) (take_profit signal_)
           (target_price signal_)
    /\ signal_history self' = bounded_append 1000 (signal_history self) signal_
    /\ last_signals self' = <[asset_ := signal_]> (last_signals self).

Lemma _generate_asset_signal_cases format_fixed asset_ timeframes self :
  exists self' r,
    _generate_asset_signal format_fixed asset_ timeframes self = (self', r)
    /\ aggregator self' = aggregator self
    /\ market_history self' = market_history self
    /\ readings (wall_clock self') = readings (wall_clock self)
    /\ (reads (wall_clock self) <= reads (wall_clock self'))%nat
    /\ match r with
       | Returned None =>
           signal_history self' = signal_history self
           /\ last_signals self' = last_signals self
       | Returned (Some signal_) => made_from asset_ self self' signal_
       | Raised e =>
           date_error e
           /\ signal_history self' = signal_history self
           /\ last_signals self' = last_signals self
       end
    /\ (aggregator self !! asset_ = None -> r = Returned None /\ self' = self)
    /\ (naive_for asset_ self -> fits timeframes self -> exists x, r = Returned x).
Proof.
  unfold _generate_asset_signal. unfold bind at 1.
  destruct (query_timeframes_spec asset_ timeframes ∅ self)
    as (s1 & q & -> & L1 & S & R & T).
  destruct q as [sentiments | e].
  2:{ exists s1, (Raised e). destruct L1 as (A1 & M1 & H1 & S1 & C1 & K1).
      split; [reflexivity |]. repeat (split; [assumption |]).
      split; [auto |]. split.
      - intros N. destruct (S N) as [_ H]. discriminate H.
      - intros N F. destruct (T N F) as [x H]. discriminate H. }
  assert (R' : forall s', later s1 s' ->
             forall timeframe a,
               sentiments !! timeframe = Some a ->
               exists now,
                 read_between self s' now
                 /\ get_aggregated_sentiment (aggregator self) asset_ timeframe now
                    = Returned (Some a)).
  { intros s' L tf a H. destruct (R tf a H) as [I | (now & B & G)].
    - rewrite lookup_empty in I. discriminate.
    - exists now. split; [| exact G].
      exact (read_between_widen _ _ _ _ _ (later_refl self) L1 L B). }
  pose proof L1 as (A1 & M1 & H1 & S1 & C1 & K1).
  destruct timeframes as [| first_timeframe rest].
  { exists s1, (Returned None). repeat split; auto; try (now apply S). eauto. }
  destruct (decide (sentiments = ∅)) as [-> | NE].
  { exists s1, (Returned None). repeat split; auto; try (now apply S). eauto. }
  unfold bind at 1. destruct (datetime_now_later s1) as (s2 & -> & L2 & _).
  pose proof L2 as (A2 & M2 & H2 & S2 & C2 & K2).
  set (fear_greed := calculate_fear_greed_index _ _).
  destruct (_analyze_signal_conditions sentiments fear_greed)
    as [[signal_type_ confidence_] strength_] eqn:An.
  destruct (Qltb confidence_ (MIN_SIGNAL_CONFIDENCE trading_config)) eqn:Low.
  { exists s2, (Returned None). split; [reflexivity |].
    split; [congruence |]. split; [congruence |]. split; [congruence |]. split; [lia |].
    split; [split; congruence |]. split; [| eauto].
    intros N. destruct (S N) as [_ [= ->]]. contradiction. }
  destruct (_calculate_price_targets asset_ signal_type_ strength_)
    as [[target_price_ stop_loss_] take_profit_] eqn:Tg.
  unfold bind at 1. destruct (datetime_now_later s2) as (s3 & -> & L3 & _).
  pose proof L3 as (A3 & M3 & H3 & S3 & C3 & K3).
  unfold bind, modify, ret. cbn [fst snd].
  eexists _, (Returned (Some _)). split; [reflexivity |].
  cbn [aggregator market_history wall_clock signal_history last_signals
         set_signal_history set_last_signals].
  split; [congruence |]. split; [congruence |]. split; [congruence |]. split; [lia |].
  split; [| split; [| eauto]].
  - exists sentiments, fear_greed.
    cbn [signal_type confidence strength asset position_size target_price stop_loss
           take_profit risk_reward_ratio signal_history last_signals
           set_signal_history set_last_signals].
    split.
    { intros tf a H. destruct (R' s3 (later_trans _ _ _ L2 L3) tf a H) as (now & B & G).
      exists now. split; [| exact G]. destruct B as (k & K & ->). exists k.
      cbn [wall_clock]. split; [exact K | reflexivity]. }
    split; [exact An |].
    split.
    { apply Qnot_lt_le. intros L. apply Qltb_lt in L.
      change (MIN_SIGNAL_CONFIDENCE trading_config) with (7 # 10) in Low. congruence. }
    split; [reflexivity |]. split; [reflexivity |]. split; [exact Tg |].
    split; [reflexivity |]. split; congruence.
  - intros N. destruct (S N) as [_ [= ->]]. contradiction.
Qed.

Lemma bounded_append_last {A : Type} n (d : list A) item :
  last (bounded_append n d item) = Some item.
Proof. unfold bounded_append. destruct (n <=? length d)%nat; apply last_snoc. Qed.

Lemma made_from_ranges asset_ self self' signal_ :
  made_from asset_ self self' signal_ ->
  asset signal_ = asset_
  /\ 7 # 10 <= confidence signal_ <= 1
  /\ 0 < strength signal_ <= 1
  /\ position_size signal_ == (1 # 10) * (confidence signal_ * strength signal_)
  /\ 0 < position_size signal_ <= 1 # 10
  /\ last_signals self' !! asset_ = Some signal_
  /\ last (signal_history self') = Some signal_.
Proof.
  intros (sentiments & fear_greed & _ & An & Low & As & Ps & _ & _ & Hi & La).
  destruct (_analyze_signal_conditions_range _ _ _ _ _ An) as (S & C & N & R).
  destruct (sentiments !! 300%Z) as [short_term |] eqn:E.
  2:{ destruct (N eq_refl) as (_ & Z & _). rewrite Z in Low. lra. }
  destruct (R short_term eq_refl) as (U & _).
  assert (P : 0 < strength signal_).
  { apply Qnot_le_lt. intros L. assert (Z : strength signal_ == 0) by lra.
    rewrite Z, Qmult_0_r in U. lra. }
  assert (Q : position_size signal_ == (1 # 10) * (confidence signal_ * strength signal_)).
  { rewrite Ps. reflexivity. }
  split; [exact As |]. split; [lra |]. split; [lra |]. split; [exact Q |].
  split; [rewrite Q; nra |].
  rewrite La, Hi. split; [apply lookup_insert_eq | apply bounded_append_last].
Qed.

Lemma get_aggregated_sentiment_recent (self : sentiment_data) asset_ w now a :
  get_aggregated_sentiment self asset_ w now = Returned (Some a) ->
  exists history item,
    self !! asset_ = Some history
    /\ item ∈ history
    /\ aware (obs_timestamp item) = false
    /\ (now - w * 1000000 <= instant (obs_timestamp item))%Z.
Proof.
  intros G. apply AggregatorFacts.get_aggregated_sentiment_returned in G.
  destruct (self !! asset_) as [history |]; [| discriminate].
  destruct G as (N & _ & G).
  destruct (List.filter _ history) as [| item l] eqn:F; [discriminate |].
  exists history, item. split; [reflexivity |].
  assert (I : In item (List.filter (AggregatorFacts.in_window now w) history))
    by (rewrite F; now left).
  apply filter_In in I as [I T]. apply list_elem_of_In in I.
  split; [exact I |]. split.
  - unfold AggregatorFacts.all_naive in N. rewrite Forall_forall in N. now apply N.
  - unfold AggregatorFacts.in_window, AggregatorFacts.seconds in T.
    apply Z.leb_le in T. lia.
Qed.

(** At a reading of the clock made between [self] and [self'], an
    observation of the asset was at most five minutes old. *)
Definition backed (self self' : SignalGeneratorState) (asset_ : string) : Prop :=
  exists k history item,
    (reads (wall_clock self) <= k < reads (wall_clock self'))%nat
    /\ aggregator self !! asset_ = Some history
    /\ item ∈ history
    /\ aware (obs_timestamp item) = false
    /\ (readings (wall_clock self) k - 300 * 1000000 <= instant (obs_timestamp item))%Z.

Lemma made_from_backed asset_ self self' signal_ :
  made_from asset_ self self' signal_ -> backed self self' asset_.
Proof.
  intros (sentiments & fear_greed & Q & An & Low & _).
  destruct (_analyze_signal_conditions_range _ _ _ _ _ An) as (_ & _ & N & _).
  destruct (sentiments !! 300%Z) as [short_term |] eqn:E.
  2:{ destruct (N eq_refl) as (_ & Z & _). rewrite Z in Low. lra. }
  destruct (Q _ _ E) as (now & (k & K & ->) & G).
  destruct (get_aggregated_sentiment_recent _ _ _ _ _ G) as (history & item & H & I & A & T).
  exists k, history, item. auto.
Qed.

Lemma _generate_asset_signal_made format_fixed asset_ timeframes self self' signal_ :
  _generate_asset_signal format_fixed asset_ timeframes self = (self', Returned (Some signal_)) ->
  made_from asset_ self self' signal_.
Proof.
  intros E.
  destruct (_generate_asset_signal_cases format_fixed asset_ timeframes self)
    as (s & r & E' & _ & _ & _ & _ & M & _).
  rewrite E in E'. injection E' as <- <-. exact M.
Qed.

(** A generator that holds one strongly positive observation of BTC, read
    at the time of the observation; numbers are formatted by a stand-in. *)
Definition bullish_generator : SignalGeneratorState :=
  mkSignalGeneratorState {[ "BTC"%string := [mkObservation (naive 0) 1 1 1 TWITTER 1] ]}
    [] [] ∅ (mkClock (fun _ => 0%Z) 0).

Definition plain_format : nat -> Q -> string := fun _ _ => "0"%string.

(** X21: a signal that [_generate_asset_signal] returns is for the asset
    asked for, with a confidence of at least 0.7, a positive strength and a
    position size of a tenth of their product, so at most 0.1; it is
    recorded as the asset's last signal and as the newest entry of the
    history. *)
Theorem emitted_signal_ranges format_fixed asset_ timeframes self self' signal_ :
  _generate_asset_signal format_fixed asset_ timeframes self = (self', Returned (Some signal_)) ->
  asset signal_ = asset_
  /\ 7 # 10 <= confidence signal_ <= 1
  /\ 0 < strength signal_ <= 1
  /\ position_size signal_ == (1 # 10) * (confidence signal_ * strength signal_)
  /\ 0 < position_size signal_ <= 1 # 10
  /\ last_signals self' !! asset_ = Some signal_
  /\ last (signal_history self') = Some signal_.
Proof. intros E. eapply made_from_ranges, _generate_asset_signal_made, E. Qed.

Lemma emitted_signal_ranges_witness :
  exists self' signal_,
    _generate_asset_signal plain_format "BTC" [300; 3600; 86400]%Z bullish_generator
    = (self', Returned (Some signal_))
    /\ asset signal_ = "BTC"%string
    /\ 7 # 10 <= confidence signal_ <= 1
    /\ 0 < strength signal_ <= 1
    /\ position_size signal_ == (1 # 10) * (confidence signal_ * strength signal_)
    /\ 0 < position_size signal_ <= 1 # 10
    /\ last_signals self' !! "BTC"%string = Some signal_
    /\ last (signal_history self') = Some signal_.
Proof.
  destruct (_generate_asset_signal plain_format "BTC" [300; 3600; 86400]%Z bullish_generator)
    as [self' [[signal_ |] | e]] eqn:E; [| vm_compute in E; discriminate E ..].
  exists self', signal_. split; [reflexivity |].
  exact (emitted_signal_ranges plain_format "BTC" [300; 3600; 86400]%Z bullish_generator
           self' signal_ E).
Defined.

(** X22: no signal without fresh data: when a signal is returned, the
    aggregator holds an observation of the asset, with a naive timestamp,
    that was at most five minutes old at one of the readings of the clock
    made during the call (the readings numbered from [reads] before the
    call up to [reads] after it). *)
Theorem emitted_signal_needs_recent_data format_fixed asset_ timeframes self self' signal_ :
  _generate_asset_signal format_fixed asset_ timeframes self = (self', Returned (Some signal_)) ->
  exists k history item,
    (reads (wall_clock self) <= k < reads (wall_clock self'))%nat
    /\ aggregator self !! asset_ = Some history
    /\ item ∈ history
    /\ aware (obs_timestamp item) = false
    /\ (readings (wall_clock self) k - 300 * 1000000 <= instant (obs_timestamp item))%Z.
Proof. intros E. eapply made_from_backed, _generate_asset_signal_made, E. Qed.

Lemma emitted_signal_needs_recent_data_witness :
  exists self' signal_,
    _generate_asset_signal plain_format "BTC" [300; 3600; 86400]%Z bullish_generator
    = (self', Returned (Some signal_))
    /\ exists k history item,
         (reads (wall_clock bullish_generator) <= k < reads (wall_clock self'))%nat
         /\ aggregator bullish_generator !! "BTC"%string = Some history
         /\ item ∈ history
         /\ aware (obs_timestamp item) = false
         /\ (readings (wall_clock bullish_generator) k - 300 * 1000000
             <= instant (obs_timestamp item))%Z.
Proof.
  destruct (_generate_asset_signal plain_format "BTC" [300; 3600; 86400]%Z bullish_generator)
    as [self' [[signal_ |] | e]] eqn:E; [| vm_compute in E; discriminate E ..].
  exists self', signal_. split; [reflexivity |].
  exact (emitted_signal_needs_recent_data plain_format "BTC" [300; 3600; 86400]%Z
           bullish_generator self' signal_ E).
Defined.

Lemma _calculate_risk_reward_same stop_loss_ price_ :
  ~ stop_loss_ == 0 -> ~ price_ == 0 -> ~ price_ == stop_loss_ ->
  exists ratio,
    _calculate_risk_reward (Some stop_loss_) (Some price_) (Some price_) = Some ratio
    /\ ratio == 0.
Proof.
  intros S P D. unfold _calculate_risk_reward, truthy.
  rewrite (proj2 (Qis_zero_false stop_loss_) S), (proj2 (Qis_zero_false price_) P).
  cbn [negb andb].
  assert (R : 0 < Qabs (price_ - stop_loss_)).
  { destruct (Qlt_le_dec 0 (Qabs (price_ - stop_loss_))) as [L | L]; [exact L |].
    exfalso. apply D. pose proof (Qabs_nonneg (price_ - stop_loss_)).
    assert (Z : Qabs (price_ - stop_loss_) == 0) by lra.
    apply Qabs_Qle_condition in L. lra. }
  rewrite (proj2 (Qgtb_lt _ _) R). eexists. split; [reflexivity |].
  assert (Z : price_ - price_ == 0) by ring.
  rewrite Z. reflexivity.
Qed.

(** X23: the levels of a returned signal. HOLD carries none. BUY has its
    stop at 47500 and its target in (50000, 50750], SELL its stop at 52500
    and its target in [49250, 50000): both are laid around the fixed price
    50000. The take-profit level is the target, and the risk-reward ratio,
    taken with the target as the entry price, is 0. *)
Theorem emitted_signal_levels format_fixed asset_ timeframes self self' signal_ :
  _generate_asset_signal format_fixed asset_ timeframes self = (self', Returned (Some signal_)) ->
  match signal_type signal_ with
  | HOLD =>
      target_price signal_ = None /\ stop_loss signal_ = None
      /\ take_profit signal_ = None /\ risk_reward_ratio signal_ = None
  | BUY =>
      exists target stop ratio,
        target_price signal_ = Some target /\ take_profit signal_ = Some target
        /\ stop_loss signal_ = Some stop /\ risk_reward_ratio signal_ = Some ratio
        /\ 50000 < target <= 50750 /\ stop == 47500 /\ ratio == 0
  | SELL =>
      exists target stop ratio,
        target_price signal_ = Some target /\ take_profit signal_ = Some target
        /\ stop_loss signal_ = Some stop /\ risk_reward_ratio signal_ = Some ratio
        /\ 49250 <= target < 50000 /\ stop == 52500 /\ ratio == 0
  end.
Proof.
  intros E. pose proof (_generate_asset_signal_made _ _ _ _ _ _ E) as M.
  destruct (made_from_ranges _ _ _ _ M) as (_ & _ & S & _).
  destruct M as (_ & _ & _ & _ & _ & _ & _ & T & RR & _).
  unfold _calculate_price_targets in T. rewrite RR.
  change (TAKE_PROFIT_PERCENTAGE trading_config) with (15 # 100) in T.
  change (STOP_LOSS_PERCENTAGE trading_config) with (5 # 100) in T.
  destruct (signal_type signal_); cbn zeta in T; injection T as <- <- <-.
  - set (target := 50000 * (1 + (15 # 100) * (strength signal_ * (1 # 10)))).
    set (stop := 50000 * (1 - (5 # 100))).
    assert (B : 50000 < target <= 50750) by (unfold target; lra).
    assert (V : stop == 47500) by (unfold stop; ring).
    destruct (_calculate_risk_reward_same stop target) as (ratio & -> & Z); try lra.
    exists target, stop, ratio. auto 10.
  - set (target := 50000 * (1 - (15 # 100) * (strength signal_ * (1 # 10)))).
    set (stop := 50000 * (1 + (5 # 100))).
    assert (B : 49250 <= target < 50000) by (unfold target; lra).
    assert (V : stop == 52500) by (unfold stop; ring).
    destruct (_calculate_risk_reward_same stop target) as (ratio & -> & Z); try lra.
    exists target, stop, ratio. auto 10.
  - auto.
Qed.

Lemma emitted_signal_levels_witness :
  exists self' signal_,
    _generate_asset_signal plain_format "BTC" [300; 3600; 86400]%Z bullish_generator
    = (self', Returned (Some signal_))
    /\ match signal_type signal_ with
       | HOLD =>
           target_price signal_ = None /\ stop_loss signal_ = None
           /\ take_profit signal_ = None /\ risk_reward_ratio signal_ = None
       | BUY =>
           exists target stop ratio,
             target_price signal_ = Some target /\ take_profit signal_ = Some target
             /\ stop_loss signal_ = Some stop /\ risk_reward_ratio signal_ = Some ratio
             /\ 50000 < target <= 50750 /\ stop == 47500 /\ ratio == 0
       | SELL =>
           exists target stop ratio,
             target_price signal_ = Some target /\ take_profit signal_ = Some target
             /\ stop_loss signal_ = Some stop /\ risk_reward_ratio signal_ = Some ratio
             /\ 49250 <= target < 50000 /\ stop == 52500 /\ ratio == 0
       end.
Proof.
  destruct (_generate_asset_signal plain_format "BTC" [300; 3600; 86400]%Z bullish_generator)
    as [self' [[signal_ |] | e]] eqn:E; [| vm_compute in E; discriminate E ..].
  exists self', signal_. split; [reflexivity |].
  exact (emitted_signal_levels plain_format "BTC" [300; 3600; 86400]%Z bullish_generator
           self' signal_ E).
Defined.


(** X24: a returned BUY or SELL passes the portfolio's size check whenever
    the capital is not negative: with no open position for the asset the
    portfolio opens one. With a negative capital it is refused. *)
Theorem emitted_signal_opens_a_position
    format_fixed asset_ timeframes self self' signal_ current_price portfolio :
  _generate_asset_signal format_fixed asset_ timeframes self = (self', Returned (Some signal_)) ->
  signal_type signal_ <> HOLD ->
  Portfolio_._get_open_position portfolio asset_ = None ->
  (0 <= current_capital portfolio ->
     Portfolio_.add_signal signal_ current_price portfolio
     = (Portfolio_.set_positions
          (positions portfolio ++ [Position_.__init__ asset_ signal_ current_price])
          portfolio,
        Returned true))
  /\ (current_capital portfolio < 0 ->
        Portfolio_.add_signal signal_ current_price portfolio = (portfolio, Returned false)).
Proof.
  intros E T O. pose proof (_generate_asset_signal_made _ _ _ _ _ _ E) as M.
  destruct (made_from_ranges _ _ _ _ M) as (A & _ & _ & _ & P & _).
  assert (U : Portfolio_.add_signal signal_ current_price portfolio
              = (let position_value := current_capital portfolio * position_size signal_ in
                 if Qgtb position_value (current_capital portfolio * (95 # 100))
                 then (portfolio, Returned false)
                 else (Portfolio_.set_positions
                         (positions portfolio
                          ++ [Position_.__init__ asset_ signal_ current_price])
                         portfolio,
                       Returned true))).
  { unfold Portfolio_.add_signal.
    destruct (signal_type signal_); try contradiction;
      unfold bind, get, ret, modify; rewrite A, O; cbn zeta;
      destruct (Qgtb _ _); reflexivity. }
  rewrite U. cbn zeta. split; intros C.
  - destruct (Qgtb _ _) eqn:G; [| reflexivity].
    apply Qgtb_lt in G. nra.
  - destruct (Qgtb _ _) eqn:G; [reflexivity |].
    exfalso. assert (L : current_capital portfolio * (95 # 100)
                         < current_capital portfolio * position_size signal_) by nra.
    apply Qgtb_lt in L. congruence.
Qed.

Lemma emitted_signal_opens_a_position_witness :
  exists self' signal_,
    _generate_asset_signal plain_format "BTC" [300; 3600; 86400]%Z bullish_generator
    = (self', Returned (Some signal_))
    /\ signal_type signal_ <> HOLD
    /\ Portfolio_._get_open_position (Portfolio_.__init__ 100000) "BTC" = None
    /\ (0 <= current_capital (Portfolio_.__init__ 100000) ->
          Portfolio_.add_signal signal_ 50000 (Portfolio_.__init__ 100000)
          = (Portfolio_.set_positions
               (positions (Portfolio_.__init__ 100000)
                ++ [Position_.__init__ "BTC" signal_ 50000])
               (Portfolio_.__init__ 100000),
             Returned true))
    /\ (current_capital (Portfolio_.__init__ 100000) < 0 ->
          Portfolio_.add_signal signal_ 50000 (Portfolio_.__init__ 100000)
          = (Portfolio_.__init__ 100000, Returned false)).
Proof.
  destruct (_generate_asset_signal plain_format "BTC" [300; 3600; 86400]%Z bullish_generator)
    as [self' [[signal_ |] | e]] eqn:E; [| vm_compute in E; discriminate E ..].
  assert (T : signal_type signal_ <> HOLD).
  { vm_compute in E. injection E as _ <-. discriminate. }
  exists self', signal_. split; [reflexivity |]. split; [exact T |].
  split; [reflexivity |].
  exact (emitted_signal_opens_a_position plain_format "BTC" [300; 3600; 86400]%Z
           bullish_generator self' signal_ 50000 (Portfolio_.__init__ 100000)
           E T eq_refl).
Defined.


Lemma backed_from self s s' self' asset_ :
  later self s ->
  aggregator s' = aggregator s ->
  readings (wall_clock s') = readings (wall_clock s) ->
  (reads (wall_clock s') <= reads (wall_clock self'))%nat ->
  backed s s' asset_ -> backed self self' asset_.
Proof.
  intros (A & _ & _ & _ & R & L) A' R' L' (k & history & item & K & H & I & N & T).
  exists k, history, item. rewrite <- A, <- R. split; [lia | auto].
Qed.

(** What holds of each signal that [generate_signals] returns. *)
Definition sound_signal (self self' : SignalGeneratorState) (signal_ : TradingSignal)
  : Prop :=
  7 # 10 <= confidence signal_ <= 1
  /\ 0 < strength signal_ <= 1
  /\ 0 < position_size signal_ <= 1 # 10
  /\ backed self self' (asset signal_).

Lemma sound_signal_from self s s' self' signal_ :
  later self s ->
  aggregator s' = aggregator s ->
  readings (wall_clock s') = readings (wall_clock s) ->
  (reads (wall_clock s') <= reads (wall_clock self'))%nat ->
  sound_signal s s' signal_ -> sound_signal self self' signal_.
Proof.
  intros L A R K (C & S & P & B). split; [exact C |]. split; [exact S |].
  split; [exact P |]. exact (backed_from _ _ _ _ _ L A R K B).
Qed.

(** [self'] has the data and the clock of [self], read further. *)
Definition follows (self self' : SignalGeneratorState) : Prop :=
  aggregator self' = aggregator self
  /\ readings (wall_clock self') = readings (wall_clock self)
  /\ (reads (wall_clock self) <= reads (wall_clock self'))%nat.

Lemma for_assets_spec format_fixed timeframes l signals self :
  exists self' r,
    for_assets format_fixed timeframes l signals self = (self', r)
    /\ follows self self'
    /\ match r with
       | Returned out =>
           exists new,
             out = signals ++ new
             /\ map asset new `sublist_of` l
             /\ (forall s, follows self' s -> Forall (sound_signal self s) new)
             /\ ((forall asset_, asset_ ∈ l -> aggregator self !! asset_ = None) ->
                 new = [] /\ self' = self)
       | Raised e => date_error e
       end
    /\ ((forall asset_, asset_ ∈ l -> naive_for asset_ self) ->
        fits timeframes self -> exists out, r = Returned out).
Proof.
  revert signals self. induction l as [| asset_ rest IH]; intros signals self;
    cbn [for_assets].
  - exists self, (Returned signals). split; [reflexivity |].
    split; [repeat split; lia |]. split; [| eauto].
    exists []. rewrite app_nil_r. split; [reflexivity |]. split; [constructor |].
    split; [constructor | auto].
  - unfold bind at 1.
    destruct (_generate_asset_signal_cases format_fixed asset_ timeframes self)
      as (s1 & q & -> & A1 & _ & R1 & K1 & M & N & T).
    assert (Nv : (forall a, a ∈ asset_ :: rest -> naive_for a self) ->
                 forall a, a ∈ rest -> naive_for a s1).
    { intros H a I. unfold naive_for. rewrite A1. apply H. now right. }
    assert (Ft : fits timeframes self -> fits timeframes s1).
    { intros F k tf K I. rewrite R1. apply F; [lia | exact I]. }
    destruct q as [[signal_ |] | e].
    + destruct (IH (signals ++ [signal_]) s1) as (s2 & r & -> & (A2 & R2 & K2) & R & T').
      exists s2, r. split; [reflexivity |].
      split; [repeat split; (congruence || lia) |]. split.
      * destruct r as [out | e]; [| exact R].
        destruct R as (new & -> & Sb & F & _).
        exists (signal_ :: new). rewrite <- app_assoc. split; [reflexivity |].
        destruct (made_from_ranges _ _ _ _ M) as (As & C & S & _ & P & _).
        split; [cbn [map]; rewrite As; now apply sublist_skip |].
        split.
        -- intros s (A3 & R3 & K3). constructor.
           ++ split; [exact C |]. split; [exact S |]. split; [exact P |]. rewrite As.
              apply (backed_from self self s1 s asset_ (later_refl self) A1 R1);
                [lia |]. eapply made_from_backed, M.
           ++ eapply Forall_impl; [apply (F s); repeat split; assumption |].
              intros x (C' & S' & P' & (k & history & item & K & H & I & Nx & Tx)).
              split; [exact C' |]. split; [exact S' |]. split; [exact P' |].
              exists k, history, item. rewrite <- A1, <- R1. split; [lia | auto].
        -- intros E. destruct (N (E asset_ ltac:(left))) as [D _]. discriminate D.
      * intros Hn F. apply T'; [exact (Nv Hn) | exact (Ft F)].
    + destruct (IH signals s1) as (s2 & r & -> & (A2 & R2 & K2) & R & T').
      exists s2, r. split; [reflexivity |].
      split; [repeat split; (congruence || lia) |]. split.
      * destruct r as [out | e]; [| exact R].
        destruct R as (new & -> & Sb & F & E).
        exists new. split; [reflexivity |]. split; [now apply sublist_cons |].
        split.
        -- intros s (A3 & R3 & K3).
           eapply Forall_impl; [apply (F s); repeat split; assumption |].
           intros x (C' & S' & P' & (k & history & item & K & H & I & Nx & Tx)).
           split; [exact C' |]. split; [exact S' |]. split; [exact P' |].
           exists k, history, item. rewrite <- A1, <- R1. split; [lia | auto].
        -- intros Em. destruct (N (Em asset_ ltac:(left))) as [_ ->].
           apply E. intros a I. apply Em. now right.
      * intros Hn F. apply T'; [exact (Nv Hn) | exact (Ft F)].
    + exists s1, (Raised e). split; [reflexivity |].
      split; [repeat split; assumption |]. split; [apply M |].
      intros Hn F. destruct (T (Hn asset_ ltac:(left)) F) as [x H]. discriminate H.
Qed.

(** X25: [generate_signals] leaves the data of the aggregator as they are.
    When it returns, the assets of the signals form, in order, a
    subsequence of the tracked assets, so no asset has two signals unless
    it is tracked twice; each signal has a confidence of at least 0.7, a
    position size of at most 0.1 and, behind it, an observation at most
    five minutes old at a reading of the clock made during the call; and a
    generator that has no data returns no signal and does not read the
    clock.  When it raises, the exception is the [TypeError] or the
    [OverflowError] of the aggregator's query.  It returns whenever all the
    stored timestamps are naive and every reading of the clock to come is a
    datetime together with its cutoffs of 300, 3600 and 86400 seconds. *)
Theorem generate_signals_returns_backed_signals format_fixed keys_in_order self :
  exists self' r,
    generate_signals format_fixed keys_in_order self = (self', r)
    /\ aggregator self' = aggregator self
    /\ match r with
       | Returned signals =>
           map asset signals `sublist_of` _get_tracked_assets keys_in_order self
           /\ (NoDup (_get_tracked_assets keys_in_order self) ->
               NoDup (map asset signals))
           /\ Forall (sound_signal self self') signals
           /\ (aggregator self = ∅ -> signals = [] /\ self' = self)
       | Raised e => e = TypeError \/ e = OverflowError
       end
    /\ ((forall asset_, naive_for asset_ self) ->
        fits [300; 3600; 86400]%Z self -> exists signals, r = Returned signals).
Proof.
  unfold generate_signals. cbn zeta. unfold bind at 1, get at 1.
  destruct (for_assets_spec format_fixed
              [SHORT_TERM_WINDOW processing_config; MEDIUM_TERM_WINDOW processing_config;
               LONG_TERM_WINDOW processing_config]
              (_get_tracked_assets keys_in_order self) [] self)
    as (self' & r & -> & (A & Rd & K) & R & T).
  exists self', r. split; [reflexivity |]. split; [exact A |]. split.
  - destruct r as [signals | e]; [| exact R].
    destruct R as (new & -> & Sb & F & E). cbn [app].
    split; [exact Sb |]. split; [intros D; eapply sublist_NoDup; eassumption |].
    split; [apply F; repeat split; lia |].
    intros Em. apply E. intros a _. rewrite Em. apply lookup_empty.
  - intros N F. apply T; [intros a _; apply N | exact F].
Qed.

Lemma generate_signals_returns_backed_signals_witness :
  exists self' signals,
    generate_signals plain_format (fun m => map fst (map_to_list m)) bullish_generator
    = (self', Returned signals)
    /\ map asset signals = ["BTC"%string]
    /\ Forall (sound_signal bullish_generator self') signals.
Proof.
  destruct (generate_signals_returns_backed_signals plain_format
              (fun m => map fst (map_to_list m)) bullish_generator)
    as (self' & r & E & _ & R & _).
  destruct r as [signals | e].
  - exists self', signals. split; [exact E |]. split; [| apply R].
    apply (f_equal (fun x => match snd x with
                             | Returned l => map asset l
                             | Raised _ => []
                             end)) in E.
    vm_compute in E. symmetry. exact E.
  - apply (f_equal (fun x => match snd x with
                             | Returned _ => true
                             | Raised _ => false
                             end)) in E.
    vm_compute in E. discriminate E.
Defined.

End SignalFacts.


(** ** The trade log *)

Module TradeLogFacts.
Import Position_ Portfolio_ PortfolioFacts BacktestEngine.

(** The closed trades and the returns are only appended to, and at most
    one return is appended per trade. *)
Definition log_grows (self self' : Portfolio) : Prop :=
  closed_positions self `prefix_of` closed_positions self'
  /\ daily_returns self `prefix_of` daily_returns self'
  /\ (length (daily_returns self') + length (closed_positions self)
      <= length (closed_positions self') + length (daily_returns self))%nat.

Lemma log_grows_refl self : log_grows self self.
Proof. repeat split; (reflexivity || lia). Qed.

Lemma log_grows_same self self' :
  closed_positions self' = closed_positions self ->
  daily_returns self' = daily_returns self ->
  log_grows self self'.
Proof. intros C D. unfold log_grows. rewrite C, D. repeat split; (reflexivity || lia). Qed.

Lemma log_grows_trans a b c : log_grows a b -> log_grows b c -> log_grows a c.
Proof.
  intros (C1 & D1 & L1) (C2 & D2 & L2).
  split; [etrans; eassumption |]. split; [etrans; eassumption | lia].
Qed.

Lemma log_grows_on_position {A : Type} i (m : Py Position A) :
  stable log_grows (on_position i m).
Proof.
  intros self. unfold on_position.
  destruct (positions self !! i) as [p |]; [| apply log_grows_refl].
  destruct (m p). now apply log_grows_same.
Qed.

Lemma log_grows_settle i : stable log_grows (_settle_closed_position i).
Proof.
  intros self. destruct (positions self !! i) as [p |] eqn:E.
  - rewrite (_settle_closed_position_eq _ _ _ E).
    unfold log_grows.
    destruct (Qis_zero _); cbn; (split; [now apply prefix_app_r |]);
      (split; [reflexivity || now apply prefix_app_r |]);
      rewrite !length_app; cbn [length]; lia.
  - rewrite (_settle_closed_position_invalid _ _ E). apply log_grows_refl.
Qed.

Lemma log_grows_update_loop market_data n i :
  stable log_grows (update_loop market_data n i).
Proof.
  apply stable_update_loop.
  - apply log_grows_refl.
  - apply log_grows_trans.
  - intros. apply log_grows_on_position.
  - apply log_grows_settle.
Qed.

Lemma log_grows_update_positions market_data now :
  stable log_grows (update_positions market_data now).
Proof.
  unfold update_positions.
  apply (stable_bind log_grows log_grows_trans); [apply stable_get, log_grows_refl |].
  intros self.
  apply (stable_bind log_grows log_grows_trans); [apply log_grows_update_loop |].
  intros _.
  apply (stable_bind log_grows log_grows_trans); [apply stable_eval, log_grows_refl |].
  intros current_equity.
  apply (stable_bind log_grows log_grows_trans); [apply stable_get, log_grows_refl |].
  intros self1.
  apply (stable_bind log_grows log_grows_trans); [apply stable_eval, log_grows_refl |].
  intros point_drawdown.
  apply (stable_bind log_grows log_grows_trans).
  { apply stable_modify. intros s. now apply log_grows_same. }
  intros _. destruct (Qgtb current_equity (peak_equity self1)).
  - apply stable_modify. intros s. now apply log_grows_same.
  - apply (stable_bind log_grows log_grows_trans); [apply stable_eval, log_grows_refl |].
    intros current_drawdown. apply stable_modify. intros s. now apply log_grows_same.
Qed.

Lemma log_grows_add_signal signal current_price :
  stable log_grows (add_signal signal current_price).
Proof.
  intros self. destruct (SignalType_eqb (signal_type signal) HOLD) eqn:T.
  { unfold add_signal. destruct (signal_type signal); try discriminate.
    apply log_grows_refl. }
  rewrite add_signal_unfold by (intros E; rewrite E in T; discriminate).
  apply (stable_bind log_grows log_grows_trans).
  - destruct (_get_open_position self (asset signal)) as [i |];
      [| apply stable_ret, log_grows_refl].
    apply (stable_bind log_grows log_grows_trans);
      [apply log_grows_on_position | intros _; apply log_grows_settle].
  - intros _ s. unfold open_new. destruct (Qgtb _ _); now apply log_grows_same.
Qed.

Lemma log_grows_after calls self : log_grows self (fold_left after calls self).
Proof.
  revert self. induction calls as [| c calls IH]; intros self; [apply log_grows_refl |].
  cbn [fold_left]. eapply log_grows_trans; [| apply IH].
  destruct c; cbn [after]; [apply log_grows_add_signal | apply log_grows_update_positions].
Qed.

(** X26: whatever is called on a portfolio, the list of closed trades and
    the list of returns are only appended to, and no more returns are added
    than trades: a return is recorded only when a trade is settled. *)
Theorem trade_log_is_append_only (calls : list call) (self : Portfolio) :
  let self' := fold_left after calls self in
  closed_positions self `prefix_of` closed_positions self'
  /\ daily_returns self `prefix_of` daily_returns self'
  /\ (length (daily_returns self') - length (daily_returns self)
      <= length (closed_positions self') - length (closed_positions self))%nat.
Proof.
  intros self'. destruct (log_grows_after calls self) as (C & D & L).
  split; [exact C |]. split; [exact D |]. fold self' in L. lia.
Qed.

Lemma log_grows_for_signals (current_market_data : snapshot) l :
  stable log_grows (for_signals current_market_data l).
Proof.
  induction l as [| signal l IH]; cbn [for_signals].
  - apply stable_ret, log_grows_refl.
  - destruct (current_market_data !! asset signal) as [data |]; [| exact IH].
    apply (stable_bind log_grows log_grows_trans);
      [apply log_grows_add_signal | intros _; exact IH].
Qed.

Lemma log_grows_simulation_step symbols_ (market_data : price_data) signals_by_time clock
    current_date u :
  stable log_grows (simulation_step symbols_ market_data signals_by_time clock current_date u).
Proof.
  unfold simulation_step.
  apply (stable_bind log_grows log_grows_trans); [apply stable_eval, log_grows_refl |].
  intros current_market_data.
  apply (stable_bind log_grows log_grows_trans).
  - destruct (signals_by_time !! current_date);
      [apply log_grows_for_signals | apply stable_ret, log_grows_refl].
  - intros _. apply log_grows_update_positions.
Qed.

Lemma log_grows_while_dates {A : Type} fuel current_date end_date step
    (body : Z -> A -> Py Portfolio A) acc :
  (forall d a, stable log_grows (body d a)) ->
  stable log_grows (while_dates fuel current_date end_date step body acc).
Proof.
  intros B. revert current_date acc.
  induction fuel as [| fuel IH]; intros current_date acc; cbn [while_dates].
  - apply stable_ret, log_grows_refl.
  - destruct (current_date <=? end_date)%Z; [| apply stable_ret, log_grows_refl].
    apply (stable_bind log_grows log_grows_trans); [apply B | intros a; apply IH].
Qed.

(** What [run_backtest] returns, when it returns: the portfolio closed no
    trade, so it recorded no return either. *)
Lemma run_backtest_returned
    (list_of_set : list string -> list string) (signals : list TradingSignal)
    (start_date_ end_date_ : Z) (capital : Q) (symbols_ : option (list string))
    (rng : Rng) (clock : Z -> Z) (r : BacktestResult) :
  run_backtest list_of_set signals start_date_ end_date_ capital symbols_ rng clock
  = Returned r ->
  sharpe_ratio r = SharpeZero
  /\ avg_trade_duration r = 0
  /\ total_trades r = 0%Z
  /\ start_date r = start_date_
  /\ end_date r = end_date_
  /\ length (details_equity_curve (details r)) = iterations start_date_ end_date_ (minutes 5).
Proof.
  unfold run_backtest.
  destruct (snd (MockMarketData_.generate_price_data _ _ _ _)) as [market_data | e];
    [| discriminate].
  unfold run_simulation.
  match goal with
  | |- context [while_dates ?f ?d0 ?e0 ?s0 ?b0 ?a0 ?p0] =>
      pose proof (log_grows_while_dates f d0 e0 s0 b0 a0
                    (fun x y => log_grows_simulation_step _ _ _ _ x y) p0) as G;
      destruct (while_dates f d0 e0 s0 b0 a0 p0) as [portfolio [[] | e']] eqn:W;
        [| discriminate]
  end.
  apply SimulationFacts.while_dates_points in W; [| lia].
  cbn [fst] in G. destruct G as (_ & D & L).
  unfold _calculate_results. destruct (py_div _ _) as [total_return | e]; [| discriminate].
  destruct (closed_positions portfolio) eqn:C; [| discriminate].
  assert (R : daily_returns portfolio = []).
  { cbn in L. destruct (daily_returns portfolio); [reflexivity | cbn in L; lia]. }
  rewrite R. intros [= <-]. repeat split. exact W.
Qed.

(** X27: a backtest that returns reports a Sharpe ratio of 0 and an average
    trade duration of 0, over the dates it was given: it closed no trade,
    and returns are recorded only when a trade is settled. *)
Theorem returned_result_has_zero_sharpe
    (list_of_set : list string -> list string) (signals : list TradingSignal)
    (start_date_ end_date_ : Z) (capital : Q) (symbols_ : option (list string))
    (rng : Rng) (clock : Z -> Z) (r : BacktestResult) :
  run_backtest list_of_set signals start_date_ end_date_ capital symbols_ rng clock
  = Returned r ->
  sharpe_ratio r = SharpeZero
  /\ avg_trade_duration r = 0
  /\ start_date r = start_date_
  /\ end_date r = end_date_.
Proof.
  intros E. destruct (run_backtest_returned _ _ _ _ _ _ _ _ _ E) as (S & A & _ & B & F & _).
  auto.
Qed.

Lemma returned_result_has_zero_sharpe_witness :
  exists r,
    EngineFacts.run_X EngineFacts.draws_a (fun t => t) = Returned r
    /\ sharpe_ratio r = SharpeZero
    /\ avg_trade_duration r = 0
    /\ start_date r = 0%Z
    /\ end_date r = minutes 5.
Proof.
  destruct (EngineFacts.run_X EngineFacts.draws_a (fun t => t)) as [r | e] eqn:E;
    [| vm_compute in E; discriminate E].
  exists r. split; [reflexivity |].
  exact (returned_result_has_zero_sharpe _ _ _ _ _ _ _ _ r E).
Defined.

(** X28: a strategy backtest that returns covers the thirty days up to the
    call in 8641 five-minute steps, one equity point each, and reports no
    trade and a Sharpe ratio of 0. *)
Theorem run_strategy_backtest_covers_thirty_days
    (list_of_set : list string -> list string) (signals : list TradingSignal)
    (now : Z) (rng : Rng) (clock : Z -> Z) (r : BacktestResult) :
  run_strategy_backtest list_of_set signals now rng clock = Returned r ->
  start_date r = (now - days 30)%Z
  /\ end_date r = now
  /\ Z.of_nat (length (details_equity_curve (details r))) = 8641%Z
  /\ total_trades r = 0%Z
  /\ sharpe_ratio r = SharpeZero.
Proof.
  unfold run_strategy_backtest. cbn zeta. intros E.
  destruct (run_backtest_returned _ _ _ _ _ _ _ _ _ E) as (S & _ & T & B & F & L).
  split; [exact B |]. split; [exact F |]. split; [| auto].
  rewrite L. unfold iterations, days, minutes.
  replace (now - (now - 30 * 86400 * 1000000))%Z with 2592000000000%Z by lia.
  reflexivity.
Qed.


(** Whether a call returned. *)
Definition returned {A : Type} (o : outcome A) : bool :=
  match o with
  | Returned _ => true
  | Raised _ => false
  end.

Lemma returned_value {A : Type} (o : outcome A) :
  returned o = true -> exists a, o = Returned a.
Proof. destruct o as [a | e]; [eauto | discriminate]. Qed.

Lemma run_strategy_backtest_covers_thirty_days_witness :
  exists r,
    run_strategy_backtest remove_dups [] (days 30) (EngineFacts.stream []) (fun t => t)
    = Returned r
    /\ start_date r = (days 30 - days 30)%Z
    /\ end_date r = days 30
    /\ Z.of_nat (length (details_equity_curve (details r))) = 8641%Z
    /\ total_trades r = 0%Z
    /\ sharpe_ratio r = SharpeZero.
Proof.
  destruct (returned_value
              (run_strategy_backtest remove_dups [] (days 30) (EngineFacts.stream [])
                 (fun t => t))) as [r E]; [vm_compute; reflexivity |].
  exists r. split; [exact E |].
  exact (run_strategy_backtest_covers_thirty_days _ _ _ _ _ r E).
Defined.

End TradeLogFacts.

(** ** From documents to aggregates *)

Module FedRangeFacts.
Import SentimentAggregator AggregatorWrites IngestFacts AggregateRangeFacts.

(** A document as the sentiment analysis is meant to deliver them: score
    in [[-1, 1]], confidence in [[0, 1]], relevance and engagement counts
    not negative. *)
Definition sane (data : ProcessedData) : Prop :=
  -1 <= score (sentiment data) <= 1
  /\ 0 <= score_confidence (sentiment data) <= 1
  /\ 0 <= relevance_score data
  /\ (forall key count, metadata (raw_data data) !! key = Some count -> 0 <= count).

Lemma _calculate_volume_proxy_range data :
  sane data -> relevance_score data <= _calculate_volume_proxy data.
Proof.
  intros (_ & _ & R & M). unfold _calculate_volume_proxy.
  set (metadata_ := metadata (raw_data data)) in *.
  assert (V1 : 1 <= match metadata_ !! "likes"%string with
                    | Some likes => 1 + likes * (1 # 100)
                    | None => 1
                    end).
  { destruct (metadata_ !! "likes"%string) as [likes |] eqn:E; [| lra].
    pose proof (M _ _ E). lra. }
  set (v1 := match metadata_ !! "likes"%string with Some _ => _ | None => _ end) in *.
  assert (V2 : 1 <= match metadata_ !! "retweets"%string with
                    | Some retweets => v1 + retweets * (5 # 100)
                    | None => v1
                    end).
  { destruct (metadata_ !! "retweets"%string) as [retweets |] eqn:E; [| lra].
    pose proof (M _ _ E). lra. }
  set (v2 := match metadata_ !! "retweets"%string with Some _ => _ | None => _ end) in *.
  assert (V3 : 1 <= match metadata_ !! "comments"%string with
                    | Some comments => v2 + comments * (2 # 100)
                    | None => v2
                    end).
  { destruct (metadata_ !! "comments"%string) as [comments |] eqn:E; [| lra].
    pose proof (M _ _ E). lra. }
  set (v3 := match metadata_ !! "comments"%string with Some _ => _ | None => _ end) in *.
  cbn zeta. fold v1. fold v2. fold v3. nra.
Qed.

Lemma observation_of_in_range data : sane data -> in_range (observation_of data).
Proof.
  intros S. pose proof (_calculate_volume_proxy_range data S) as V.
  destruct S as (Sc & C & R & _). unfold in_range, observation_of.
  cbn [obs_sentiment_score obs_confidence volume_proxy]. repeat split; try apply Sc;
    try apply C. lra.
Qed.

(** Every recorded observation is in range. *)
Definition all_in_range (self : sentiment_data) : Prop :=
  forall asset_ history, self !! asset_ = Some history -> Forall in_range history.

Lemma record_observation_in_range asset_ item self :
  in_range item -> all_in_range self -> all_in_range (record_observation asset_ item self).
Proof.
  intros I A a h. destruct (decide (asset_ = a)) as [<- | N].
  - rewrite record_observation_eq. intros [= <-].
    assert (F : Forall in_range (default [] (self !! asset_))).
    { destruct (self !! asset_) as [d |] eqn:E; [apply (A _ _ E) | constructor]. }
    unfold deque_append. destruct (maxlen <=? _)%nat; apply Forall_app; split;
      try (now apply Forall_drop); try exact F; now apply Forall_singleton.
  - rewrite record_observation_ne by exact N. apply A.
Qed.

Lemma add_sentiment_data_in_range data self :
  sane data -> all_in_range self -> all_in_range (add_sentiment_data data self).
Proof.
  intros S. unfold add_sentiment_data. generalize (_extract_assets data) as assets.
  intros assets. revert self. induction assets as [| a l IH]; intros self A;
    cbn [fold_left]; [exact A |].
  apply IH, record_observation_in_range; [now apply observation_of_in_range | exact A].
Qed.

Lemma fed_in_range feed self :
  Forall sane feed -> all_in_range self -> all_in_range (fed feed self).
Proof.
  intros F. revert self. induction F as [| data rest S _ IH]; intros self A; [exact A |].
  apply IH, add_sentiment_data_in_range; assumption.
Qed.

(** X20: the volume proxy of a document in range (score in [[-1, 1]],
    confidence in [[0, 1]], relevance and engagement counts not negative) is
    at least its relevance, and an aggregator fed with such documents
    returns only aggregates in range: mean score and volume-weighted score
    in [[-1, 1]], confidence in [[0, 1]], momentum in [[-2, 2]]. *)
Theorem aggregates_of_sane_documents_are_in_range feed :
  Forall sane feed ->
  Forall (fun data => relevance_score data <= _calculate_volume_proxy data) feed
  /\ forall asset_ w now a,
       get_aggregated_sentiment (fed feed ∅) asset_ w now = Returned (Some a) ->
       -1 <= sentiment_score a <= 1
       /\ 0 <= agg_confidence a <= 1
       /\ -1 <= volume_weighted_score a <= 1
       /\ -2 <= momentum a <= 2.
Proof.
  intros F. split.
  { eapply Forall_impl; [exact F |]. intros data S.
    now apply _calculate_volume_proxy_range. }
  intros asset_ w now a G.
  assert (A : all_in_range (fed feed ∅)).
  { apply fed_in_range; [exact F |]. intros x h. rewrite lookup_empty. discriminate. }
  apply AggregatorFacts.get_aggregated_sentiment_returned in G.
  destruct (fed feed ∅ !! asset_) as [history |] eqn:E; [| discriminate].
  destruct G as (_ & _ & G).
  pose proof (recent_in_range (AggregatorFacts.in_window now w) history (A _ _ E)) as FR.
  destruct (List.filter _ history) as [| x l]; [discriminate |].
  injection G as ->. apply aggregate_range; [discriminate | exact FR].
Qed.

(** One tweet about Bitcoin with 200 likes. *)
Definition liked_tweet : ProcessedData :=
  mkProcessedData (mkRawData "1" TWITTER (naive 0) "to the moon" None
                     {[ "likes"%string := 200 ]})
    (mkSentimentScore POSITIVE 1 (1 # 2) []) ["Bitcoin"]%string 1 "en".

Lemma aggregates_of_sane_documents_are_in_range_witness :
  Forall (fun data => relevance_score data <= _calculate_volume_proxy data) [liked_tweet]
  /\ exists a,
       get_aggregated_sentiment (fed [liked_tweet] ∅) "BTC" 300 1000000 = Returned (Some a)
       /\ -1 <= sentiment_score a <= 1
       /\ 0 <= agg_confidence a <= 1
       /\ -1 <= volume_weighted_score a <= 1
       /\ -2 <= momentum a <= 2.
Proof.
  assert (S : Forall sane [liked_tweet]).
  { constructor; [| constructor]. unfold sane, liked_tweet.
    cbn [score sentiment score_confidence relevance_score metadata raw_data].
    split; [lra |]. split; [lra |]. split; [lra |].
    intros key count H. apply lookup_singleton_Some in H as [_ <-]. lra. }
  destruct (aggregates_of_sane_documents_are_in_range [liked_tweet] S) as [V R].
  split; [exact V |].
  destruct (get_aggregated_sentiment (fed [liked_tweet] ∅) "BTC" 300 1000000)
    as [[a |] | e] eqn:G; [| vm_compute in G; discriminate G ..].
  exists a. split; [reflexivity |]. exact (R "BTC"%string 300%Z 1000000%Z a G).
Defined.

End FedRangeFacts.
